(** * Session authentication of the Wolf of Wall Street.site backend

    A shallow embedding of [main.py] (the FastAPI handlers [signup],
    [login], [me], the watchlist handlers and the guard [require_auth])
    together with the parts of the Python runtime, [hashlib], [bson] and
    [pymongo] that these handlers call.

    Python [str] values are modelled by Rocq strings holding their UTF-8
    bytes, so that [str.encode()] is the identity on the representation.
    A [datetime] is the number of microseconds since the epoch.  The
    document store, the clock, the random token source and the ObjectId
    generator are threaded through an explicit state-and-exception monad. *)

From Stdlib Require Import ZArith Ascii String List Lia.
From stdpp Require Import base option gmap strings list.

Local Open Scope Z_scope.
Local Set Warnings "-register-all".

(** ** hashlib: SHA-256 (FIPS 180-4) over a list of bytes *)

Module hashlib.

Definition mask32 : Z := 0xffffffff.

Definition add32 (x y : Z) : Z := Z.land (x + y) mask32.

Definition rotr (n x : Z) : Z :=
  Z.land (Z.lor (Z.shiftr x n) (Z.shiftl x (32 - n))) mask32.

Definition Ch (x y z : Z) : Z :=
  Z.lxor (Z.land x y) (Z.land (Z.lxor x mask32) z).

Definition Maj (x y z : Z) : Z :=
  Z.lxor (Z.lxor (Z.land x y) (Z.land x z)) (Z.land y z).

Definition Sigma0 (x : Z) : Z := Z.lxor (Z.lxor (rotr 2 x) (rotr 13 x)) (rotr 22 x).
Definition Sigma1 (x : Z) : Z := Z.lxor (Z.lxor (rotr 6 x) (rotr 11 x)) (rotr 25 x).
Definition sigma0 (x : Z) : Z := Z.lxor (Z.lxor (rotr 7 x) (rotr 18 x)) (Z.shiftr x 3).
Definition sigma1 (x : Z) : Z := Z.lxor (Z.lxor (rotr 17 x) (rotr 19 x)) (Z.shiftr x 10).

(** The round constants are the first 32 bits of the fractional parts
    of the cube roots of the first 64 primes, the initial hash value
    those of the square roots of the first 8 primes. *)
Definition is_prime (n : Z) : bool :=
  (2 <=? n) && forallb (fun d => negb (n mod d =? 0)) (seqZ 2 (n - 2)).

Definition primes : list Z := List.filter is_prime (seqZ 2 310).

(** The integer cube root of [n], one bit at a time from bit [bits - 1]. *)
Fixpoint cube_root (bits : nat) (n acc : Z) : Z :=
  match bits with
  | O => acc
  | S b =>
      let c := acc + 2 ^ Z.of_nat b in
      if c * c * c <=? n then cube_root b n c else cube_root b n acc
  end.

Definition K : list Z :=
  Eval vm_compute in
    (fun p => Z.land (cube_root 35 (p * 2 ^ 96) 0) mask32) <$> primes.

Definition H0 : list Z :=
  Eval vm_compute in
    (fun p => Z.land (Z.sqrt (p * 2 ^ 64)) mask32) <$> take 8 primes.

(** Big-endian encoding of [x] on [n] bytes. *)
Fixpoint be_bytes (n : nat) (x : Z) : list Z :=
  match n with
  | O => []
  | S n' => Z.land (Z.shiftr x (8 * Z.of_nat n')) 0xff :: be_bytes n' x
  end.

Definition be_word (bs : list Z) : Z :=
  fold_left (fun acc b => Z.lor (Z.shiftl acc 8) b) bs 0.

(** Message padding: a 1 bit, zeros up to 56 mod 64, the bit length on 8 bytes. *)
Definition pad (msg : list Z) : list Z :=
  let len := Z.of_nat (length msg) in
  let zeros := Z.to_nat ((55 - len) mod 64) in
  msg ++ 0x80 :: repeat 0 zeros ++ be_bytes 8 (8 * len).

Fixpoint chunks {A} (k n : nat) (l : list A) : list (list A) :=
  match n with
  | O => []
  | S n' => take k l :: chunks k n' (drop k l)
  end.

(** The 64 words of the message schedule, from a sliding window of 16. *)
Fixpoint schedule (n : nat) (win : list Z) : list Z :=
  match n with
  | O => []
  | S n' =>
      let w t := nth t win 0 in
      let new := add32 (add32 (add32 (sigma1 (w 14%nat)) (w 9%nat)) (sigma0 (w 1%nat))) (w 0%nat) in
      w 0%nat :: schedule n' (tl win ++ [new])
  end.

Definition round (st : list Z) (kw : Z * Z) : list Z :=
  match st with
  | [a; b; c; d; e; f; g; h] =>
      let t1 := add32 (add32 (add32 (add32 h (Sigma1 e)) (Ch e f g)) (fst kw)) (snd kw) in
      let t2 := add32 (Sigma0 a) (Maj a b c) in
      [add32 t1 t2; a; b; c; add32 d t1; e; f; g]
  | _ => st
  end.

Definition compress (h : list Z) (block : list Z) : list Z :=
  let w := schedule 64 (be_word <$> chunks 4 16 block) in
  let st := fold_left round (zip K w) h in
  zip_with add32 h st.

Definition hexdigit (n : Z) : ascii :=
  default "0"%char (String.get (Z.to_nat n) "0123456789abcdef").

Definition hex_byte (b : Z) : string :=
  String (hexdigit (Z.shiftr b 4)) (String (hexdigit (Z.land b 0xf)) EmptyString).

Definition hexlify (bs : list Z) : string :=
  fold_right (fun b acc => hex_byte b +:+ acc) EmptyString bs.

Definition bytes_of_string (s : string) : list Z :=
  (fun c => Z.of_N (N_of_ascii c)) <$> list_ascii_of_string s.

Definition sha256_digest (msg : list Z) : list Z :=
  let p := pad msg in
  let h := fold_left compress (chunks 64 (length p / 64) p) H0 in
  h ≫= be_bytes 4.

(** [sha256(data).hexdigest()] *)
Definition sha256_hexdigest (msg : list Z) : string := hexlify (sha256_digest msg).

End hashlib.

Local Open Scope string_scope.
Local Open Scope list_scope.

(** ** The Python runtime: values, exceptions, string methods *)

(** An ObjectId is twelve bytes; it is kept here as the 24 lower-case
    hexadecimal digits that [str(oid)] prints. *)
Definition is_lower_hex (c : ascii) : bool :=
  let n := N_of_ascii c in
  ((48 <=? n)%N && (n <=? 57)%N) || ((97 <=? n)%N && (n <=? 102)%N).

Definition is_oid_hex (s : string) : bool :=
  (String.length s =? 24)%nat && forallb is_lower_hex (list_ascii_of_string s).

Record ObjectId := mkObjectId {
  oid_hex : string;
  oid_wf : Is_true (is_oid_hex oid_hex)
}.

(** Scalar values held in the fields of stored documents. *)
Inductive value :=
  | VNone
  | VBool (b : bool)
  | VStr (s : string)
  | VOid (o : ObjectId)
  | VDate (t : Z).

(** Python objects returned by the handlers. *)
Inductive obj :=
  | Atom (v : value)
  | Dict (items : list (string * obj))
  | List (elems : list obj).

Inductive exn :=
  | HTTPException (status_code : Z) (detail : string)
  | InvalidId          (* bson.errors.InvalidId *)
  | DuplicateKeyError  (* pymongo.errors.DuplicateKeyError *)
  | KeyError (key : string)
  | IndexError
  | TypeError.

Module py.

(** [s.startswith(prefix)] *)
Definition startswith (s prefix : string) : bool := String.prefix prefix s.

(** [s.split(sep, 1)] for a one-character separator: cut at the first
    occurrence of [sep], or return [[s]] when there is none. *)
Fixpoint split_once (sep : ascii) (s : string) : list string :=
  match s with
  | EmptyString => [EmptyString]
  | String c r =>
      if Ascii.eqb c sep then [EmptyString; r]
      else match split_once sep r with
           | h :: t => String c h :: t
           | [] => []
           end
  end.

(** [datetime.timedelta(days=n)], in microseconds. *)
Definition timedelta_days (n : Z) : Z := n * 86400 * 1000000.

End py.

(** ** bson: ObjectId *)

Module bson.

(** Hexadecimal digits are accepted in either case and stored in lower case. *)
Definition lower_hex (c : ascii) : ascii :=
  let n := N_of_ascii c in
  if (65 <=? n)%N && (n <=? 70)%N then ascii_of_N (n + 32) else c.

Fixpoint lower (s : string) : string :=
  match s with
  | EmptyString => EmptyString
  | String c r => String (lower_hex c) (lower r)
  end.

(** [ObjectId(s)] for a [str], by the documented contract of [bson]: a
    string of 24 hexadecimal digits is accepted, anything else raises
    [InvalidId] ([None] here). *)
Definition of_str (s : string) : option ObjectId :=
  match decide (Is_true (is_oid_hex (lower s))) with
  | left H => Some (mkObjectId (lower s) H)
  | right _ => None
  end.

(** [str(oid)] *)
Definition str (o : ObjectId) : string := oid_hex o.

(** A BSON datetime is an int64 count of milliseconds since the epoch.
    A Python [datetime] counts microseconds ([t] here, since the epoch):
    the driver encodes it with [microsecond // 1000] and decodes the
    count back to a [datetime] on the millisecond. *)
Definition datetime_to_millis (t : Z) : Z := t / 1000.

Definition millis_to_datetime (ms : Z) : Z := ms * 1000.

(** The value that the database holds, and returns, for a value written. *)
Definition encode_value (v : value) : value :=
  match v with
  | VDate t => VDate (millis_to_datetime (datetime_to_millis t))
  | _ => v
  end.

Definition encode (doc : gmap string value) : gmap string value := encode_value <$> doc.

End bson.

#[global] Instance ObjectId_eq_dec : EqDecision ObjectId.
Proof.
  intros [x Hx] [y Hy]. destruct (decide (x = y)) as [->|Hne].
  - left. f_equal. apply proof_irrel.
  - right. intros [=]. done.
Defined.

#[global] Instance value_eq_dec : EqDecision value.
Proof. solve_decision. Defined.

(** ** Stored documents and the world the handlers run in *)

(** A stored document: MongoDB gives every document an [_id]; the
    handlers never supply one, so it is always a driver-generated ObjectId. *)
Record document := Doc {
  _id : ObjectId;
  fields : gmap string value
}.

Record world := World {
  db : gmap string (list document);   (* collection name -> documents, in insertion order *)
  clock : nat -> Z;                   (* the future readings of datetime.now(timezone.utc) *)
  entropy : nat -> string;            (* the future results of secrets.token_urlsafe(32) *)
  oid_gen : nat -> ObjectId           (* the future results of ObjectId() *)
}.

(** Computations that read and write the world and may raise. *)
Definition M (A : Type) : Type := world -> (exn + A) * world.

Definition ret {A} (a : A) : M A := fun w => (inr a, w).

Definition raise {A} (e : exn) : M A := fun w => (inl e, w).

Definition bind {A B} (c : M A) (k : A -> M B) : M B :=
  fun w =>
    match c w with
    | (inr a, w') => k a w'
    | (inl e, w') => (inl e, w')
    end.

Notation "x <- c1 ;; c2" := (bind c1 (fun x => c2))
  (at level 20, c1 at level 99, c2 at level 200, only parsing).

Fixpoint mapM {A B} (f : A -> M B) (l : list A) : M (list B) :=
  match l with
  | [] => ret []
  | x :: r => y <- f x ;; ys <- mapM f r ;; ret (y :: ys)
  end.

(** ** Effects: clock, randomness, identifier generation *)

Module datetime.
(** [datetime.now(timezone.utc)]: take the next reading of the clock. *)
Definition now : M Z := fun w =>
  (inr (clock w 0%nat),
   World (db w) (fun n => clock w (S n)) (entropy w) (oid_gen w)).
End datetime.

Module secrets.
(** [secrets.token_urlsafe(nbytes)]: take the next random token. *)
Definition token_urlsafe (nbytes : Z) : M string := fun w =>
  (inr (entropy w 0%nat),
   World (db w) (clock w) (fun n => entropy w (S n)) (oid_gen w)).
End secrets.

(** [ObjectId()]: take the next generated identifier. *)
Definition new_ObjectId : M ObjectId := fun w =>
  (inr (oid_gen w 0%nat),
   World (db w) (clock w) (entropy w) (fun n => oid_gen w (S n))).

(** [ObjectId(v)] for a value read from a document or a request. *)
Definition ObjectId_of (v : value) : M ObjectId :=
  match v with
  | VStr s =>
      match bson.of_str s with
      | Some o => ret o
      | None => raise InvalidId
      end
  | VOid o => ret o
  | VNone => new_ObjectId
  | VBool _ | VDate _ => raise TypeError
  end.

(** ** Documents as Python dicts *)

(** [d.get(k)], as an option *)
Definition lookup_field (d : document) (k : string) : option value :=
  if decide (k = "_id") then Some (VOid (_id d)) else fields d !! k.

(** [d[k]] *)
Definition getitem (d : document) (k : string) : M value :=
  match lookup_field d k with
  | Some v => ret v
  | None => raise (KeyError k)
  end.

(** [d.get(k, default)] *)
Definition get (d : document) (k : string) (default : value) : value :=
  match lookup_field d k with
  | Some v => v
  | None => default
  end.

(** ** pymongo: collections of the shared database [db] *)

Module pymongo.

(** [db[name]]: a collection that was never written to is empty. *)
Definition collection (name : string) (w : world) : list document :=
  default [] (db w !! name).

Definition set_collection (name : string) (docs : list document) : M unit := fun w =>
  (inr tt, World (<[name := docs]> (db w)) (clock w) (entropy w) (oid_gen w)).

(** An equality filter [{k: v, ...}]: every listed field equals the
    given value; a [None] in the filter also matches a missing field. *)
Definition field_matches (d : document) (kv : string * value) : bool :=
  match lookup_field d (fst kv) with
  | Some v => bool_decide (v = snd kv)
  | None => bool_decide (snd kv = VNone)
  end.

Definition matches (flt : list (string * value)) (d : document) : bool :=
  forallb (field_matches d) flt.

(** [db[name].find_one(flt)]: the first matching document, or [None]. *)
Definition find_one (name : string) (flt : list (string * value)) : M (option document) :=
  fun w => (inr (find (matches flt) (collection name w)), w).

(** [db[name].find(flt)] *)
Definition find_all (name : string) (flt : list (string * value)) : M (list document) :=
  fun w => (inr (List.filter (matches flt) (collection name w)), w).

(** [db[name].insert_one(doc)]: the driver adds a fresh [_id] and writes
    the document in its BSON form; the unique index on [_id] rejects an
    identifier that is already stored. *)
Definition insert_one (name : string) (doc : gmap string value) : M ObjectId :=
  oid <- new_ObjectId ;;
  fun w =>
    let docs := collection name w in
    if existsb (fun d => bool_decide (_id d = oid)) docs
    then raise DuplicateKeyError w
    else (_ <- set_collection name (docs ++ [Doc oid (bson.encode doc)]) ;; ret oid) w.

Fixpoint remove_first (p : document -> bool) (docs : list document) : list document :=
  match docs with
  | [] => []
  | d :: r => if p d then r else d :: remove_first p r
  end.

(** [db[name].delete_one(flt).deleted_count] *)
Definition delete_one (name : string) (flt : list (string * value)) : M Z :=
  fun w =>
    let docs := collection name w in
    match find (matches flt) docs with
    | Some _ => (_ <- set_collection name (remove_first (matches flt) docs) ;; ret 1) w
    | None => ret 0 w
    end.

End pymongo.

(** ** schemas.py *)

Class BaseModel (A : Type) := model_dump : A -> gmap string value.

Definition opt_str (o : option string) : value :=
  match o with Some s => VStr s | None => VNone end.

Definition opt_date (o : option Z) : value :=
  match o with Some t => VDate t | None => VNone end.

Record User := mkUser {
  user_name : string;
  user_email : string;
  user_hashed_password : string;
  user_avatar_url : option string;
  user_plan : string;
  user_created_at : option Z;
  user_updated_at : option Z
}.

#[global] Instance User_model : BaseModel User := fun u =>
  {[ "name" := VStr (user_name u);
     "email" := VStr (user_email u);
     "hashed_password" := VStr (user_hashed_password u);
     "avatar_url" := opt_str (user_avatar_url u);
     "plan" := VStr (user_plan u);
     "created_at" := opt_date (user_created_at u);
     "updated_at" := opt_date (user_updated_at u) ]}.

(** ** database.py *)

(** Modelled from the spec: [database.py], which defines [db] and
    [create_document], is not among the sources.  The User Store's
    [create] operation "assigns creation and update timestamps at
    creation" and "returns the newly assigned identity"; [signup] uses
    that identity as a string, in the session record and in the response.
    The duplicate-email test of [create] is the check-then-insert that
    the spec attributes to the source: it is [signup]'s own [find_one]. *)
Definition create_document {A} `{BaseModel A} (collection_name : string) (data : A) : M string :=
  created <- datetime.now ;;
  updated <- datetime.now ;;
  let data_dict :=
    <["updated_at" := VDate updated]> (<["created_at" := VDate created]> (model_dump data)) in
  inserted_id <- pymongo.insert_one collection_name data_dict ;;
  ret (bson.str inserted_id).

(** ** main.py *)

Definition hash_password (password : string) : string :=
  hashlib.sha256_hexdigest (hashlib.bytes_of_string password).

(** The value returned by [require_auth]: [{"user": user, "session": session}]. *)
Record auth_ctx := Ctx {
  ctx_user : document;
  ctx_session : document
}.

(** A stored document always holds [_id], so it is a non-empty dict and
    [not session] is true exactly when [find_one] returned [None]. *)
Definition require_auth (authorization : option string) : M auth_ctx :=
  match authorization with
  | None => raise (HTTPException 401 "Missing token")
  | Some authorization =>
      if bool_decide (authorization = "") || negb (py.startswith authorization "Bearer ")
      then raise (HTTPException 401 "Missing token")
      else
        token <- match py.split_once " " authorization !! 1%nat with
                 | Some t => ret t
                 | None => raise IndexError
                 end ;;
        session <- pymongo.find_one "session" [("token", VStr token)] ;;
        match session with
        | None => raise (HTTPException 401 "Invalid token")
        | Some session =>
            user_id <- getitem session "user_id" ;;
            oid <- ObjectId_of user_id ;;
            user <- pymongo.find_one "user" [("_id", VOid oid)] ;;
            match user with
            | None => raise (HTTPException 401 "User not found")
            | Some user => ret (Ctx user session)
            end
        end
  end.

(** Request bodies, as pydantic hands them to the handlers: validated,
    with the email already in its normalised form. *)
Record SignupRequest := mkSignupRequest {
  signup_name : string;
  signup_email : string;
  signup_password : string
}.

Record LoginRequest := mkLoginRequest {
  login_email : string;
  login_password : string
}.

Definition read_root : M obj :=
  ret (Dict [("message", Atom (VStr "Wolf of Wall Street.site Backend Running"))]).

(** [if existing:] holds exactly when [find_one] returned a document. *)
Definition signup (payload : SignupRequest) : M obj :=
  existing <- pymongo.find_one "user" [("email", VStr (signup_email payload))] ;;
  match existing with
  | Some _ => raise (HTTPException 400 "Email already registered")
  | None =>
      let hashed := hash_password (signup_password payload) in
      created <- datetime.now ;;
      updated <- datetime.now ;;
      let user := mkUser (signup_name payload) (signup_email payload) hashed
                         None "free" (Some created) (Some updated) in
      user_id <- create_document "user" user ;;
      token <- secrets.token_urlsafe 32 ;;
      created_at <- datetime.now ;;
      expires_base <- datetime.now ;;
      _ <- pymongo.insert_one "session"
             {[ "user_id" := VStr user_id;
                "token" := VStr token;
                "created_at" := VDate created_at;
                "expires_at" := VDate (expires_base + py.timedelta_days 7) ]} ;;
      ret (Dict [("token", Atom (VStr token));
                 ("user", Dict [("id", Atom (VStr user_id));
                                ("name", Atom (VStr (user_name user)));
                                ("email", Atom (VStr (user_email user)))])])
  end.

Definition login (payload : LoginRequest) : M obj :=
  user <- pymongo.find_one "user" [("email", VStr (login_email payload))] ;;
  match user with
  | None => raise (HTTPException 401 "Invalid credentials")
  | Some user =>
      if negb (bool_decide (get user "hashed_password" VNone
                            = VStr (hash_password (login_password payload))))
      then raise (HTTPException 401 "Invalid credentials")
      else
        token <- secrets.token_urlsafe 32 ;;
        created_at <- datetime.now ;;
        expires_base <- datetime.now ;;
        _ <- pymongo.insert_one "session"
               {[ "user_id" := VStr (bson.str (_id user));
                  "token" := VStr token;
                  "created_at" := VDate created_at;
                  "expires_at" := VDate (expires_base + py.timedelta_days 7) ]} ;;
        name <- getitem user "name" ;;
        email <- getitem user "email" ;;
        ret (Dict [("token", Atom (VStr token));
                   ("user", Dict [("id", Atom (VStr (bson.str (_id user))));
                                  ("name", Atom name);
                                  ("email", Atom email)])])
  end.

Definition me (ctx : auth_ctx) : M obj :=
  let u := ctx_user ctx in
  ret (Dict [("id", Atom (VStr (bson.str (_id u))));
             ("name", Atom (get u "name" VNone));
             ("email", Atom (get u "email" VNone));
             ("plan", Atom (get u "plan" (VStr "free")))]).

Definition get_watchlist (ctx : auth_ctx) : M obj :=
  let user_id := bson.str (_id (ctx_user ctx)) in
  items <- pymongo.find_all "watchlistitem" [("user_id", VStr user_id)] ;;
  rows <- mapM (fun i =>
                  symbol <- getitem i "symbol" ;;
                  ret (Dict [("id", Atom (VStr (bson.str (_id i))));
                             ("symbol", Atom symbol);
                             ("note", Atom (get i "note" VNone))])) items ;;
  ret (List rows).

Definition delete_watchlist (item_id : string) (ctx : auth_ctx) : M obj :=
  oid <- ObjectId_of (VStr item_id) ;;
  deleted_count <- pymongo.delete_one "watchlistitem"
                     [("_id", VOid oid);
                      ("user_id", VStr (bson.str (_id (ctx_user ctx))))] ;;
  if (deleted_count =? 0)%Z
  then raise (HTTPException 404 "Item not found")
  else ret (Dict [("ok", Atom (VBool true))]).

(** A route with [ctx = Depends(require_auth)]: the guard runs on the
    [Authorization] header before the handler. *)
Definition Depends {A} (handler : auth_ctx -> M A) (authorization : option string) : M A :=
  ctx <- require_auth authorization ;;
  handler ctx.

(** The routes of [app] that are embedded here, with their inputs. *)
Inductive request :=
  | GET_root
  | POST_auth_signup (payload : SignupRequest)
  | POST_auth_login (payload : LoginRequest)
  | GET_me (authorization : option string)
  | GET_watchlist (authorization : option string)
  | DELETE_watchlist (item_id : string) (authorization : option string).

Definition app (r : request) : M obj :=
  match r with
  | GET_root => read_root
  | POST_auth_signup payload => signup payload
  | POST_auth_login payload => login payload
  | GET_me authorization => Depends me authorization
  | GET_watchlist authorization => Depends get_watchlist authorization
  | DELETE_watchlist item_id authorization => Depends (delete_watchlist item_id) authorization
  end.

(** ** Vocabulary of the statements *)

#[global] Instance document_eq_dec : EqDecision document.
Proof. solve_decision. Defined.

Definition users (w : world) : list document := pymongo.collection "user" w.
Definition sessions (w : world) : list document := pymongo.collection "session" w.
Definition watchlist (w : world) : list document := pymongo.collection "watchlistitem" w.

Definition has_email (email : string) (d : document) : Prop :=
  lookup_field d "email" = Some (VStr email).

Definition has_digest (digest : string) (d : document) : Prop :=
  lookup_field d "hashed_password" = Some (VStr digest).

Definition has_token (token : string) (d : document) : Prop :=
  lookup_field d "token" = Some (VStr token).

Definition owned_by (u : document) (d : document) : Prop :=
  lookup_field d "user_id" = Some (VStr (bson.str (_id u))).

(** Store invariants of the data model: MongoDB's unique index on [_id],
    unique emails among users, unique tokens among sessions, and the
    required [name] field of the [User] schema. *)
Definition unique_ids (docs : list document) : Prop := NoDup (_id <$> docs).

Definition unique_emails (docs : list document) : Prop :=
  forall u1 u2 e, u1 ∈ docs -> u2 ∈ docs -> has_email e u1 -> has_email e u2 -> u1 = u2.

Definition unique_tokens (docs : list document) : Prop :=
  forall s1 s2 t, s1 ∈ docs -> s2 ∈ docs -> has_token t s1 -> has_token t s2 -> s1 = s2.

Definition named (docs : list document) : Prop :=
  forall u, u ∈ docs -> is_Some (lookup_field u "name").

(** What the generators are assumed to deliver: an identifier that is
    not stored yet, a token that no session carries yet. *)
Definition fresh_id (o : ObjectId) (docs : list document) : Prop :=
  forall d, d ∈ docs -> _id d <> o.

Definition fresh_token (t : string) (docs : list document) : Prop :=
  forall s, s ∈ docs -> ~ has_token t s.

(** The credentials of a login request are those of a stored user. *)
Definition credentials_ok (p : LoginRequest) (w : world) : Prop :=
  exists u, u ∈ users w
            /\ has_email (login_email p) u
            /\ has_digest (hash_password (login_password p)) u.

(** The record says it expires exactly seven days after its creation. *)
Definition expires_after_7_days (s : document) : Prop :=
  exists created_at,
    lookup_field s "created_at" = Some (VDate created_at)
    /\ lookup_field s "expires_at" = Some (VDate (created_at + py.timedelta_days 7)).

(** The store with the credential digest removed from every user. *)
Definition without_digest (d : document) : document :=
  Doc (_id d) (delete "hashed_password" (fields d)).

Definition redact (w : world) : world :=
  World (<["user" := without_digest <$> users w]> (db w)) (clock w) (entropy w) (oid_gen w).

(** All the keys of a returned object, at any depth. *)
Fixpoint obj_keys (o : obj) : list string :=
  match o with
  | Atom _ => []
  | Dict items =>
      (fix go (l : list (string * obj)) : list string :=
         match l with
         | [] => []
         | kv :: r => fst kv :: (obj_keys (snd kv) ++ go r)%list
         end) items
  | List elems =>
      (fix go (l : list obj) : list string :=
         match l with
         | [] => []
         | v :: r => (obj_keys v ++ go r)%list
         end) elems
  end.

(** The world at a later moment: same store, any clock and generators. *)
Definition same_store (w1 w2 : world) : Prop := db w1 = db w2.

(** The session record written by [signup] and [login], as the
    database holds it; [created_at] and [expires_at] are the values that
    the handler computed. *)
Definition session_doc (user_id token : string) (created_at expires_at : Z) : gmap string value :=
  bson.encode
    {[ "user_id" := VStr user_id;
       "token" := VStr token;
       "created_at" := VDate created_at;
       "expires_at" := VDate expires_at ]}.

(** A record as [create_document] stores it: the dumped model with
    both timestamps assigned, as the database holds it. *)
Definition timestamped (data : gmap string value) (created_at updated_at : Z) : gmap string value :=
  bson.encode (<["updated_at" := VDate updated_at]> (<["created_at" := VDate created_at]> data)).

(** The world after [c] clock readings, [e] random tokens and [o]
    generated identifiers, holding the store [store]. *)
Definition advance (c e o : nat) (store : gmap string (list document)) (w : world) : world :=
  World store (fun n => clock w (c + n)%nat) (fun n => entropy w (e + n)%nat)
        (fun n => oid_gen w (o + n)%nat).

(** ** A concrete run: Ada signs up, then logs in *)

Module Scenario.

Definition oid (last : string) : string := "65f0c0ffee00000000000" +:+ last.

Definition o1 : ObjectId := mkObjectId (oid "0a1") I.
Definition o2 : ObjectId := mkObjectId (oid "0a2") I.
Definition o3 : ObjectId := mkObjectId (oid "0a3") I.
Definition o4 : ObjectId := mkObjectId (oid "0a4") I.

(** An empty store; the clock advances by 3 microseconds per reading. *)
Definition world0 : world :=
  World ∅
        (fun n => Z.of_nat n * 3 + 1700000000000000)
        (fun n => match n with O => "T1" | 1%nat => "T2" | _ => "T3" end)
        (fun n => match n with O => o1 | 1%nat => o2 | 2%nat => o3 | _ => o4 end).

Definition ada_signup : SignupRequest := mkSignupRequest "Ada" "ada@example.com" "wolf123".
Definition ada_login : LoginRequest := mkLoginRequest "ada@example.com" "wolf123".
Definition ada_wrong : LoginRequest := mkLoginRequest "ada@example.com" "wrong".
Definition bob_login : LoginRequest := mkLoginRequest "bob@example.com" "wolf123".

(** Ada's user record and her two sessions, as the handlers store them. *)
Definition ada : document :=
  Doc o1 (timestamped
            (model_dump (mkUser "Ada" "ada@example.com" (hash_password "wolf123") None "free"
                                (Some 1700000000000000) (Some 1700000000000003)))
            1700000000000006 1700000000000009).

Definition session1 : document :=
  Doc o2 (session_doc (bson.str o1) "T1" 1700000000000012
                      (1700000000000015 + py.timedelta_days 7)).

Definition session2 : document :=
  Doc o3 (session_doc (bson.str o1) "T2" 1700000000000018
                      (1700000000000021 + py.timedelta_days 7)).

(** After Ada's signup (token T1), then after her login (token T2). *)
Definition world1 : world := snd (signup ada_signup world0).
Definition world2 : world := snd (login ada_login world1).

(** The same store more than three years later, long after both
    sessions have expired. *)
Definition world_late : world :=
  World (db world2) (fun n => Z.of_nat n + 1800000000000000)
        (entropy world2) (oid_gen world2).

(** A watchlist with one item of Ada's and one of another user. *)
Definition item_ada : document :=
  Doc o4 {[ "user_id" := VStr (bson.str o1); "symbol" := VStr "AAPL"; "note" := VNone ]}.

Definition item_other : document :=
  Doc (mkObjectId (oid "0b1") I)
      {[ "user_id" := VStr (oid "0c1"); "symbol" := VStr "BTC"; "note" := VStr "hold" ]}.

Definition world3 : world :=
  World (<["watchlistitem" := [item_other; item_ada]]> (db world2))
        (clock world2) (entropy world2) (oid_gen world2).

End Scenario.

(** ** The remaining routes of main.py *)

Module pystr.

(** [sub in s] for two [str]: [sub] occurs somewhere in [s]. *)
Fixpoint contains (sub s : string) : bool :=
  String.prefix sub s
  || match s with
     | EmptyString => false
     | String _ r => contains sub r
     end.

(** A byte that continues a UTF-8 character. *)
Definition is_continuation (c : ascii) : bool :=
  let n := N_of_ascii c in (128 <=? n)%N && (n <? 192)%N.

(** [s[:n]]: the first [n] characters of [s], each with all its bytes. *)
Fixpoint take_chars (n : nat) (s : string) : string :=
  match s with
  | EmptyString => EmptyString
  | String c r =>
      if is_continuation c then String c (take_chars n r)
      else match n with
           | O => EmptyString
           | S n' => String c (take_chars n' r)
           end
  end.

(** [str.upper] and [str.lower] on the ASCII letters.  They agree with
    Python on ASCII strings and serve to run the handlers on such inputs;
    the handlers themselves take the two methods as parameters. *)
Definition ascii_upper_char (c : ascii) : ascii :=
  let n := N_of_ascii c in
  if (97 <=? n)%N && (n <=? 122)%N then ascii_of_N (n - 32) else c.

Definition ascii_lower_char (c : ascii) : ascii :=
  let n := N_of_ascii c in
  if (65 <=? n)%N && (n <=? 90)%N then ascii_of_N (n + 32) else c.

Fixpoint map_chars (f : ascii -> ascii) (s : string) : string :=
  match s with
  | EmptyString => EmptyString
  | String c r => String (f c) (map_chars f r)
  end.

Definition ascii_upper : string -> string := map_chars ascii_upper_char.
Definition ascii_lower : string -> string := map_chars ascii_lower_char.

End pystr.

Record WatchlistItem := mkWatchlistItem {
  item_user_id : string;
  item_symbol : string;
  item_note : option string;
  item_created_at : option Z
}.

#[global] Instance WatchlistItem_model : BaseModel WatchlistItem := fun i =>
  {[ "user_id" := VStr (item_user_id i);
     "symbol" := VStr (item_symbol i);
     "note" := opt_str (item_note i);
     "created_at" := opt_date (item_created_at i) ]}.

Record ChatMessage := mkChatMessage {
  msg_user_id : string;
  msg_role : string;
  msg_content : string;
  msg_created_at : option Z
}.

#[global] Instance ChatMessage_model : BaseModel ChatMessage := fun m =>
  {[ "user_id" := VStr (msg_user_id m);
     "role" := VStr (msg_role m);
     "content" := VStr (msg_content m);
     "created_at" := opt_date (msg_created_at m) ]}.

Record WatchlistCreate := mkWatchlistCreate {
  create_symbol : string;
  create_note : option string
}.

Record ChatPayload := mkChatPayload {
  chat_message : string
}.

Section StrMethods.

(** [str.upper] and [str.lower] of the Python runtime, over all of Unicode. *)
Variables upper lower : string -> string.

Definition add_watchlist (item : WatchlistCreate) (ctx : auth_ctx) : M obj :=
  created_at <- datetime.now ;;
  let doc := mkWatchlistItem (bson.str (_id (ctx_user ctx))) (upper (create_symbol item))
                             (create_note item) (Some created_at) in
  new_id <- create_document "watchlistitem" doc ;;
  ret (Dict [("id", Atom (VStr new_id));
             ("symbol", Atom (VStr (item_symbol doc)));
             ("note", Atom (opt_str (item_note doc)))]).

Definition chat (payload : ChatPayload) (ctx : auth_ctx) : M obj :=
  let user_id := bson.str (_id (ctx_user ctx)) in
  asked_at <- datetime.now ;;
  _ <- create_document "chatmessage"
         (mkChatMessage user_id "user" (chat_message payload) (Some asked_at)) ;;
  let text := lower (chat_message payload) in
  let reply := "I'm your trading copilot. Ask me about a symbol like AAPL or BTC." in
  let reply :=
    if existsb (fun sym => pystr.contains sym text) ["buy"; "sell"; "entry"; "exit"]
    then "General guidance only: manage risk, set stops, and size positions responsibly."
    else reply in
  let reply :=
    match find (fun sym => pystr.contains sym text) ["aapl"; "tsla"; "msft"; "btc"; "eth"] with
    | Some sym =>
        "Quick take on " +:+ upper sym
        +:+ ": trend is up on daily, wait for pullback to 20EMA for better risk/reward."
    | None => reply
    end in
  answered_at <- datetime.now ;;
  _ <- create_document "chatmessage"
         (mkChatMessage user_id "assistant" reply (Some answered_at)) ;;
  ret (Dict [("reply", Atom (VStr reply))]).

End StrMethods.

(** *** The diagnostic route *)

(** The module-level [db] as [test_database] sees it: possibly [None];
    otherwise an object that may have a [name] and whose
    [list_collection_names()] returns the names or raises an exception
    with the given message. *)
Record db_handle := DbHandle {
  handle_name : option value;
  handle_list_collection_names : string + list string
}.

(** [d[k] = v] on a dict: the value is replaced in place, or the key is
    added at the end. *)
Fixpoint setitem (k : string) (v : obj) (d : list (string * obj)) : list (string * obj) :=
  match d with
  | [] => [(k, v)]
  | kv :: r => if String.eqb (fst kv) k then (k, v) :: r else kv :: setitem k v r
  end.

(** Truth value of [os.getenv(k)]: set and not empty. *)
Definition getenv_truthy (environ : gmap string string) (k : string) : bool :=
  match environ !! k with
  | Some v => negb (String.eqb v "")
  | None => false
  end.

(** Nothing in the outer [try] block raises outside the inner one, so
    the outer [except] clause is never taken. *)
Definition test_database (db : option db_handle) (environ : gmap string string) : obj :=
  let response :=
    [("backend", Atom (VStr "✅ Running"));
     ("database", Atom (VStr "❌ Not Available"));
     ("database_url", Atom VNone);
     ("database_name", Atom VNone);
     ("connection_status", Atom (VStr "Not Connected"));
     ("collections", List [])] in
  let response :=
    match db with
    | Some db =>
        let response := setitem "database" (Atom (VStr "✅ Available")) response in
        let response := setitem "database_url" (Atom (VStr "✅ Configured")) response in
        let response :=
          setitem "database_name"
                  (Atom (default (VStr "✅ Connected") (handle_name db))) response in
        let response := setitem "connection_status" (Atom (VStr "Connected")) response in
        match handle_list_collection_names db with
        | inr collections =>
            let response :=
              setitem "collections" (List ((fun c => Atom (VStr c)) <$> take 10 collections))
                      response in
            setitem "database" (Atom (VStr "✅ Connected & Working")) response
        | inl e =>
            setitem "database"
                    (Atom (VStr ("⚠️  Connected but Error: " +:+ pystr.take_chars 50 e)))
                    response
        end
    | None =>
        setitem "database" (Atom (VStr "⚠️  Available but not initialized")) response
    end in
  let response :=
    setitem "database_url"
            (Atom (VStr (if getenv_truthy environ "DATABASE_URL" then "✅ Set" else "❌ Not Set")))
            response in
  let response :=
    setitem "database_name"
            (Atom (VStr (if getenv_truthy environ "DATABASE_NAME" then "✅ Set" else "❌ Not Set")))
            response in
  Dict response.

(** *** Vocabulary for the remaining routes *)

Definition chats (w : world) : list document := pymongo.collection "chatmessage" w.

Definition is_byte (b : Z) : Prop := (0 <= b < 256)%Z.

(** The store invariants that no route needs help to keep. *)
Definition store_ok (w : world) : Prop :=
  unique_ids (users w)
  /\ unique_emails (users w)
  /\ named (users w)
  /\ unique_ids (sessions w)
  /\ unique_ids (watchlist w).

(** The documents of a collection that belong to user [u]. *)
Definition owned_items (u : document) (docs : list document) : list document :=
  List.filter
    (fun d => bool_decide (lookup_field d "user_id" = Some (VStr (bson.str (_id u))))) docs.

(** The row that [get_watchlist] returns for a stored item. *)
Definition watchlist_row (i : document) : obj :=
  Dict [("id", Atom (VStr (bson.str (_id i))));
        ("symbol", Atom (get i "symbol" VNone));
        ("note", Atom (get i "note" VNone))].

(** The item that [add_watchlist] stores in world [w]. *)
Definition stored_item (upper : string -> string) (item : WatchlistCreate) (ctx : auth_ctx)
           (w : world) : document :=
  Doc (oid_gen w 0%nat)
      (timestamped
         (model_dump (mkWatchlistItem (bson.str (_id (ctx_user ctx)))
                                      (upper (create_symbol item)) (create_note item)
                                      (Some (clock w 0%nat))))
         (clock w 1%nat) (clock w 2%nat)).

(** A chat message as [chat] and [create_document] store it. *)
Definition chat_doc (o : ObjectId) (uid role content : string)
           (sent_at created_at updated_at : Z) : document :=
  Doc o (timestamped (model_dump (mkChatMessage uid role content (Some sent_at)))
                     created_at updated_at).

(** [word] occurs somewhere in [text]. *)
Definition mentions (word text : string) : Prop :=
  exists before after, text = before +:+ word +:+ after.

(** [len(s)]: the number of characters of [s], one per byte that does
    not continue a character. *)
Fixpoint char_count (s : string) : nat :=
  match s with
  | EmptyString => O
  | String c r => if pystr.is_continuation c then char_count r else S (char_count r)
  end.

(** [w2] is [w] after some readings of the clock and the generators and
    some appends to the users and the sessions. *)
Definition extends (w w2 : world) : Prop :=
  exists c e o store,
    w2 = advance c e o store w
    /\ (exists added, default [] (store !! "session") = sessions w ++ added)
    /\ (exists added, default [] (store !! "user") = users w ++ added).

(** The store that a route leaves, with what is known of the records it
    appended or removed. *)
Inductive store_step (w : world) (token : string) : gmap string (list document) -> Prop :=
  | step_none : store_step w token (db w)
  | step_user (u : document) (e : string) :
      fresh_id (_id u) (users w) ->
      (forall x, x ∈ users w -> ~ has_email e x) -> has_email e u ->
      is_Some (lookup_field u "name") ->
      store_step w token (<["user" := users w ++ [u]]> (db w))
  | step_user_session (u s : document) (e : string) :
      fresh_id (_id u) (users w) ->
      (forall x, x ∈ users w -> ~ has_email e x) -> has_email e u ->
      is_Some (lookup_field u "name") ->
      fresh_id (_id s) (sessions w) -> has_token token s ->
      store_step w token
        (<["session" := sessions w ++ [s]]> (<["user" := users w ++ [u]]> (db w)))
  | step_session (s : document) :
      fresh_id (_id s) (sessions w) -> has_token token s ->
      store_step w token (<["session" := sessions w ++ [s]]> (db w))
  | step_unlist (p : document -> bool) :
      store_step w token
        (<["watchlistitem" := pymongo.remove_first p (watchlist w)]> (db w)).

(** *** More of the scenario *)

Module Tour.

(** A session whose user is gone, one without [user_id], one whose
    [user_id] is not an identifier. *)
Definition dangling : document :=
  Doc (mkObjectId (Scenario.oid "0d1") I)
      {[ "user_id" := VStr (Scenario.oid "0e1"); "token" := VStr "D1" ]}.

Definition ownerless : document :=
  Doc (mkObjectId (Scenario.oid "0d2") I) {[ "token" := VStr "D2" ]}.

Definition misowned : document :=
  Doc (mkObjectId (Scenario.oid "0d3") I)
      {[ "user_id" := VStr "ada"; "token" := VStr "D3" ]}.

Definition world_broken : world :=
  World {[ "user" := [Scenario.ada];
           "session" := [Scenario.session1; dangling; ownerless; misowned] ]}
        (clock Scenario.world0) (entropy Scenario.world0) (oid_gen Scenario.world0).

(** A user record that lost its [name]. *)
Definition nameless : document :=
  Doc Scenario.o1 {[ "email" := VStr "ada@example.com";
                     "hashed_password" := VStr (hash_password "wolf123") ]}.

Definition world_nameless : world :=
  World {[ "user" := [nameless] ]}
        (clock Scenario.world0) (entropy Scenario.world0) (oid_gen Scenario.world0).

(** A watchlist item of Ada's that lost its [symbol]. *)
Definition item_bare : document :=
  Doc (mkObjectId (Scenario.oid "0f1") I) {[ "user_id" := VStr (bson.str Scenario.o1) ]}.

Definition world_bare : world :=
  World {[ "watchlistitem" := [Scenario.item_ada; item_bare] ]}
        (clock Scenario.world0) (entropy Scenario.world0) (oid_gen Scenario.world0).

Definition ada_ctx : auth_ctx := Ctx Scenario.ada Scenario.session2.

(** Ada logs in while the clock passes a millisecond boundary: the
    readings are 3 microseconds apart, the first one 2 microseconds
    before the boundary. *)
Definition world_tick : world :=
  World {[ "user" := [Scenario.ada]; "session" := [Scenario.session1] ]}
        (fun n => Z.of_nat n * 3 + 1700000000000998)
        (fun n => entropy Scenario.world0 (S n))
        (fun n => oid_gen Scenario.world0 (2 + n)%nat).

Definition session_tick : document :=
  Doc Scenario.o3 (session_doc (bson.str Scenario.o1) "T2" 1700000000000998
                               (1700000000001001 + py.timedelta_days 7)).

(** The store of [Scenario.world3], written out. *)
Definition world_listed : world :=
  World {[ "user" := [Scenario.ada];
           "session" := [Scenario.session1; Scenario.session2];
           "watchlistitem" := [Scenario.item_other; Scenario.item_ada] ]}
        (clock Scenario.world0) (entropy Scenario.world0) (oid_gen Scenario.world0).

Definition bob_signup : SignupRequest := mkSignupRequest "Bob" "bob@example.com" "bull456".

Definition tsla : WatchlistCreate := mkWatchlistCreate "tsla" (Some "earnings").

Definition handle_ok : db_handle :=
  DbHandle (Some (VStr "wolf"))
           (inr ["a"; "b"; "c"; "d"; "e"; "f"; "g"; "h"; "i"; "j"; "k"; "l"]).

Definition handle_down : db_handle :=
  DbHandle (Some (VStr "wolf")) (inl "connection refused").

End Tour.

(** * Properties *)

(** ** Test vectors of SHA-256 *)

Example sha256_constants :
  length hashlib.K = 64%nat
  /\ head hashlib.K = Some 0x428a2f98%Z
  /\ last hashlib.K = Some 0xc67178f2%Z
  /\ head hashlib.H0 = Some 0x6a09e667%Z
  /\ last hashlib.H0 = Some 0x5be0cd19%Z.
Proof. repeat split; reflexivity. Qed.

Example sha256_abc :
  hashlib.sha256_hexdigest (hashlib.bytes_of_string "abc") =
  "ba7816bf8f01cfea414140de5dae2223b00361a396177a9cb410ff61f20015ad".
Proof. vm_compute. reflexivity. Qed.

Example sha256_empty :
  hashlib.sha256_hexdigest [] =
  "e3b0c44298fc1c149afbf4c8996fb92427ae41e4649b934ca495991b7852b855".
Proof. vm_compute. reflexivity. Qed.

Example sha256_two_blocks :
  hashlib.sha256_hexdigest (repeat 97%Z 70) =
  "6bd5e5034855a11241f0dee8fc72850ffd9955b28347a86428b5fa19119f6ad0".
Proof. vm_compute. reflexivity. Qed.

Example hash_password_wolf123 :
  hash_password "wolf123" =
  "0f289b1a01c1b0324866d20ddbd3f72c3767444e5109253dd2cb1f52c4535dc3".
Proof. vm_compute. reflexivity. Qed.

(** ** The Bearer scheme *)

Section Bearer.

Lemma prefix_append (p s : string) :
  String.prefix p s = true <-> exists rest, s = p +:+ rest.
Proof.
  split.
  - revert s. induction p as [|c p IH]; intros s H.
    + exists s. reflexivity.
    + destruct s as [|c' s]; simpl in H; [discriminate|].
      destruct (ascii_dec c c') as [<-|]; [|discriminate].
      destruct (IH _ H) as [rest ->]. exists rest. reflexivity.
  - intros [rest ->]. induction p as [|c p IH]; simpl; [destruct rest; reflexivity|].
    destruct (ascii_dec c c); [exact IH|contradiction].
Qed.

Lemma startswith_Bearer (a : string) :
  py.startswith a "Bearer " = true <-> exists token, a = "Bearer " +:+ token.
Proof. apply prefix_append. Qed.

Lemma split_once_Bearer (token : string) :
  py.split_once " " ("Bearer " +:+ token) = ["Bearer"; token].
Proof. reflexivity. Qed.

Lemma Bearer_nonempty (token : string) : "Bearer " +:+ token <> "".
Proof. discriminate. Qed.

Lemma Bearer_inj (t1 t2 : string) : "Bearer " +:+ t1 = "Bearer " +:+ t2 -> t1 = t2.
Proof. simpl. intros [= H]. exact H. Qed.

End Bearer.

(** ** ObjectId: printing and parsing *)

Section ObjectIds.

Lemma ObjectId_eq (a b : ObjectId) : oid_hex a = oid_hex b -> a = b.
Proof.
  destruct a as [x Hx], b as [y Hy]; simpl; intros ->.
  f_equal. apply proof_irrel.
Qed.

Lemma lower_hex_fixed (c : ascii) : is_lower_hex c = true -> bson.lower_hex c = c.
Proof.
  unfold is_lower_hex, bson.lower_hex. intros H.
  destruct (N.leb_spec 65 (N_of_ascii c)), (N.leb_spec (N_of_ascii c) 70);
    simpl; try reflexivity.
  exfalso.
  destruct (N.leb_spec 48 (N_of_ascii c)), (N.leb_spec (N_of_ascii c) 57),
           (N.leb_spec 97 (N_of_ascii c)), (N.leb_spec (N_of_ascii c) 102);
    simpl in H; try discriminate; lia.
Qed.

Lemma lower_fixed (s : string) :
  forallb is_lower_hex (list_ascii_of_string s) = true -> bson.lower s = s.
Proof.
  induction s as [|c s IH]; simpl; [reflexivity|].
  intros [Hc Hs]%andb_prop. rewrite lower_hex_fixed, IH; auto.
Qed.

(** Parsing what [str] printed gives the identifier back. *)
Lemma of_str_str (o : ObjectId) : bson.of_str (bson.str o) = Some o.
Proof.
  destruct o as [h Hh]. unfold bson.of_str, bson.str; simpl.
  assert (E : bson.lower h = h).
  { apply lower_fixed. unfold is_oid_hex in Hh.
    apply andb_prop_elim in Hh as [_ Hh]. apply Is_true_true. exact Hh. }
  rewrite E. destruct (decide (Is_true (is_oid_hex h))) as [H|H]; [|contradiction].
  f_equal. apply ObjectId_eq. reflexivity.
Qed.


Lemma lower_length (s : string) : String.length (bson.lower s) = String.length s.
Proof. induction s as [|c s IH]; simpl; [reflexivity | rewrite IH; reflexivity]. Qed.

(** Only strings of 24 characters are parsed. *)
Lemma of_str_length (s : string) (o : ObjectId) :
  bson.of_str s = Some o -> String.length s = 24%nat.
Proof.
  unfold bson.of_str.
  destruct (decide (Is_true (is_oid_hex (bson.lower s)))) as [H|H]; [|discriminate].
  intros _. unfold is_oid_hex in H. apply andb_prop_elim in H as [H _].
  apply Is_true_true, Nat.eqb_eq in H. rewrite lower_length in H. exact H.
Qed.

Lemma ObjectId_of_str (o : ObjectId) (w : world) :
  ObjectId_of (VStr (bson.str o)) w = (inr o, w).
Proof. unfold ObjectId_of. rewrite of_str_str. reflexivity. Qed.

End ObjectIds.

(** ** The document store *)

Section Store.

Lemma lookup_field_id (d : document) : lookup_field d "_id" = Some (VOid (_id d)).
Proof. reflexivity. Qed.

Lemma matches_single (k : string) (v : value) (d : document) :
  v <> VNone -> pymongo.matches [(k, v)] d = true <-> lookup_field d k = Some v.
Proof.
  intros Hv. unfold pymongo.matches, pymongo.field_matches; simpl.
  rewrite andb_true_r. destruct (lookup_field d k) as [x|];
    rewrite bool_decide_eq_true; split; congruence.
Qed.

Lemma matches_email (e : string) (d : document) :
  pymongo.matches [("email", VStr e)] d = true <-> has_email e d.
Proof. apply matches_single. discriminate. Qed.

Lemma matches_token (t : string) (d : document) :
  pymongo.matches [("token", VStr t)] d = true <-> has_token t d.
Proof. apply matches_single. discriminate. Qed.

Lemma matches_id (o : ObjectId) (d : document) :
  pymongo.matches [("_id", VOid o)] d = true <-> _id d = o.
Proof.
  rewrite matches_single by discriminate. rewrite lookup_field_id.
  split; [intros [= H]; exact H | intros ->; reflexivity].
Qed.

Context {A : Type} (p : A -> bool).

Lemma find_Some_elem (l : list A) (x : A) : find p l = Some x -> x ∈ l /\ p x = true.
Proof. intros [H1 H2]%find_some. split; [apply list_elem_of_In, H1 | exact H2]. Qed.

Lemma find_None_iff (l : list A) : find p l = None <-> forall x, x ∈ l -> p x = false.
Proof.
  split.
  - intros H x Hx. apply (find_none _ _ H). apply list_elem_of_In, Hx.
  - induction l as [|a l IH]; simpl; intros H; [reflexivity|].
    rewrite (H a) by left. apply IH. intros x Hx. apply H. right. exact Hx.
Qed.

Lemma find_unique (l : list A) (x : A) :
  x ∈ l -> p x = true -> (forall y, y ∈ l -> p y = true -> y = x) -> find p l = Some x.
Proof.
  intros Hx Hp Hu. destruct (find p l) as [y|] eqn:E.
  - apply find_Some_elem in E as [Hy Hpy]. f_equal. apply Hu; assumption.
  - rewrite find_None_iff in E. rewrite (E x Hx) in Hp. discriminate.
Qed.

Lemma find_app_Some (l l' : list A) (x : A) :
  find p l = Some x -> find p (l ++ l') = Some x.
Proof.
  induction l as [|a l IH]; simpl; [discriminate|].
  destruct (p a); [trivial | exact IH].
Qed.

Lemma find_app_None (l l' : list A) :
  find p l = None -> find p (l ++ l') = find p l'.
Proof.
  induction l as [|a l IH]; simpl; [reflexivity|].
  destruct (p a); [discriminate | exact IH].
Qed.

End Store.

(** ** The handlers, step by step *)

Section Equations.

Lemma collection_World (name : string) (store : gmap string (list document))
      (c : nat -> Z) (e : nat -> string) (o : nat -> ObjectId) :
  pymongo.collection name (World store c e o) = default [] (store !! name).
Proof. reflexivity. Qed.

Lemma collection_insert (name : string) (docs : list document) (c e o : nat)
      (store : gmap string (list document)) (w : world) :
  pymongo.collection name (advance c e o (<[name := docs]> store) w) = docs.
Proof. unfold pymongo.collection; simpl. rewrite lookup_insert_eq. reflexivity. Qed.

Lemma collection_insert_ne (name other : string) (docs : list document) (c e o : nat)
      (store : gmap string (list document)) (w : world) :
  name <> other ->
  pymongo.collection other (advance c e o (<[name := docs]> store) w)
  = default [] (store !! other).
Proof. intros H. unfold pymongo.collection; simpl. rewrite lookup_insert_ne by exact H. reflexivity. Qed.

Lemma login_eq (p : LoginRequest) (w : world) :
  login p w =
  match find (pymongo.matches [("email", VStr (login_email p))]) (users w) with
  | None => (inl (HTTPException 401 "Invalid credentials"), w)
  | Some user =>
      if negb (bool_decide (get user "hashed_password" VNone
                            = VStr (hash_password (login_password p))))
      then (inl (HTTPException 401 "Invalid credentials"), w)
      else if existsb (fun d => bool_decide (_id d = oid_gen w 0%nat)) (sessions w)
      then (inl DuplicateKeyError, advance 2 1 1 (db w) w)
      else
        let s := Doc (oid_gen w 0%nat)
                     (session_doc (bson.str (_id user)) (entropy w 0%nat) (clock w 0%nat)
                                  (clock w 1%nat + py.timedelta_days 7)) in
        let w' := advance 2 1 1 (<["session" := sessions w ++ [s]]> (db w)) w in
        match lookup_field user "name", lookup_field user "email" with
        | Some name, Some email =>
            (inr (Dict [("token", Atom (VStr (entropy w 0%nat)));
                        ("user", Dict [("id", Atom (VStr (bson.str (_id user))));
                                       ("name", Atom name);
                                       ("email", Atom email)])]), w')
        | None, _ => (inl (KeyError "name"), w')
        | Some _, None => (inl (KeyError "email"), w')
        end
  end.
Proof.
  unfold login, bind, pymongo.find_one, users. 
  destruct (find _ _) as [user|]; [|reflexivity].
  destruct (negb _); [reflexivity|].
  cbv [secrets.token_urlsafe datetime.now pymongo.insert_one bind new_ObjectId].
  cbn [db clock entropy oid_gen].
  unfold sessions, pymongo.collection at 1. cbn [db].
  destruct (existsb _ _); [reflexivity|].
  unfold getitem. 
  destruct (lookup_field user "name"), (lookup_field user "email"); reflexivity.
Qed.

Lemma signup_eq (p : SignupRequest) (w : world) :
  signup p w =
  match find (pymongo.matches [("email", VStr (signup_email p))]) (users w) with
  | Some _ => (inl (HTTPException 400 "Email already registered"), w)
  | None =>
      let model := mkUser (signup_name p) (signup_email p) (hash_password (signup_password p))
                          None "free" (Some (clock w 0%nat)) (Some (clock w 1%nat)) in
      let u := Doc (oid_gen w 0%nat)
                   (timestamped (model_dump model) (clock w 2%nat) (clock w 3%nat)) in
      if existsb (fun d => bool_decide (_id d = oid_gen w 0%nat)) (users w)
      then (inl DuplicateKeyError, advance 4 0 1 (db w) w)
      else
        let store := <["user" := users w ++ [u]]> (db w) in
        let s := Doc (oid_gen w 1%nat)
                     (session_doc (bson.str (oid_gen w 0%nat)) (entropy w 0%nat)
                                  (clock w 4%nat) (clock w 5%nat + py.timedelta_days 7)) in
        if existsb (fun d => bool_decide (_id d = oid_gen w 1%nat)) (sessions w)
        then (inl DuplicateKeyError, advance 6 1 2 store w)
        else
          (inr (Dict [("token", Atom (VStr (entropy w 0%nat)));
                      ("user", Dict [("id", Atom (VStr (bson.str (oid_gen w 0%nat))));
                                     ("name", Atom (VStr (signup_name p)));
                                     ("email", Atom (VStr (signup_email p)))])]),
           advance 6 1 2 (<["session" := sessions w ++ [s]]> store) w)
  end.
Proof.
  unfold signup, bind, pymongo.find_one, users.
  destruct (find _ _) as [user|]; [reflexivity|].
  cbv [create_document secrets.token_urlsafe datetime.now pymongo.insert_one bind new_ObjectId].
  cbn [db clock entropy oid_gen].
  rewrite collection_World.
  destruct (existsb _ _); [reflexivity|].
  cbv [pymongo.set_collection ret]. cbn [db clock entropy oid_gen].
  rewrite !collection_World, !lookup_insert_ne by discriminate.
  fold (pymongo.collection "session" w). fold (sessions w).
  destruct (existsb _ _); reflexivity.
Qed.

Lemma require_auth_None (w : world) :
  require_auth None w = (inl (HTTPException 401 "Missing token"), w).
Proof. reflexivity. Qed.

Lemma require_auth_no_prefix (a : string) (w : world) :
  py.startswith a "Bearer " = false ->
  require_auth (Some a) w = (inl (HTTPException 401 "Missing token"), w).
Proof.
  intros H. unfold require_auth. rewrite H, orb_true_r. reflexivity.
Qed.

Lemma require_auth_Bearer (token : string) (w : world) :
  require_auth (Some ("Bearer " +:+ token)) w =
  match find (pymongo.matches [("token", VStr token)]) (sessions w) with
  | None => (inl (HTTPException 401 "Invalid token"), w)
  | Some session =>
      match lookup_field session "user_id" with
      | None => (inl (KeyError "user_id"), w)
      | Some user_id =>
          match ObjectId_of user_id w with
          | (inl e, w') => (inl e, w')
          | (inr oid, w') =>
              match find (pymongo.matches [("_id", VOid oid)]) (users w') with
              | None => (inl (HTTPException 401 "User not found"), w')
              | Some user => (inr (Ctx user session), w')
              end
          end
      end
  end.
Proof.
  unfold require_auth.
  assert (Hp : py.startswith ("Bearer " +:+ token) "Bearer " = true)
    by (apply startswith_Bearer; eauto).
  rewrite Hp, bool_decide_eq_false_2 by apply Bearer_nonempty.
  rewrite split_once_Bearer.
  unfold bind, pymongo.find_one, sessions, users, getitem; simpl.
  destruct (find _ _) as [session|]; [|reflexivity].
  destruct (lookup_field session "user_id") as [v|]; [|reflexivity].
  simpl. destruct (ObjectId_of v w) as [[e|oid] w']; [reflexivity|].
  destruct (find _ _); reflexivity.
Qed.

Lemma delete_watchlist_eq (item_id : string) (ctx : auth_ctx) (w : world) :
  delete_watchlist item_id ctx w =
  match bson.of_str item_id with
  | None => (inl InvalidId, w)
  | Some oid =>
      let flt := [("_id", VOid oid); ("user_id", VStr (bson.str (_id (ctx_user ctx))))] in
      match find (pymongo.matches flt) (watchlist w) with
      | None => (inl (HTTPException 404 "Item not found"), w)
      | Some _ =>
          (inr (Dict [("ok", Atom (VBool true))]),
           advance 0 0 0
             (<["watchlistitem" := pymongo.remove_first (pymongo.matches flt) (watchlist w)]> (db w)) w)
      end
  end.
Proof.
  unfold delete_watchlist, bind, ObjectId_of.
  destruct (bson.of_str item_id) as [oid|]; [|reflexivity].
  unfold ret at 1. unfold pymongo.delete_one, watchlist.
  destruct (find _ _); reflexivity.
Qed.

End Equations.

(** ** Records, freshness and uniqueness *)

Section Records.

Lemma session_doc_token (o : ObjectId) (uid tok : string) (c e : Z) :
  has_token tok (Doc o (session_doc uid tok c e)).
Proof. reflexivity. Qed.

Lemma session_doc_user_id (o : ObjectId) (uid tok : string) (c e : Z) :
  lookup_field (Doc o (session_doc uid tok c e)) "user_id" = Some (VStr uid).
Proof. reflexivity. Qed.

Lemma session_doc_created_at (o : ObjectId) (uid tok : string) (c e : Z) :
  lookup_field (Doc o (session_doc uid tok c e)) "created_at"
  = Some (VDate (bson.millis_to_datetime (bson.datetime_to_millis c))).
Proof. reflexivity. Qed.

Lemma session_doc_expires_at (o : ObjectId) (uid tok : string) (c e : Z) :
  lookup_field (Doc o (session_doc uid tok c e)) "expires_at"
  = Some (VDate (bson.millis_to_datetime (bson.datetime_to_millis e))).
Proof. reflexivity. Qed.

Lemma user_doc_email (o : ObjectId) (u : User) (c e : Z) :
  has_email (user_email u) (Doc o (timestamped (model_dump u) c e)).
Proof. reflexivity. Qed.

Lemma user_doc_digest (o : ObjectId) (u : User) (c e : Z) :
  has_digest (user_hashed_password u) (Doc o (timestamped (model_dump u) c e)).
Proof. reflexivity. Qed.



Lemma existsb_fresh (o : ObjectId) (docs : list document) :
  existsb (fun d => bool_decide (_id d = o)) docs = false <-> fresh_id o docs.
Proof.
  unfold fresh_id. induction docs as [|d docs IH]; simpl.
  - split; [intros _ x Hx; inversion Hx | reflexivity].
  - rewrite orb_false_iff, IH, bool_decide_eq_false. split.
    + intros [Hd Hr] x Hx. apply elem_of_cons in Hx as [->|Hx]; auto.
    + intros H. split; [apply H; left | intros x Hx; apply H; right; exact Hx].
Qed.

Lemma find_id_fresh (o : ObjectId) (docs : list document) :
  fresh_id o docs -> find (pymongo.matches [("_id", VOid o)]) docs = None.
Proof.
  intros H. apply find_None_iff. intros x Hx.
  apply not_true_is_false. rewrite matches_id. apply H, Hx.
Qed.

Lemma find_token_fresh (t : string) (docs : list document) :
  fresh_token t docs <-> find (pymongo.matches [("token", VStr t)]) docs = None.
Proof.
  rewrite find_None_iff. unfold fresh_token. split; intros H x Hx.
  - apply not_true_is_false. rewrite matches_token. apply H, Hx.
  - rewrite <- matches_token, (H x Hx). discriminate.
Qed.

Lemma find_email_None (e : string) (docs : list document) :
  find (pymongo.matches [("email", VStr e)]) docs = None
  <-> forall u, u ∈ docs -> ~ has_email e u.
Proof.
  rewrite find_None_iff. split; intros H x Hx.
  - rewrite <- matches_email, (H x Hx). discriminate.
  - apply not_true_is_false. rewrite matches_email. apply H, Hx.
Qed.

Lemma unique_ids_eq (docs : list document) (x y : document) :
  unique_ids docs -> x ∈ docs -> y ∈ docs -> _id x = _id y -> x = y.
Proof.
  unfold unique_ids. induction docs as [|d docs IH]; simpl.
  - intros _ Hx. inversion Hx.
  - rewrite NoDup_cons. intros [Hd Hnd] Hx Hy E.
    apply elem_of_cons in Hx as [->|Hx], Hy as [->|Hy]; auto.
    + exfalso. apply Hd. rewrite E. apply list_elem_of_fmap. eauto.
    + exfalso. apply Hd. rewrite <- E. apply list_elem_of_fmap. eauto.
Qed.

Lemma find_by_id (docs : list document) (u : document) :
  unique_ids docs -> u ∈ docs ->
  find (pymongo.matches [("_id", VOid (_id u))]) docs = Some u.
Proof.
  intros Hn Hu. apply find_unique; [exact Hu | apply matches_id; reflexivity |].
  intros y Hy Hm. apply matches_id in Hm. eapply unique_ids_eq; eauto.
Qed.

Lemma same_store_collection (name : string) (w1 w2 : world) :
  same_store w1 w2 -> pymongo.collection name w2 = pymongo.collection name w1.
Proof. unfold same_store, pymongo.collection. intros ->. reflexivity. Qed.

End Records.

(** ** The guard [require_auth] *)

Section Guard.

Lemma ObjectId_of_exn (v : value) (w w' : world) (e : exn) :
  ObjectId_of v w = (inl e, w') -> e = InvalidId \/ e = TypeError.
Proof.
  destruct v as [| b | s | o | t]; simpl.
  - unfold new_ObjectId. discriminate.
  - unfold raise. intros [= <- _]. auto.
  - destruct (bson.of_str s); unfold ret, raise; [discriminate | intros [= <- _]; auto].
  - unfold ret. discriminate.
  - unfold raise. intros [= <- _]. auto.
Qed.

(** With a Bearer header the guard never reports a missing token. *)
Lemma require_auth_Bearer_not_missing (token : string) (w : world) :
  fst (require_auth (Some ("Bearer " +:+ token)) w) <> inl (HTTPException 401 "Missing token").
Proof.
  rewrite require_auth_Bearer.
  destruct (find _ _) as [s|]; [|discriminate].
  destruct (lookup_field s "user_id") as [v|]; [|discriminate].
  destruct (ObjectId_of v w) as [[e|o] w'] eqn:E.
  - apply ObjectId_of_exn in E as [->| ->]; discriminate.
  - destruct (find _ _); discriminate.
Qed.

Lemma require_auth_Bearer_invalid (token : string) (w : world) :
  fst (require_auth (Some ("Bearer " +:+ token)) w) = inl (HTTPException 401 "Invalid token")
  <-> fresh_token token (sessions w).
Proof.
  rewrite find_token_fresh, require_auth_Bearer.
  destruct (find _ _) as [s|]; [|split; reflexivity].
  split; [|discriminate].
  destruct (lookup_field s "user_id") as [v|]; [|discriminate].
  destruct (ObjectId_of v w) as [[e|o] w'] eqn:E.
  - apply ObjectId_of_exn in E as [->| ->]; discriminate.
  - destruct (find _ _); discriminate.
Qed.

End Guard.

(** C4. [require_auth] fails with 401 "Missing token" exactly when the
    Authorization header is absent or does not start with "Bearer ", and
    with 401 "Invalid token" exactly when the header does start with
    "Bearer " and the token that follows matches no stored session. *)
Theorem require_auth_missing_or_invalid (authorization : option string) (w : world) :
  (fst (require_auth authorization w) = inl (HTTPException 401 "Missing token")
   <-> authorization = None
       \/ exists a, authorization = Some a /\ ~ exists token, a = "Bearer " +:+ token)
  /\
  (fst (require_auth authorization w) = inl (HTTPException 401 "Invalid token")
   <-> exists token, authorization = Some ("Bearer " +:+ token)
                     /\ fresh_token token (sessions w)).
Proof.
  destruct authorization as [a|].
  - destruct (py.startswith a "Bearer ") eqn:Hp.
    + apply startswith_Bearer in Hp as [token ->]. split.
      * split.
        -- intros H. exfalso. exact (require_auth_Bearer_not_missing _ _ H).
        -- intros [H|(a & [= <-] & H)]; [discriminate|]. exfalso. apply H. eauto.
      * rewrite require_auth_Bearer_invalid. split.
        -- intros H. eauto.
        -- intros (t & E & H). assert (token = t) as -> by (apply Bearer_inj; congruence).
           exact H.
    + rewrite require_auth_no_prefix by exact Hp. simpl. split.
      * split; [|reflexivity]. intros _. right. exists a. split; [reflexivity|].
        intros H. apply startswith_Bearer in H. congruence.
      * split; [discriminate|]. intros (t & [= ->] & _).
        assert (py.startswith ("Bearer " +:+ t) "Bearer " = true)
          by (apply startswith_Bearer; eauto).
        congruence.
  - rewrite require_auth_None. simpl. split.
    + split; [auto | reflexivity].
    + split; [discriminate | intros (t & [=] & _)].
Qed.

(** At concrete headers: none, a bare token, a Bearer token no session
    carries. *)
Lemma require_auth_missing_or_invalid_witness :
  fst (require_auth None Scenario.world2) = inl (HTTPException 401 "Missing token")
  /\ fst (require_auth (Some "T2") Scenario.world2) = inl (HTTPException 401 "Missing token")
  /\ fst (require_auth (Some "Bearer T9") Scenario.world2) = inl (HTTPException 401 "Invalid token").
Proof.
  split; [|split].
  - apply (proj1 (require_auth_missing_or_invalid None Scenario.world2)). left. reflexivity.
  - apply (proj1 (require_auth_missing_or_invalid (Some "T2") Scenario.world2)).
    right. exists "T2". split; [reflexivity|]. intros [t H]. discriminate H.
  - apply (proj2 (require_auth_missing_or_invalid (Some "Bearer T9") Scenario.world2)).
    exists "T9". split; [reflexivity|]. apply find_token_fresh. vm_compute. reflexivity.
Defined.

(** C9. The header "Bearer " passes the prefix check; the empty string
    is looked up as the token, and the call fails with 401 "Invalid
    token" whenever (indeed exactly when) no stored session has the empty
    string as its token. *)
Theorem require_auth_empty_token (w : world) :
  py.startswith "Bearer " "Bearer " = true
  /\ py.split_once " " "Bearer " !! 1%nat = Some ""
  /\ fst (require_auth (Some "Bearer ") w) <> inl (HTTPException 401 "Missing token")
  /\ (fresh_token "" (sessions w) ->
      require_auth (Some "Bearer ") w = (inl (HTTPException 401 "Invalid token"), w))
  /\ (fst (require_auth (Some "Bearer ") w) = inl (HTTPException 401 "Invalid token") ->
      fresh_token "" (sessions w)).
Proof.
  split; [reflexivity|]. split; [reflexivity|].
  change "Bearer " with ("Bearer " +:+ "").
  split; [apply require_auth_Bearer_not_missing|]. split.
  - intros H. rewrite require_auth_Bearer.
    apply find_token_fresh in H. rewrite H. reflexivity.
  - apply require_auth_Bearer_invalid.
Qed.

Lemma require_auth_empty_token_witness :
  fresh_token "" (sessions Scenario.world2)
  /\ require_auth (Some "Bearer ") Scenario.world2
     = (inl (HTTPException 401 "Invalid token"), Scenario.world2).
Proof.
  assert (H : fresh_token "" (sessions Scenario.world2))
    by (apply find_token_fresh; vm_compute; reflexivity).
  split; [exact H|].
  exact (proj1 (proj2 (proj2 (proj2 (require_auth_empty_token Scenario.world2)))) H).
Defined.

(** ** The scenario of the specification, evaluated *)

Section ScenarioFacts.
Import Scenario.

Lemma users_world1 : users world1 = [ada].
Proof. vm_compute. reflexivity. Qed.

Lemma sessions_world1 : sessions world1 = [session1].
Proof. vm_compute. reflexivity. Qed.

Lemma users_world2 : users world2 = [ada].
Proof. vm_compute. reflexivity. Qed.

Lemma sessions_world2 : sessions world2 = [session1; session2].
Proof. vm_compute. reflexivity. Qed.

Example signup_ada :
  fst (signup ada_signup world0)
  = inr (Dict [("token", Atom (VStr "T1"));
               ("user", Dict [("id", Atom (VStr (oid "0a1")));
                              ("name", Atom (VStr "Ada"));
                              ("email", Atom (VStr "ada@example.com"))])]).
Proof. vm_compute. reflexivity. Qed.

Example signup_ada_again :
  fst (signup ada_signup world1) = inl (HTTPException 400 "Email already registered").
Proof. vm_compute. reflexivity. Qed.

Example login_ada_wrong :
  fst (login ada_wrong world1) = inl (HTTPException 401 "Invalid credentials").
Proof. vm_compute. reflexivity. Qed.

Example login_ada :
  fst (login ada_login world1)
  = inr (Dict [("token", Atom (VStr "T2"));
               ("user", Dict [("id", Atom (VStr (oid "0a1")));
                              ("name", Atom (VStr "Ada"));
                              ("email", Atom (VStr "ada@example.com"))])]).
Proof. vm_compute. reflexivity. Qed.

Example me_ada :
  fst (Depends me (Some "Bearer T2") world2)
  = inr (Dict [("id", Atom (VStr (oid "0a1")));
               ("name", Atom (VStr "Ada"));
               ("email", Atom (VStr "ada@example.com"));
               ("plan", Atom (VStr "free"))]).
Proof. vm_compute. reflexivity. Qed.

Example authenticate_without_scheme :
  fst (require_auth (Some "T2") world2) = inl (HTTPException 401 "Missing token").
Proof. vm_compute. reflexivity. Qed.

Lemma unique_ids_world1 : unique_ids (users world1).
Proof. rewrite users_world1. unfold unique_ids. simpl. apply NoDup_singleton. Qed.

Lemma unique_emails_singleton (d : document) : unique_emails [d].
Proof.
  intros u1 u2 e H1 H2 _ _.
  apply list_elem_of_singleton in H1, H2. congruence.
Qed.

Lemma named_singleton (d : document) : is_Some (lookup_field d "name") -> named [d].
Proof. intros H u Hu. apply list_elem_of_singleton in Hu. subst u. exact H. Qed.

End ScenarioFacts.

(** ** Login *)

Section Login.

Lemma get_digest (u : document) (h : string) :
  get u "hashed_password" VNone = VStr h <-> has_digest h u.
Proof.
  unfold get, has_digest. destruct (lookup_field u "hashed_password") as [v|].
  - split; congruence.
  - split; discriminate.
Qed.

(** Rejected credentials: one exception for every cause, store untouched. *)
Lemma login_rejected (p : LoginRequest) (w : world) :
  ~ credentials_ok p w ->
  login p w = (inl (HTTPException 401 "Invalid credentials"), w).
Proof.
  intros Hno. rewrite login_eq.
  destruct (find _ _) as [user|] eqn:E; [|reflexivity].
  apply find_Some_elem in E as [Hin He]. apply matches_email in He.
  destruct (bool_decide _) eqn:B; [|reflexivity].
  exfalso. apply Hno. exists user.
  apply bool_decide_eq_true, get_digest in B. auto.
Qed.

(** What a successful login found and wrote. *)
Lemma login_accepted (p : LoginRequest) (w w' : world) (r : obj) :
  login p w = (inr r, w') ->
  exists u name,
    find (pymongo.matches [("email", VStr (login_email p))]) (users w) = Some u
    /\ has_digest (hash_password (login_password p)) u
    /\ fresh_id (oid_gen w 0%nat) (sessions w)
    /\ lookup_field u "name" = Some name
    /\ r = Dict [("token", Atom (VStr (entropy w 0%nat)));
                 ("user", Dict [("id", Atom (VStr (bson.str (_id u))));
                                ("name", Atom name);
                                ("email", Atom (VStr (login_email p)))])]
    /\ w' = advance 2 1 1
              (<["session" :=
                   sessions w ++
                   [Doc (oid_gen w 0%nat)
                        (session_doc (bson.str (_id u)) (entropy w 0%nat) (clock w 0%nat)
                                     (clock w 1%nat + py.timedelta_days 7))]]> (db w)) w.
Proof.
  rewrite login_eq.
  destruct (find _ _) as [user|] eqn:E; [|discriminate].
  destruct (bool_decide _) eqn:B; [|discriminate]. simpl.
  destruct (existsb _ _) eqn:X; [discriminate|].
  pose proof (find_Some_elem _ _ _ E) as [_ He]. apply matches_email in He.
  destruct (lookup_field user "name") as [name|] eqn:Hname; [|discriminate].
  rewrite He. intros [= <- <-]. exists user, name.
  apply bool_decide_eq_true, get_digest in B. apply existsb_fresh in X.
  repeat split; assumption || reflexivity.
Qed.

Lemma login_succeeds (p : LoginRequest) (w : world) (u : document) :
  find (pymongo.matches [("email", VStr (login_email p))]) (users w) = Some u ->
  has_digest (hash_password (login_password p)) u ->
  is_Some (lookup_field u "name") ->
  fresh_id (oid_gen w 0%nat) (sessions w) ->
  exists r, fst (login p w) = inr r.
Proof.
  intros E Hd [name Hn] Hf. rewrite login_eq, E.
  rewrite (bool_decide_eq_true_2 _ (proj2 (get_digest _ _) Hd)). simpl.
  rewrite (proj2 (existsb_fresh _ _) Hf), Hn.
  pose proof (find_Some_elem _ _ _ E) as [_ He]. apply matches_email in He.
  rewrite He. eauto.
Qed.

End Login.

(** C1. Login succeeds if and only if a user with that email is stored
    and the SHA-256 digest of the supplied password equals the stored
    digest; in every other case it raises 401 "Invalid credentials", the
    same exception whether the email is unknown or the password is wrong,
    and leaves the store untouched.  That a request with stored
    credentials does succeed is stated for a store that keeps its
    invariants (unique emails, users with a name) and an identifier
    generator that delivers an unused identifier. *)
Theorem login_iff_credentials (p : LoginRequest) (w : world) :
  ((exists r, fst (login p w) = inr r) -> credentials_ok p w)
  /\ (unique_emails (users w) ->
      named (users w) ->
      fresh_id (oid_gen w 0%nat) (sessions w) ->
      credentials_ok p w -> exists r, fst (login p w) = inr r)
  /\ (~ credentials_ok p w ->
      login p w = (inl (HTTPException 401 "Invalid credentials"), w))
  /\ ((forall u, u ∈ users w -> ~ has_email (login_email p) u) ->
      login p w = (inl (HTTPException 401 "Invalid credentials"), w))
  /\ (unique_emails (users w) ->
      forall u, u ∈ users w -> has_email (login_email p) u ->
                ~ has_digest (hash_password (login_password p)) u ->
      login p w = (inl (HTTPException 401 "Invalid credentials"), w)).
Proof.
  split; [|split; [|split; [|split]]].
  - intros [r Hr]. destruct (login p w) as [res w'] eqn:E. simpl in Hr. subst res.
    apply login_accepted in E as (u & name & Efind & Hd & _).
    apply find_Some_elem in Efind as [Hin He]. apply matches_email in He.
    exists u. auto.
  - intros Hu Hn Hf (u & Hin & He & Hd).
    apply (login_succeeds p w u); auto.
    apply find_unique; [exact Hin | apply matches_email, He |].
    intros y Hy Hm. apply matches_email in Hm. eapply Hu; eauto.
  - apply login_rejected.
  - intros Hnone. apply login_rejected. intros (u & Hin & He & _). exact (Hnone u Hin He).
  - intros Hu u Hin He Hd. apply login_rejected. intros (u' & Hin' & He' & Hd').
    apply Hd. rewrite (Hu u u' _ Hin Hin' He He'). exact Hd'.
Qed.

(** In the scenario: Ada's password is accepted, a wrong password and an
    unknown email are rejected with the same exception. *)
Lemma login_iff_credentials_witness :
  (exists r, fst (login Scenario.ada_login Scenario.world1) = inr r)
  /\ login Scenario.ada_wrong Scenario.world1
     = (inl (HTTPException 401 "Invalid credentials"), Scenario.world1)
  /\ login Scenario.bob_login Scenario.world1
     = (inl (HTTPException 401 "Invalid credentials"), Scenario.world1).
Proof.
  assert (Hu : unique_emails (users Scenario.world1))
    by (rewrite users_world1; apply unique_emails_singleton).
  assert (Hn : named (users Scenario.world1))
    by (rewrite users_world1; apply named_singleton; vm_compute; eauto).
  assert (Hf : fresh_id (oid_gen Scenario.world1 0%nat) (sessions Scenario.world1))
    by (apply existsb_fresh; vm_compute; reflexivity).
  split; [|split].
  - apply (proj1 (proj2 (login_iff_credentials Scenario.ada_login Scenario.world1)) Hu Hn Hf).
    exists Scenario.ada. split; [rewrite users_world1; left|].
    split; vm_compute; reflexivity.
  - apply (proj2 (proj2 (proj2 (proj2
             (login_iff_credentials Scenario.ada_wrong Scenario.world1)))) Hu Scenario.ada).
    + rewrite users_world1. left.
    + vm_compute. reflexivity.
    + vm_compute. discriminate.
  - apply (proj1 (proj2 (proj2 (proj2
             (login_iff_credentials Scenario.bob_login Scenario.world1))))).
    intros u Hin. rewrite users_world1 in Hin. apply list_elem_of_singleton in Hin.
    subst u. vm_compute. discriminate.
Defined.

(** ** Signup *)

Section Signup.

Lemma signup_duplicate (p : SignupRequest) (w : world) :
  (exists u, u ∈ users w /\ has_email (signup_email p) u) ->
  signup p w = (inl (HTTPException 400 "Email already registered"), w).
Proof.
  intros (u & Hin & He). rewrite signup_eq.
  destruct (find _ _) eqn:E; [reflexivity|].
  rewrite find_email_None in E. destruct (E u Hin He).
Qed.

(** The user and the session that [signup] writes for [p] in [w]. *)
Lemma signup_created (p : SignupRequest) (w : world) :
  (forall u, u ∈ users w -> ~ has_email (signup_email p) u) ->
  fresh_id (oid_gen w 0%nat) (users w) ->
  fresh_id (oid_gen w 1%nat) (sessions w) ->
  let model := mkUser (signup_name p) (signup_email p) (hash_password (signup_password p))
                      None "free" (Some (clock w 0%nat)) (Some (clock w 1%nat)) in
  let u := Doc (oid_gen w 0%nat)
               (timestamped (model_dump model) (clock w 2%nat) (clock w 3%nat)) in
  let s := Doc (oid_gen w 1%nat)
               (session_doc (bson.str (oid_gen w 0%nat)) (entropy w 0%nat)
                            (clock w 4%nat) (clock w 5%nat + py.timedelta_days 7)) in
  signup p w =
  (inr (Dict [("token", Atom (VStr (entropy w 0%nat)));
              ("user", Dict [("id", Atom (VStr (bson.str (oid_gen w 0%nat))));
                             ("name", Atom (VStr (signup_name p)));
                             ("email", Atom (VStr (signup_email p)))])]),
   advance 6 1 2 (<["session" := sessions w ++ [s]]> (<["user" := users w ++ [u]]> (db w))) w).
Proof.
  intros Hnew Hf0 Hf1. rewrite signup_eq.
  rewrite (proj2 (find_email_None _ _) Hnew).
  rewrite (proj2 (existsb_fresh _ _) Hf0), (proj2 (existsb_fresh _ _) Hf1).
  reflexivity.
Qed.

(** A successful signup ran in a store without that email, with unused
    identifiers. *)
Lemma signup_succeeded (p : SignupRequest) (w w' : world) (r : obj) :
  signup p w = (inr r, w') ->
  (forall u, u ∈ users w -> ~ has_email (signup_email p) u)
  /\ fresh_id (oid_gen w 0%nat) (users w)
  /\ fresh_id (oid_gen w 1%nat) (sessions w).
Proof.
  rewrite signup_eq.
  destruct (find _ _) eqn:E; [discriminate|].
  destruct (existsb _ (users w)) eqn:X0; [discriminate|].
  destruct (existsb _ (sessions w)) eqn:X1; [discriminate|].
  intros _. rewrite <- find_email_None, <- !existsb_fresh. auto.
Qed.

Lemma users_after_signup (users' sessions' : list document) (c e o : nat) (w : world) :
  users (advance c e o (<["session" := sessions']> (<["user" := users']> (db w))) w) = users'.
Proof.
  unfold users. rewrite collection_insert_ne by discriminate.
  rewrite lookup_insert_eq. reflexivity.
Qed.

Lemma sessions_after_signup (users' sessions' : list document) (c e o : nat) (w : world) :
  sessions (advance c e o (<["session" := sessions']> (<["user" := users']> (db w))) w)
  = sessions'.
Proof. apply collection_insert. Qed.

Lemma others_after_signup (name : string) (users' sessions' : list document)
      (c e o : nat) (w : world) :
  name <> "user" -> name <> "session" ->
  pymongo.collection name
    (advance c e o (<["session" := sessions']> (<["user" := users']> (db w))) w)
  = pymongo.collection name w.
Proof.
  intros H1 H2. rewrite collection_insert_ne by congruence.
  rewrite lookup_insert_ne by congruence. reflexivity.
Qed.

End Signup.

(** C3. When no stored user has the email, Signup succeeds and adds
    exactly one user (with that email and the digest of the password) and
    one session owned by it, leaving the other collections alone; a
    second Signup with the same email then fails.  When a stored user has
    the email, Signup raises 400 "Email already registered" and the store
    is unchanged: no user and no session is created. *)
Theorem signup_fresh_or_duplicate (p : SignupRequest) (w : world) :
  ((forall u, u ∈ users w -> ~ has_email (signup_email p) u) ->
   fresh_id (oid_gen w 0%nat) (users w) ->
   fresh_id (oid_gen w 1%nat) (sessions w) ->
   exists r u s,
     fst (signup p w) = inr r
     /\ users (snd (signup p w)) = users w ++ [u]
     /\ has_email (signup_email p) u
     /\ has_digest (hash_password (signup_password p)) u
     /\ sessions (snd (signup p w)) = sessions w ++ [s]
     /\ owned_by u s
     /\ (forall name, name <> "user" -> name <> "session" ->
           pymongo.collection name (snd (signup p w)) = pymongo.collection name w)
     /\ (forall p2, signup_email p2 = signup_email p ->
           signup p2 (snd (signup p w))
           = (inl (HTTPException 400 "Email already registered"), snd (signup p w))))
  /\
  ((exists u, u ∈ users w /\ has_email (signup_email p) u) ->
   signup p w = (inl (HTTPException 400 "Email already registered"), w)).
Proof.
  split; [|apply signup_duplicate].
  intros Hnew Hf0 Hf1. rewrite (signup_created p w Hnew Hf0 Hf1). simpl fst. simpl snd.
  eexists _, _, _. split; [reflexivity|].
  rewrite users_after_signup, sessions_after_signup.
  split; [reflexivity|]. split; [apply user_doc_email|]. split; [apply user_doc_digest|].
  split; [reflexivity|]. split; [apply session_doc_user_id|]. split.
  - intros name H1 H2. apply others_after_signup; assumption.
  - intros p2 E. apply signup_duplicate. eexists. rewrite users_after_signup.
    split; [apply elem_of_app; right; left|].
    rewrite E. apply user_doc_email.
Qed.

(** In the scenario: Ada's first signup creates her record, the second
    one is refused. *)
Lemma signup_fresh_or_duplicate_witness :
  (exists r, fst (signup Scenario.ada_signup Scenario.world0) = inr r)
  /\ signup Scenario.ada_signup Scenario.world1
     = (inl (HTTPException 400 "Email already registered"), Scenario.world1).
Proof.
  split.
  - destruct (proj1 (signup_fresh_or_duplicate Scenario.ada_signup Scenario.world0))
      as (r & _ & _ & Hr & _).
    + intros u Hu. vm_compute in Hu. inversion Hu.
    + apply existsb_fresh. vm_compute. reflexivity.
    + apply existsb_fresh. vm_compute. reflexivity.
    + exists r. exact Hr.
  - apply (proj2 (signup_fresh_or_duplicate Scenario.ada_signup Scenario.world1)).
    exists Scenario.ada. split; [rewrite users_world1; left | vm_compute; reflexivity].
Defined.

(** ** Tokens resolve to their owner *)

Section Resolution.

(** The three look-ups of the guard. *)
Lemma require_auth_resolves (w : world) (token : string) (s u : document) :
  find (pymongo.matches [("token", VStr token)]) (sessions w) = Some s ->
  owned_by u s ->
  find (pymongo.matches [("_id", VOid (_id u))]) (users w) = Some u ->
  require_auth (Some ("Bearer " +:+ token)) w = (inr (Ctx u s), w).
Proof.
  intros Hs Ho Hu. rewrite require_auth_Bearer, Hs, Ho, ObjectId_of_str, Hu. reflexivity.
Qed.

Lemma same_store_users (w1 w2 : world) : same_store w1 w2 -> users w2 = users w1.
Proof. apply same_store_collection. Qed.

Lemma same_store_sessions (w1 w2 : world) : same_store w1 w2 -> sessions w2 = sessions w1.
Proof. apply same_store_collection. Qed.

Lemma find_appended {A} (p : A -> bool) (l : list A) (x : A) :
  find p l = None -> p x = true -> find p (l ++ [x]) = Some x.
Proof. intros Hn Hp. rewrite find_app_None by exact Hn. simpl. rewrite Hp. reflexivity. Qed.

Lemma users_after_login (sessions' : list document) (c e o : nat) (w : world) :
  users (advance c e o (<["session" := sessions']> (db w)) w) = users w.
Proof. unfold users. rewrite collection_insert_ne by discriminate. reflexivity. Qed.

Lemma sessions_after_login (sessions' : list document) (c e o : nat) (w : world) :
  sessions (advance c e o (<["session" := sessions']> (db w)) w) = sessions'.
Proof. apply collection_insert. Qed.

Lemma others_after_login (name : string) (sessions' : list document) (c e o : nat) (w : world) :
  name <> "session" ->
  pymongo.collection name (advance c e o (<["session" := sessions']> (db w)) w)
  = pymongo.collection name w.
Proof. intros H. rewrite collection_insert_ne by congruence. reflexivity. Qed.

Lemma pair_eq {A B} (x : A * B) (a : A) : fst x = a -> x = (a, snd x).
Proof. destruct x; simpl; intros ->; reflexivity. Qed.

End Resolution.

Section Issuance.

Lemma signup_issues_token :
  forall (p : SignupRequest) (w w' : world) (r : obj),
   signup p w = (inr r, w') ->
   fresh_token (entropy w 0%nat) (sessions w) ->
   exists token u s,
     r = Dict [("token", Atom (VStr token));
               ("user", Dict [("id", Atom (VStr (bson.str (_id u))));
                              ("name", Atom (VStr (signup_name p)));
                              ("email", Atom (VStr (signup_email p)))])]
     /\ users w' = users w ++ [u]
     /\ has_email (signup_email p) u
     /\ sessions w' = sessions w ++ [s]
     /\ has_token token s
     /\ owned_by u s
     /\ forall later, same_store w' later ->
          require_auth (Some ("Bearer " +:+ token)) later = (inr (Ctx u s), later).
Proof.
  intros p w w' r H Htok.
  destruct (signup_succeeded _ _ _ _ H) as (Hnew & Hf0 & Hf1).
  rewrite (signup_created p w Hnew Hf0 Hf1) in H.
  match type of H with
  | (_, advance _ _ _ (<[_ := _ ++ [?s]]> (<[_ := _ ++ [?u]]> _)) _) = _ =>
      exists (entropy w 0%nat), u, s
  end.
  injection H as <- <-. split; [reflexivity|].
  rewrite users_after_signup, sessions_after_signup.
  split; [reflexivity|]. split; [apply user_doc_email|].
  split; [reflexivity|]. split; [apply session_doc_token|].
  split; [apply session_doc_user_id|].
  intros later Hl. apply require_auth_resolves.
  + rewrite (same_store_sessions _ _ Hl), sessions_after_signup.
    apply find_appended; [apply find_token_fresh, Htok | apply matches_token, session_doc_token].
  + apply session_doc_user_id.
  + rewrite (same_store_users _ _ Hl), users_after_signup.
    apply find_appended; [apply find_id_fresh, Hf0 | apply matches_id; reflexivity].
Qed.

Lemma login_issues_token :
  forall (p : LoginRequest) (w w' : world) (r : obj),
   login p w = (inr r, w') ->
   fresh_token (entropy w 0%nat) (sessions w) ->
   unique_ids (users w) ->
   exists token u s name,
     r = Dict [("token", Atom (VStr token));
               ("user", Dict [("id", Atom (VStr (bson.str (_id u))));
                              ("name", Atom name);
                              ("email", Atom (VStr (login_email p)))])]
     /\ u ∈ users w
     /\ users w' = users w
     /\ has_email (login_email p) u
     /\ has_digest (hash_password (login_password p)) u
     /\ sessions w' = sessions w ++ [s]
     /\ has_token token s
     /\ owned_by u s
     /\ forall later, same_store w' later ->
          require_auth (Some ("Bearer " +:+ token)) later = (inr (Ctx u s), later).
Proof.
  intros p w w' r H Htok Hids.
  destruct (login_accepted _ _ _ _ H) as (u & name & Hfind & Hd & Hf & Hname & -> & ->).
  apply find_Some_elem in Hfind as [Hin He]. apply matches_email in He.
  eexists _, u, _, name. split; [reflexivity|].
  rewrite users_after_login, sessions_after_login.
  split; [exact Hin|]. split; [reflexivity|]. split; [exact He|]. split; [exact Hd|].
  split; [reflexivity|]. split; [apply session_doc_token|].
  split; [apply session_doc_user_id|].
  intros later Hl. apply require_auth_resolves.
  + rewrite (same_store_sessions _ _ Hl), sessions_after_login.
    apply find_appended; [apply find_token_fresh, Htok | apply matches_token, session_doc_token].
  + apply session_doc_user_id.
  + rewrite (same_store_users _ _ Hl), users_after_login.
    apply find_by_id; assumption.
Qed.

End Issuance.

(** C2. The token returned by a successful Signup or Login, presented as
    "Bearer <token>" at any later moment at which the store is the one
    the call left (whatever the clock reads by then), is accepted by
    [require_auth], which returns the session just written and the user it
    was issued for: the newly created user for Signup, the user whose
    credentials were checked for Login.  The token source is assumed to
    deliver a token that no stored session carries, and the store to keep
    [_id] unique. *)
Theorem issued_token_authenticates :
  (forall (p : SignupRequest) (w w' : world) (r : obj),
     signup p w = (inr r, w') ->
     fresh_token (entropy w 0%nat) (sessions w) ->
     exists token u s,
       r = Dict [("token", Atom (VStr token));
                 ("user", Dict [("id", Atom (VStr (bson.str (_id u))));
                                ("name", Atom (VStr (signup_name p)));
                                ("email", Atom (VStr (signup_email p)))])]
       /\ users w' = users w ++ [u]
       /\ has_email (signup_email p) u
       /\ sessions w' = sessions w ++ [s]
       /\ has_token token s
       /\ owned_by u s
       /\ forall later, same_store w' later ->
            require_auth (Some ("Bearer " +:+ token)) later = (inr (Ctx u s), later))
  /\
  (forall (p : LoginRequest) (w w' : world) (r : obj),
     login p w = (inr r, w') ->
     fresh_token (entropy w 0%nat) (sessions w) ->
     unique_ids (users w) ->
     exists token u s name,
       r = Dict [("token", Atom (VStr token));
                 ("user", Dict [("id", Atom (VStr (bson.str (_id u))));
                                ("name", Atom name);
                                ("email", Atom (VStr (login_email p)))])]
       /\ u ∈ users w
       /\ users w' = users w
       /\ has_email (login_email p) u
       /\ has_digest (hash_password (login_password p)) u
       /\ sessions w' = sessions w ++ [s]
       /\ has_token token s
       /\ owned_by u s
       /\ forall later, same_store w' later ->
            require_auth (Some ("Bearer " +:+ token)) later = (inr (Ctx u s), later)).
Proof.
  split; [exact signup_issues_token | exact login_issues_token].
Qed.

(** In the scenario: T1, issued at signup, and T2, issued at login, both
    resolve to Ada, each with its own session. *)
Lemma issued_token_authenticates_witness :
  (exists u s, require_auth (Some "Bearer T1") Scenario.world1
               = (inr (Ctx u s), Scenario.world1)
               /\ has_email "ada@example.com" u /\ has_token "T1" s)
  /\
  (exists u s, require_auth (Some "Bearer T2") Scenario.world2
               = (inr (Ctx u s), Scenario.world2)
               /\ has_email "ada@example.com" u /\ has_token "T2" s).
Proof.
  split.
  - destruct (proj1 issued_token_authenticates Scenario.ada_signup Scenario.world0
                Scenario.world1 _ (pair_eq _ _ signup_ada))
      as (token & u & s & Hr & _ & He & _ & Ht & _ & Hauth).
    + apply find_token_fresh. vm_compute. reflexivity.
    + injection Hr as <- _. exists u, s.
      split; [apply Hauth; reflexivity | split; assumption].
  - destruct (proj2 issued_token_authenticates Scenario.ada_login Scenario.world1
                Scenario.world2 _ (pair_eq _ _ login_ada))
      as (token & u & s & name & Hr & _ & _ & He & _ & _ & Ht & _ & Hauth).
    + apply find_token_fresh. vm_compute. reflexivity.
    + apply unique_ids_world1.
    + injection Hr as <- _. exists u, s.
      split; [apply Hauth; reflexivity | split; assumption].
Defined.

(** ** Expiry is recorded, not enforced *)

(** C6. Resolving the token of a stored session succeeds and returns the
    session's owner even when the clock reads later than the session's
    [expires_at]: the guard never looks at the clock or at that field.
    The session's token is the unique one of the store, its owner is
    stored, and [_id] is unique among users. *)
Theorem expired_session_still_resolves
        (w : world) (token : string) (s u : document) (expires_at : Z) :
  s ∈ sessions w ->
  has_token token s ->
  unique_tokens (sessions w) ->
  owned_by u s ->
  u ∈ users w ->
  unique_ids (users w) ->
  lookup_field s "expires_at" = Some (VDate expires_at) ->
  forall later,
    same_store w later ->
    expires_at < clock later 0%nat ->
    require_auth (Some ("Bearer " +:+ token)) later = (inr (Ctx u s), later).
Proof.
  intros Hs Ht Huniq Ho Hu Hids _ later Hl _.
  apply require_auth_resolves.
  - rewrite (same_store_sessions _ _ Hl).
    apply find_unique; [exact Hs | apply matches_token, Ht |].
    intros y Hy Hm. apply matches_token in Hm. eapply Huniq; eauto.
  - exact Ho.
  - rewrite (same_store_users _ _ Hl). apply find_by_id; assumption.
Qed.

(** In the scenario: T1 expired on the eighth day, and still resolves to
    Ada three years later. *)
Lemma expired_session_still_resolves_witness :
  lookup_field Scenario.session1 "expires_at" = Some (VDate 1700604800000000)
  /\ 1700604800000000 < clock Scenario.world_late 0%nat
  /\ require_auth (Some "Bearer T1") Scenario.world_late
     = (inr (Ctx Scenario.ada Scenario.session1), Scenario.world_late).
Proof.
  split; [reflexivity|]. split; [reflexivity|].
  apply (expired_session_still_resolves Scenario.world2 "T1" Scenario.session1 Scenario.ada
           1700604800000000).
  - rewrite sessions_world2. left.
  - reflexivity.
  - rewrite sessions_world2. intros s1 s2 t H1 H2 T1 T2.
    apply elem_of_cons in H1 as [->|H1]; apply elem_of_cons in H2 as [->|H2];
      try apply list_elem_of_singleton in H1; try apply list_elem_of_singleton in H2;
      subst; try reflexivity; vm_compute in T1, T2; congruence.
  - reflexivity.
  - rewrite users_world2. left.
  - rewrite users_world2. unfold unique_ids. simpl. apply NoDup_singleton.
  - reflexivity.
  - reflexivity.
  - reflexivity.
Defined.

(** ** Login leaves the earlier sessions alone *)

Section Frame.

(** Every outcome of [login]: the world it leaves. *)
Lemma login_world (p : LoginRequest) (w : world) :
  snd (login p w) = w
  \/ snd (login p w) = advance 2 1 1 (db w) w
  \/ exists s, snd (login p w) = advance 2 1 1 (<["session" := sessions w ++ [s]]> (db w)) w.
Proof.
  rewrite login_eq.
  destruct (find _ _) as [user|]; [|auto].
  destruct (negb _); [auto|].
  destruct (existsb _ _); [auto|].
  right. right. eexists.
  destruct (lookup_field user "name"), (lookup_field user "email"); reflexivity.
Qed.


(** An identifier obtained without consuming the generator is obtained
    again, whatever was consumed meanwhile. *)
Lemma ObjectId_of_stable (v : value) (w : world) (oid : ObjectId)
      (c e o : nat) (store : gmap string (list document)) :
  ObjectId_of v w = (inr oid, w) ->
  ObjectId_of v (advance c e o store w) = (inr oid, advance c e o store w).
Proof.
  destruct v as [| b | x | y | t]; simpl.
  - unfold new_ObjectId. destruct w as [d ck en og]; simpl. intros [= <- G].
    assert (Hpt : forall n, og (S n) = og n)
      by (intros n; exact (f_equal (fun f => f n) G)).
    assert (Hall : forall k n, og (k + n)%nat = og n).
    { induction k as [|k IH]; intros n; simpl; [reflexivity|]. rewrite Hpt. apply IH. }
    unfold advance; simpl. f_equal.
    + f_equal. apply Hall.
    + f_equal. clear Hall. induction o as [|o IH]; simpl.
      * exact G.
      * change (fun n => og (S (o + S n)))
          with (fun n => (fun m => og (S m)) (o + S n)%nat).
        change (fun n => og (S (o + n)))
          with (fun n => (fun m => og (S m)) (o + n)%nat).
        rewrite G. exact IH.
  - unfold raise. discriminate.
  - destruct (bson.of_str x); unfold ret, raise; [|discriminate].
    intros [= <-]. reflexivity.
  - unfold ret. intros [= <-]. reflexivity.
  - unfold raise. discriminate.
Qed.

(** A header accepted before the write of a session is accepted after
    it, with the same principal. *)
Lemma require_auth_preserved (token : string) (ctx : auth_ctx) (w : world)
      (added : list document) (c e o : nat) (store : gmap string (list document)) :
  require_auth (Some ("Bearer " +:+ token)) w = (inr ctx, w) ->
  default [] (store !! "session") = sessions w ++ added ->
  default [] (store !! "user") = users w ->
  require_auth (Some ("Bearer " +:+ token)) (advance c e o store w)
  = (inr ctx, advance c e o store w).
Proof.
  intros H Hs Hu. rewrite require_auth_Bearer in H |- *.
  destruct (find _ (sessions w)) as [s|] eqn:Ef; [|discriminate].
  replace (sessions (advance c e o store w)) with (sessions w ++ added)
    by (symmetry; exact Hs).
  rewrite (find_app_Some _ _ _ _ Ef).
  destruct (lookup_field s "user_id") as [v|]; [|discriminate].
  destruct (ObjectId_of v w) as [[ex|oid] w1] eqn:EO; [discriminate|].
  destruct (find _ (users w1)) as [u|] eqn:Eu; [|discriminate].
  injection H as <- ->.
  rewrite (ObjectId_of_stable _ _ _ c e o store EO).
  replace (users (advance c e o store w)) with (users w) by (symmetry; exact Hu).
  rewrite Eu. reflexivity.
Qed.

End Frame.

(** C8. Whatever its outcome, Login writes at most one session at the end
    of the collection and touches nothing else: every earlier session
    record is kept as it was, and a header accepted before the call is
    accepted after it with the same principal.  When Login succeeds, the
    token T2 it returns is accepted too, and differs from the token T1 of
    every earlier session, the token source being assumed to deliver a
    token that no stored session carries. *)
Theorem login_keeps_sessions (p : LoginRequest) (w : world) :
  (exists added,
      sessions (snd (login p w)) = sessions w ++ added /\ (length added <= 1)%nat)
  /\ (forall name, name <> "session" ->
        pymongo.collection name (snd (login p w)) = pymongo.collection name w)
  /\ (forall t1 ctx,
        require_auth (Some ("Bearer " +:+ t1)) w = (inr ctx, w) ->
        require_auth (Some ("Bearer " +:+ t1)) (snd (login p w)) = (inr ctx, snd (login p w)))
  /\ (forall r,
        fst (login p w) = inr r ->
        fresh_token (entropy w 0%nat) (sessions w) ->
        unique_ids (users w) ->
        exists t2 user_view u s2,
          r = Dict [("token", Atom (VStr t2)); ("user", user_view)]
          /\ sessions (snd (login p w)) = sessions w ++ [s2]
          /\ has_token t2 s2
          /\ require_auth (Some ("Bearer " +:+ t2)) (snd (login p w))
             = (inr (Ctx u s2), snd (login p w))
          /\ forall s1 t1, s1 ∈ sessions w -> has_token t1 s1 -> t2 <> t1).
Proof.
  split; [|split; [|split]].
  - destruct (login_world p w) as [-> | [-> | [s ->]]].
    + exists []. rewrite app_nil_r. split; [reflexivity | simpl; lia].
    + exists []. rewrite app_nil_r. split; [reflexivity | simpl; lia].
    + exists [s]. rewrite sessions_after_login. split; [reflexivity | simpl; lia].
  - intros name Hname. destruct (login_world p w) as [-> | [-> | [s ->]]].
    + reflexivity.
    + reflexivity.
    + apply others_after_login, Hname.
  - intros t1 ctx H. destruct (login_world p w) as [-> | [-> | [s ->]]].
    + exact H.
    + apply (require_auth_preserved t1 ctx w []); [exact H | |reflexivity].
      rewrite app_nil_r. reflexivity.
    + apply (require_auth_preserved t1 ctx w [s]); [exact H | |].
      * rewrite lookup_insert_eq. reflexivity.
      * rewrite lookup_insert_ne by discriminate. reflexivity.
  - intros r Hr Htok Hids.
    pose proof (pair_eq _ _ Hr) as E.
    destruct (login_accepted _ _ _ _ E) as (u0 & name0 & _ & _ & _ & _ & Er & _).
    destruct (login_issues_token p w _ r E Htok Hids)
      as (t2 & u & s2 & name & Er2 & _ & _ & _ & _ & Hs & Ht & _ & Hauth).
    assert (t2 = entropy w 0%nat) as Et by congruence.
    eexists t2, _, u, s2. split; [exact Er2|]. split; [exact Hs|]. split; [exact Ht|].
    split; [apply Hauth; reflexivity|].
    intros s1 t1 Hin Ht1 <-. rewrite Et in Ht1. exact (Htok s1 Hin Ht1).
Qed.

(** In the scenario: T1 is accepted before and after Ada's login; the
    login returns T2, accepted as well and different from T1. *)
Lemma login_keeps_sessions_witness :
  require_auth (Some "Bearer T1") Scenario.world2
  = (inr (Ctx Scenario.ada Scenario.session1), Scenario.world2)
  /\ exists t2 u s2,
       require_auth (Some ("Bearer " +:+ t2)) Scenario.world2
       = (inr (Ctx u s2), Scenario.world2)
       /\ t2 <> "T1".
Proof.
  pose proof (login_keeps_sessions Scenario.ada_login Scenario.world1)
    as (_ & _ & Hkeep & Hnew).
  split.
  - apply (Hkeep "T1" (Ctx Scenario.ada Scenario.session1)).
    apply require_auth_resolves; vm_compute; reflexivity.
  - destruct (Hnew _ login_ada) as (t2 & view & u & s2 & _ & _ & _ & Hauth & Hne).
    + apply find_token_fresh. vm_compute. reflexivity.
    + apply unique_ids_world1.
    + exists t2, u, s2. split; [exact Hauth|].
      apply (Hne Scenario.session1); [rewrite sessions_world1; left | reflexivity].
Defined.

(** ** The expiry written into a session *)

Section Expiry.

Lemma millis_plus_7_days (t : Z) :
  bson.millis_to_datetime (bson.datetime_to_millis (t + py.timedelta_days 7))
  = bson.millis_to_datetime (bson.datetime_to_millis t) + py.timedelta_days 7.
Proof.
  unfold bson.millis_to_datetime, bson.datetime_to_millis, py.timedelta_days.
  change (7 * 86400 * 1000000) with (604800000 * 1000).
  rewrite Z.div_add by lia. lia.
Qed.

Lemma expires_after_7_days_iff (o : ObjectId) (uid tok : string) (c e : Z) :
  expires_after_7_days (Doc o (session_doc uid tok c (e + py.timedelta_days 7)))
  <-> bson.datetime_to_millis e = bson.datetime_to_millis c.
Proof.
  unfold expires_after_7_days.
  rewrite session_doc_created_at, session_doc_expires_at, millis_plus_7_days.
  unfold bson.millis_to_datetime. split.
  - intros (c' & [= <-] & [= H]). lia.
  - intros ->. eauto.
Qed.

End Expiry.

(** C7, as stated, fails: [created_at] and [expires_at] come from two
    successive readings of the clock, and the database keeps each on
    the millisecond.  Ada logs in 2 microseconds before a millisecond
    boundary; the second reading, 3 microseconds later, falls after it,
    and the record persisted holds a [created_at] and an [expires_at]
    that are seven days and one millisecond apart. *)
Lemma session_expiry_counterexample :
  fst (login Scenario.ada_login Tour.world_tick)
  = inr (Dict [("token", Atom (VStr "T2"));
               ("user", Dict [("id", Atom (VStr (Scenario.oid "0a1")));
                              ("name", Atom (VStr "Ada"));
                              ("email", Atom (VStr "ada@example.com"))])])
  /\ clock Tour.world_tick 0%nat = 1700000000000998
  /\ clock Tour.world_tick 1%nat = 1700000000001001
  /\ sessions (snd (login Scenario.ada_login Tour.world_tick))
     = sessions Tour.world_tick ++ [Tour.session_tick]
  /\ lookup_field Tour.session_tick "created_at" = Some (VDate 1700000000000000)
  /\ lookup_field Tour.session_tick "expires_at"
     = Some (VDate (1700000000001000 + py.timedelta_days 7))
  /\ ~ expires_after_7_days Tour.session_tick.
Proof.
  split; [vm_compute; reflexivity|]. split; [reflexivity|]. split; [reflexivity|].
  split; [vm_compute; reflexivity|]. split; [reflexivity|]. split; [reflexivity|].
  intros H. apply expires_after_7_days_iff in H. discriminate H.
Qed.

(** C7, amended. The session record persisted by a successful Signup or
    Login holds as [created_at] one reading of the clock and as
    [expires_at] the next reading plus exactly seven days, each cut to
    the millisecond as the database keeps it; the two are exactly seven
    days apart if and only if the two readings fall in the same
    millisecond. *)
Theorem session_expiry_from_next_reading :
  (forall (p : SignupRequest) (w w' : world) (r : obj),
     signup p w = (inr r, w') ->
     exists s i,
       sessions w' = sessions w ++ [s]
       /\ lookup_field s "created_at"
          = Some (VDate (bson.millis_to_datetime (bson.datetime_to_millis (clock w i))))
       /\ lookup_field s "expires_at"
          = Some (VDate (bson.millis_to_datetime (bson.datetime_to_millis (clock w (S i)))
                         + py.timedelta_days 7))
       /\ (expires_after_7_days s
           <-> bson.datetime_to_millis (clock w (S i)) = bson.datetime_to_millis (clock w i)))
  /\
  (forall (p : LoginRequest) (w w' : world) (r : obj),
     login p w = (inr r, w') ->
     exists s i,
       sessions w' = sessions w ++ [s]
       /\ lookup_field s "created_at"
          = Some (VDate (bson.millis_to_datetime (bson.datetime_to_millis (clock w i))))
       /\ lookup_field s "expires_at"
          = Some (VDate (bson.millis_to_datetime (bson.datetime_to_millis (clock w (S i)))
                         + py.timedelta_days 7))
       /\ (expires_after_7_days s
           <-> bson.datetime_to_millis (clock w (S i)) = bson.datetime_to_millis (clock w i))).
Proof.
  split.
  - intros p w w' r H.
    destruct (signup_succeeded _ _ _ _ H) as (Hnew & Hf0 & Hf1).
    rewrite (signup_created p w Hnew Hf0 Hf1) in H. injection H as _ <-.
    eexists _, 4%nat. rewrite sessions_after_signup. split; [reflexivity|].
    split; [apply session_doc_created_at|].
    split; [rewrite session_doc_expires_at, millis_plus_7_days; reflexivity|].
    apply expires_after_7_days_iff.
  - intros p w w' r H.
    destruct (login_accepted _ _ _ _ H) as (u & name & _ & _ & _ & _ & _ & ->).
    eexists _, 0%nat. rewrite sessions_after_login. split; [reflexivity|].
    split; [apply session_doc_created_at|].
    split; [rewrite session_doc_expires_at, millis_plus_7_days; reflexivity|].
    apply expires_after_7_days_iff.
Qed.

(** In the scenario, for Ada's signup and for her login: there both
    readings fall in the same millisecond, and the records are exactly
    seven days apart. *)
Lemma session_expiry_from_next_reading_witness :
  (exists s, sessions Scenario.world1 = sessions Scenario.world0 ++ [s]
             /\ lookup_field s "expires_at"
                = Some (VDate (1700000000000000 + py.timedelta_days 7))
             /\ expires_after_7_days s)
  /\
  (exists s, sessions Scenario.world2 = sessions Scenario.world1 ++ [s]
             /\ lookup_field s "expires_at"
                = Some (VDate (1700000000000000 + py.timedelta_days 7))
             /\ expires_after_7_days s).
Proof.
  split.
  - destruct (proj1 session_expiry_from_next_reading Scenario.ada_signup Scenario.world0
                Scenario.world1 _ (pair_eq _ _ signup_ada)) as (s & i & Hs & _ & He & H7).
    exists s. split; [exact Hs|].
    assert (E : sessions Scenario.world1 = sessions Scenario.world0 ++ [Scenario.session1])
      by (rewrite sessions_world1; reflexivity).
    rewrite E in Hs. apply app_inv_head in Hs. injection Hs as <-.
    split; [reflexivity|]. exists 1700000000000000. split; reflexivity.
  - destruct (proj2 session_expiry_from_next_reading Scenario.ada_login Scenario.world1
                Scenario.world2 _ (pair_eq _ _ login_ada)) as (s & i & Hs & _ & He & H7).
    exists s. split; [exact Hs|].
    assert (E : sessions Scenario.world2 = sessions Scenario.world1 ++ [Scenario.session2])
      by (rewrite sessions_world1, sessions_world2; reflexivity).
    rewrite E in Hs. apply app_inv_head in Hs. injection Hs as <-.
    split; [reflexivity|]. exists 1700000000000000. split; reflexivity.
Defined.

(** ** What the responses contain *)

Section Responses.

Lemma obj_keys_List_cons (v : obj) (r : list obj) :
  obj_keys (List (v :: r)) = obj_keys v ++ obj_keys (List r).
Proof. reflexivity. Qed.

Lemma watchlist_rows (items : list document) (w w' : world) (rows : list obj) (k : string) :
  mapM (fun i =>
          symbol <- getitem i "symbol" ;;
          ret (Dict [("id", Atom (VStr (bson.str (_id i))));
                     ("symbol", Atom symbol);
                     ("note", Atom (get i "note" VNone))])) items w = (inr rows, w') ->
  k ∈ obj_keys (List rows) -> k ∈ ["id"; "symbol"; "note"].
Proof.
  revert w w' rows. induction items as [|i items IH]; intros w w' rows H Hk.
  - injection H as <- _. inversion Hk.
  - cbn [mapM] in H. unfold bind at 1 2, getitem in H.
    destruct (lookup_field i "symbol") as [sym|]; [|discriminate H].
    unfold ret at 1 2 in H. unfold bind at 1 in H.
    destruct (mapM _ items w) as [[e|ys] w1] eqn:E; [discriminate H|].
    injection H as <- _. rewrite obj_keys_List_cons in Hk.
    apply elem_of_app in Hk as [Hk|Hk]; [exact Hk | exact (IH _ _ _ E Hk)].
Qed.

Lemma lookup_without_digest (d : document) (k : string) :
  k <> "hashed_password" -> lookup_field (without_digest d) k = lookup_field d k.
Proof.
  intros H. unfold lookup_field, without_digest; simpl.
  destruct (decide (k = "_id")); [reflexivity|].
  rewrite lookup_delete_ne by congruence. reflexivity.
Qed.

Lemma get_without_digest (d : document) (k : string) (v : value) :
  k <> "hashed_password" -> get (without_digest d) k v = get d k v.
Proof. intros H. unfold get. rewrite lookup_without_digest by exact H. reflexivity. Qed.

Lemma find_id_without_digest (o : ObjectId) (docs : list document) :
  find (pymongo.matches [("_id", VOid o)]) (without_digest <$> docs)
  = without_digest <$> find (pymongo.matches [("_id", VOid o)]) docs.
Proof.
  induction docs as [|d docs IH]; [reflexivity|].
  rewrite fmap_cons. cbn [find].
  assert (E : pymongo.matches [("_id", VOid o)] (without_digest d)
              = pymongo.matches [("_id", VOid o)] d) by reflexivity.
  rewrite E. destruct (pymongo.matches [("_id", VOid o)] d); [reflexivity | exact IH].
Qed.

Lemma me_without_digest (u s : document) (w1 w2 : world) :
  fst (me (Ctx (without_digest u) s) w1) = fst (me (Ctx u s) w2).
Proof.
  unfold me, ret; simpl.
  rewrite !get_without_digest by discriminate. reflexivity.
Qed.

(** The guard on the redacted store finds the same session and the
    same user, minus the digest. *)
Lemma require_auth_redact (authorization : option string) (w : world) :
  match require_auth authorization w with
  | (inl e, _) => fst (require_auth authorization (redact w)) = inl e
  | (inr ctx, _) =>
      fst (require_auth authorization (redact w))
      = inr (Ctx (without_digest (ctx_user ctx)) (ctx_session ctx))
  end.
Proof.
  destruct authorization as [a|]; [|reflexivity].
  destruct (py.startswith a "Bearer ") eqn:Hp.
  - apply startswith_Bearer in Hp as [token ->].
    rewrite !require_auth_Bearer.
    replace (sessions (redact w)) with (sessions w)
      by (unfold sessions, redact; rewrite collection_World, lookup_insert_ne by discriminate;
          reflexivity).
    destruct (find _ (sessions w)) as [s|]; [|reflexivity].
    destruct (lookup_field s "user_id") as [v|]; [|reflexivity].
    assert (Hfind : forall o (x : world),
               users x = users w ->
               find (pymongo.matches [("_id", VOid o)])
                    (users (World (<["user" := without_digest <$> users w]> (db x))
                                  (clock x) (entropy x) (oid_gen x)))
               = without_digest <$> find (pymongo.matches [("_id", VOid o)]) (users x)).
    { intros o x Hx. unfold users at 1. rewrite collection_World, lookup_insert_eq. simpl.
      rewrite Hx. apply find_id_without_digest. }
    unfold redact.
    destruct v as [| b | x | y | t]; simpl; unfold ret, raise, new_ObjectId; simpl;
      try reflexivity.
    + specialize (Hfind (oid_gen w 0%nat)
                        (World (db w) (clock w) (entropy w) (fun n => oid_gen w (S n)))
                        eq_refl).
      cbn [db clock entropy oid_gen] in Hfind. rewrite Hfind. clear Hfind.
      destruct (find _ _); simpl; reflexivity.
    + destruct (bson.of_str x) as [o|]; [|reflexivity].
      specialize (Hfind o w eq_refl). rewrite Hfind. clear Hfind.
      destruct (find _ _); simpl; reflexivity.
    + specialize (Hfind y w eq_refl). rewrite Hfind. clear Hfind.
      destruct (find _ _); simpl; reflexivity.
  - rewrite !require_auth_no_prefix by exact Hp. reflexivity.
Qed.

End Responses.

Ltac not_a_key :=
  let H := fresh "H" in
  intros H; repeat (apply elem_of_cons in H as [H|H]; [discriminate H|]); inversion H.

Section ResponseShapes.

Lemma signup_response (p : SignupRequest) (w w' : world) (r : obj) :
  signup p w = (inr r, w') ->
  r = Dict [("token", Atom (VStr (entropy w 0%nat)));
            ("user", Dict [("id", Atom (VStr (bson.str (oid_gen w 0%nat))));
                           ("name", Atom (VStr (signup_name p)));
                           ("email", Atom (VStr (signup_email p)))])].
Proof.
  intros H. destruct (signup_succeeded _ _ _ _ H) as (Hnew & Hf0 & Hf1).
  rewrite (signup_created p w Hnew Hf0 Hf1) in H. injection H as <- _. reflexivity.
Qed.

Lemma me_response (authorization : option string) (w w' : world) (r : obj) :
  Depends me authorization w = (inr r, w') ->
  exists ctx,
    require_auth authorization w = (inr ctx, w')
    /\ r = Dict [("id", Atom (VStr (bson.str (_id (ctx_user ctx)))));
                 ("name", Atom (get (ctx_user ctx) "name" VNone));
                 ("email", Atom (get (ctx_user ctx) "email" VNone));
                 ("plan", Atom (get (ctx_user ctx) "plan" (VStr "free")))].
Proof.
  unfold Depends, bind.
  destruct (require_auth authorization w) as [[e|ctx] w1]; [discriminate|].
  unfold me, ret. intros [= <- <-]. exists ctx. split; reflexivity.
Qed.

Lemma get_watchlist_keys (authorization : option string) (w w' : world) (r : obj) (k : string) :
  Depends get_watchlist authorization w = (inr r, w') ->
  k ∈ obj_keys r -> k ∈ ["id"; "symbol"; "note"].
Proof.
  unfold Depends, bind at 1.
  destruct (require_auth authorization w) as [[e|ctx] w1]; [discriminate|].
  unfold get_watchlist, bind at 1, pymongo.find_all, bind at 1.
  destruct (mapM _ _ w1) as [[e|rows] w2] eqn:E; [discriminate|].
  unfold ret. intros [= <- _]. apply (watchlist_rows _ _ _ _ _ E).
Qed.

Lemma delete_watchlist_response (item_id : string) (authorization : option string)
      (w w' : world) (r : obj) :
  Depends (delete_watchlist item_id) authorization w = (inr r, w') ->
  r = Dict [("ok", Atom (VBool true))].
Proof.
  unfold Depends, bind at 1.
  destruct (require_auth authorization w) as [[e|ctx] w1]; [discriminate|].
  rewrite delete_watchlist_eq.
  destruct (bson.of_str item_id); [|discriminate].
  cbv zeta. destruct (find _ _); [|discriminate].
  intros [= <- _]. reflexivity.
Qed.

End ResponseShapes.

(** C5. The objects returned by Signup and Login have exactly the keys
    token, user, id, name, email, and the object returned by /me exactly
    id, name, email, plan; their values are the token and the id, name,
    email (and plan) of the user.  The Signup response is the same for
    every password, the /me response is the same when every stored digest
    is erased, and no object returned by any embedded route has a key
    [hashed_password]. *)
Theorem responses_hide_digest :
  (forall (p : SignupRequest) (w w' : world) (r : obj),
     signup p w = (inr r, w') ->
     obj_keys r = ["token"; "user"; "id"; "name"; "email"]
     /\ forall password,
          fst (signup (mkSignupRequest (signup_name p) (signup_email p) password) w) = inr r)
  /\
  (forall (p : LoginRequest) (w w' : world) (r : obj),
     login p w = (inr r, w') ->
     obj_keys r = ["token"; "user"; "id"; "name"; "email"]
     /\ exists token u,
          u ∈ users w
          /\ r = Dict [("token", Atom (VStr token));
                       ("user", Dict [("id", Atom (VStr (bson.str (_id u))));
                                      ("name", Atom (get u "name" VNone));
                                      ("email", Atom (get u "email" VNone))])])
  /\
  (forall (authorization : option string) (w w' : world) (r : obj),
     Depends me authorization w = (inr r, w') ->
     obj_keys r = ["id"; "name"; "email"; "plan"]
     /\ fst (Depends me authorization (redact w)) = inr r)
  /\
  (forall (req : request) (w w' : world) (r : obj),
     app req w = (inr r, w') -> "hashed_password" ∉ obj_keys r).
Proof.
  assert (Hlogin : forall (p : LoginRequest) (w w' : world) (r : obj),
             login p w = (inr r, w') ->
             obj_keys r = ["token"; "user"; "id"; "name"; "email"]
             /\ exists token u,
                  u ∈ users w
                  /\ r = Dict [("token", Atom (VStr token));
                               ("user", Dict [("id", Atom (VStr (bson.str (_id u))));
                                              ("name", Atom (get u "name" VNone));
                                              ("email", Atom (get u "email" VNone))])]).
  { intros p w w' r H.
    destruct (login_accepted _ _ _ _ H) as (u & name & Hfind & _ & _ & Hname & -> & _).
    apply find_Some_elem in Hfind as [Hin He]. apply matches_email in He.
    split; [reflexivity|]. exists (entropy w 0%nat), u. split; [exact Hin|].
    unfold get. rewrite Hname, He. reflexivity. }
  split; [|split; [exact Hlogin|split]].
  - intros p w w' r H. rewrite (signup_response _ _ _ _ H). split; [reflexivity|].
    intros password. destruct (signup_succeeded _ _ _ _ H) as (Hnew & Hf0 & Hf1).
    rewrite (signup_created (mkSignupRequest (signup_name p) (signup_email p) password) w
               Hnew Hf0 Hf1).
    reflexivity.
  - intros authorization w w' r H.
    destruct (me_response _ _ _ _ H) as (ctx & Hctx & ->). split; [reflexivity|].
    pose proof (require_auth_redact authorization w) as Hred. rewrite Hctx in Hred.
    unfold Depends, bind.
    destruct (require_auth authorization (redact w)) as [[e|ctx'] w2]; simpl in Hred;
      [discriminate Hred|].
    injection Hred as ->. unfold me, ret; simpl.
    rewrite !get_without_digest by discriminate. reflexivity.
  - intros [| p | p | authorization | authorization | item_id authorization] w w' r H;
      simpl in H.
    + injection H as <- _. simpl. not_a_key.
    + rewrite (signup_response _ _ _ _ H). simpl. not_a_key.
    + rewrite (proj1 (Hlogin _ _ _ _ H)). not_a_key.
    + destruct (me_response _ _ _ _ H) as (ctx & _ & ->). simpl. not_a_key.
    + intros Hk. apply (get_watchlist_keys _ _ _ _ _ H) in Hk. revert Hk. not_a_key.
    + rewrite (delete_watchlist_response _ _ _ _ _ H). simpl. not_a_key.
Qed.

(** In the scenario: the responses to Ada's signup, login and /me. *)
Lemma responses_hide_digest_witness :
  (exists r, fst (signup Scenario.ada_signup Scenario.world0) = inr r
             /\ obj_keys r = ["token"; "user"; "id"; "name"; "email"])
  /\ (exists r, fst (login Scenario.ada_login Scenario.world1) = inr r
                /\ obj_keys r = ["token"; "user"; "id"; "name"; "email"])
  /\ (exists r, fst (Depends me (Some "Bearer T2") Scenario.world2) = inr r
                /\ obj_keys r = ["id"; "name"; "email"; "plan"]
                /\ fst (Depends me (Some "Bearer T2") (redact Scenario.world2)) = inr r).
Proof.
  destruct responses_hide_digest as (Hs & Hl & Hm & _).
  split; [|split].
  - eexists. split; [exact signup_ada|].
    exact (proj1 (Hs _ _ _ _ (pair_eq _ _ signup_ada))).
  - eexists. split; [exact login_ada|].
    exact (proj1 (Hl _ _ _ _ (pair_eq _ _ login_ada))).
  - eexists. split; [exact me_ada|].
    exact (Hm _ _ _ _ (pair_eq _ _ me_ada)).
Defined.

(** ** Deleting a watchlist item *)

Section Watchlist.

Lemma matches_item (oid : ObjectId) (uid : string) (d : document) :
  pymongo.matches [("_id", VOid oid); ("user_id", VStr uid)] d = true
  <-> _id d = oid /\ lookup_field d "user_id" = Some (VStr uid).
Proof.
  unfold pymongo.matches. cbn [forallb]. rewrite andb_true_r, andb_true_iff.
  unfold pymongo.field_matches. cbn [fst snd].
  rewrite lookup_field_id, bool_decide_eq_true.
  destruct (lookup_field d "user_id") as [v|]; rewrite bool_decide_eq_true;
    split; intros [H1 H2]; split; congruence.
Qed.

Lemma remove_first_split (p : document -> bool) (docs : list document) (x : document) :
  find p docs = Some x ->
  exists before after,
    docs = before ++ x :: after
    /\ pymongo.remove_first p docs = before ++ after
    /\ forall y, y ∈ before -> p y = false.
Proof.
  induction docs as [|d docs IH]; simpl; [discriminate|].
  destruct (p d) eqn:Hd.
  - intros [= ->]. exists [], docs. split; [reflexivity|]. split; [reflexivity|].
    intros y Hy. inversion Hy.
  - intros H. destruct (IH H) as (before & after & -> & -> & Hb).
    exists (d :: before), after. split; [reflexivity|]. split; [reflexivity|].
    intros y [->|Hy]%elem_of_cons; auto.
Qed.

(** With a well-formed identifier the deletion is owner-scoped: only a
    document with that [_id] and the caller's [user_id] is removed, and
    without one the call raises 404 and the store is untouched. *)
Lemma delete_watchlist_owner_scoped (item_id : string) (oid : ObjectId)
      (ctx : auth_ctx) (w : world) :
  bson.of_str item_id = Some oid ->
  ((forall d, d ∈ watchlist w -> ~ (_id d = oid /\ owned_by (ctx_user ctx) d)) ->
   delete_watchlist item_id ctx w = (inl (HTTPException 404 "Item not found"), w))
  /\
  (forall r w',
     delete_watchlist item_id ctx w = (inr r, w') ->
     exists before d after,
       watchlist w = before ++ d :: after
       /\ _id d = oid /\ owned_by (ctx_user ctx) d
       /\ watchlist w' = before ++ after
       /\ forall name, name <> "watchlistitem" ->
            pymongo.collection name w' = pymongo.collection name w).
Proof.
  intros Hid. rewrite delete_watchlist_eq, Hid; cbv zeta. split.
  - intros Hnone. destruct (find _ _) as [d|] eqn:E; [|reflexivity].
    apply find_Some_elem in E as [Hin Hm]. apply matches_item in Hm.
    destruct (Hnone d Hin Hm).
  - intros r w'. destruct (find _ _) as [d|] eqn:E; [|discriminate].
    intros [= _ <-].
    pose proof (find_Some_elem _ _ _ E) as [_ Hm]. apply matches_item in Hm as [Hd Ho].
    destruct (remove_first_split _ _ _ E) as (before & after & Hw & Hr & _).
    exists before, d, after. split; [exact Hw|]. split; [exact Hd|]. split; [exact Ho|].
    split.
    + unfold watchlist at 1. rewrite collection_insert. exact Hr.
    + intros name Hname. rewrite collection_insert_ne by congruence. reflexivity.
Qed.

Example delete_own_item :
  fst (Depends (delete_watchlist (Scenario.oid "0a4")) (Some "Bearer T2") Scenario.world3)
  = inr (Dict [("ok", Atom (VBool true))])
  /\ watchlist (snd (Depends (delete_watchlist (Scenario.oid "0a4")) (Some "Bearer T2")
                             Scenario.world3))
     = [Scenario.item_other].
Proof. split; vm_compute; reflexivity. Qed.

Example delete_foreign_item :
  fst (Depends (delete_watchlist (Scenario.oid "0b1")) (Some "Bearer T2") Scenario.world3)
  = inl (HTTPException 404 "Item not found")
  /\ watchlist (snd (Depends (delete_watchlist (Scenario.oid "0b1")) (Some "Bearer T2")
                             Scenario.world3))
     = watchlist Scenario.world3.
Proof. split; vm_compute; reflexivity. Qed.

End Watchlist.

(** C10. An [item_id] that is not 24 characters long names no stored
    item, yet the route does not answer 404 "Item not found":
    [ObjectId(item_id)] raises [InvalidId], which nothing catches.  The
    store is left untouched. *)
Theorem delete_watchlist_malformed_id
        (item_id : string) (authorization : option string) (ctx : auth_ctx) (w : world) :
  require_auth authorization w = (inr ctx, w) ->
  String.length item_id <> 24%nat ->
  (forall d, d ∈ watchlist w -> bson.str (_id d) <> item_id)
  /\ Depends (delete_watchlist item_id) authorization w = (inl InvalidId, w)
  /\ fst (Depends (delete_watchlist item_id) authorization w)
     <> inl (HTTPException 404 "Item not found").
Proof.
  intros Hauth Hlen.
  assert (Hid : bson.of_str item_id = None).
  { destruct (bson.of_str item_id) as [o|] eqn:E; [|reflexivity].
    apply of_str_length in E. contradiction. }
  assert (E : Depends (delete_watchlist item_id) authorization w = (inl InvalidId, w)).
  { unfold Depends, bind. rewrite Hauth, delete_watchlist_eq, Hid. reflexivity. }
  split; [|split].
  - intros d _ Hd. rewrite <- Hd, of_str_str in Hid. discriminate Hid.
  - exact E.
  - rewrite E. discriminate.
Qed.

(** In the scenario: Ada, authenticated with T2, deletes item "abc". *)
Lemma delete_watchlist_malformed_id_witness :
  Depends (delete_watchlist "abc") (Some "Bearer T2") Scenario.world3
  = (inl InvalidId, Scenario.world3).
Proof.
  apply (delete_watchlist_malformed_id "abc" (Some "Bearer T2")
           (Ctx Scenario.ada Scenario.session2) Scenario.world3).
  - apply require_auth_resolves; vm_compute; reflexivity.
  - simpl. lia.
Defined.

(** * Further properties of the code *)

(** ** The format of a credential digest *)

Section Digest.

Lemma round_length (st : list Z) (kw : Z * Z) :
  length st = 8%nat -> length (hashlib.round st kw) = 8%nat.
Proof.
  intros H.
  do 8 (destruct st as [|? st]; [discriminate H|]).
  destruct st; [reflexivity | discriminate H].
Qed.

Lemma rounds_length (l : list (Z * Z)) (st : list Z) :
  length st = 8%nat -> length (fold_left hashlib.round l st) = 8%nat.
Proof.
  revert st. induction l as [|kw l IH]; intros st H; simpl; [exact H|].
  apply IH, round_length, H.
Qed.

Lemma compress_length (h block : list Z) :
  length h = 8%nat -> length (hashlib.compress h block) = 8%nat.
Proof.
  intros H. unfold hashlib.compress. rewrite length_zip_with, rounds_length by exact H.
  rewrite H. reflexivity.
Qed.

Lemma compress_all_length (blocks : list (list Z)) (h : list Z) :
  length h = 8%nat -> length (fold_left hashlib.compress blocks h) = 8%nat.
Proof.
  revert h. induction blocks as [|b blocks IH]; intros h H; simpl; [exact H|].
  apply IH, compress_length, H.
Qed.

Lemma be_bytes_bytes (n : nat) (x : Z) : Forall is_byte (hashlib.be_bytes n x).
Proof.
  induction n as [|n IH]; simpl; constructor; [|exact IH].
  unfold is_byte. change 255%Z with (Z.ones 8). rewrite Z.land_ones by lia.
  apply Z.mod_pos_bound. reflexivity.
Qed.

Lemma be_bytes_length (n : nat) (x : Z) : length (hashlib.be_bytes n x) = n.
Proof. induction n as [|n IH]; simpl; [reflexivity | rewrite IH; reflexivity]. Qed.

Lemma digest_bytes (msg : list Z) :
  length (hashlib.sha256_digest msg) = 32%nat
  /\ Forall is_byte (hashlib.sha256_digest msg).
Proof.
  unfold hashlib.sha256_digest. cbv zeta.
  set (h := fold_left hashlib.compress _ hashlib.H0).
  assert (Hh : length h = 8%nat) by (apply compress_all_length; reflexivity).
  clearbody h. split.
  - do 8 (destruct h as [|? h]; [discriminate Hh|]).
    destruct h; [reflexivity | discriminate Hh].
  - apply Forall_forall. intros b Hb. apply list_elem_of_bind in Hb as (x & Hb & _).
    exact (proj1 (Forall_forall _ _) (be_bytes_bytes 4 x) b Hb).
Qed.

Lemma hexdigit_lower (n : Z) :
  (0 <= n < 16)%Z -> is_lower_hex (hashlib.hexdigit n) = true.
Proof.
  intros H. unfold hashlib.hexdigit.
  assert (Hk : (Z.to_nat n < 16)%nat) by lia.
  set (k := Z.to_nat n) in *. clearbody k.
  do 16 (destruct k as [|k]; [reflexivity|]). lia.
Qed.

Lemma hexlify_format (bs : list Z) :
  Forall is_byte bs ->
  String.length (hashlib.hexlify bs) = (2 * length bs)%nat
  /\ forallb is_lower_hex (list_ascii_of_string (hashlib.hexlify bs)) = true.
Proof.
  induction 1 as [|b bs Hb _ [IHl IHc]]; [split; reflexivity|].
  unfold is_byte in Hb.
  change (hashlib.hexlify (b :: bs))
    with (String (hashlib.hexdigit (Z.shiftr b 4))
            (String (hashlib.hexdigit (Z.land b 15)) (hashlib.hexlify bs))).
  split.
  - simpl. rewrite IHl. lia.
  - cbn [list_ascii_of_string forallb]. rewrite IHc, andb_true_r.
    rewrite !hexdigit_lower; [reflexivity | |].
    + change 15%Z with (Z.ones 4). rewrite Z.land_ones by lia.
      apply Z.mod_pos_bound. reflexivity.
    + rewrite Z.shiftr_div_pow2 by lia. change (2 ^ 4)%Z with 16%Z.
      split; [apply Z.div_pos; lia | apply Z.div_lt_upper_bound; lia].
Qed.

End Digest.

(** X1. Whatever the password, even the empty one, [hash_password]
    returns 64 characters, each a lower-case hexadecimal digit. *)
Theorem hash_password_format (password : string) :
  String.length (hash_password password) = 64%nat
  /\ forallb is_lower_hex (list_ascii_of_string (hash_password password)) = true.
Proof.
  unfold hash_password, hashlib.sha256_hexdigest.
  destruct (digest_bytes (hashlib.bytes_of_string password)) as [Hlen Hbytes].
  destruct (hexlify_format _ Hbytes) as [Hl Hc]. rewrite Hl, Hlen. split; [reflexivity | exact Hc].
Qed.

(** ** The guard, continued *)

Section GuardMore.

Lemma advance_zero (w : world) : advance 0 0 0 (db w) w = w.
Proof. destruct w. reflexivity. Qed.

Lemma ObjectId_of_world (v : value) (w : world) :
  snd (ObjectId_of v w) = w \/ snd (ObjectId_of v w) = advance 0 0 1 (db w) w.
Proof.
  destruct v as [| b | x | y | t]; simpl; auto.
  destruct (bson.of_str x); auto.
Qed.

Lemma require_auth_world (authorization : option string) (w : world) :
  snd (require_auth authorization w) = w
  \/ snd (require_auth authorization w) = advance 0 0 1 (db w) w.
Proof.
  destruct authorization as [a|]; [|left; reflexivity].
  destruct (py.startswith a "Bearer ") eqn:Hp.
  - apply startswith_Bearer in Hp as [token ->]. rewrite require_auth_Bearer.
    destruct (find _ _) as [s|]; [|left; reflexivity].
    destruct (lookup_field s "user_id") as [v|]; [|left; reflexivity].
    pose proof (ObjectId_of_world v w) as Hw.
    destruct (ObjectId_of v w) as [[e|oid] w1]; simpl in Hw; [exact Hw|].
    destruct (find _ _); exact Hw.
  - rewrite require_auth_no_prefix by exact Hp. left. reflexivity.
Qed.

Lemma require_auth_db (authorization : option string) (w : world) :
  db (snd (require_auth authorization w)) = db w.
Proof. destruct (require_auth_world authorization w) as [-> | ->]; reflexivity. Qed.

Lemma watchlist_rows_world (items : list document) (w : world) :
  snd (mapM (fun i =>
               symbol <- getitem i "symbol" ;;
               ret (Dict [("id", Atom (VStr (bson.str (_id i))));
                          ("symbol", Atom symbol);
                          ("note", Atom (get i "note" VNone))])) items w) = w.
Proof.
  induction items as [|i items IH]; [reflexivity|].
  cbn [mapM]. unfold bind at 1 2, getitem.
  destruct (lookup_field i "symbol") as [sym|]; [|reflexivity].
  unfold ret at 1 2. unfold bind at 1.
  destruct (mapM _ items w) as [[e|ys] w1]; simpl in IH; subst w1; reflexivity.
Qed.

Lemma get_watchlist_world (ctx : auth_ctx) (w : world) : snd (get_watchlist ctx w) = w.
Proof.
  unfold get_watchlist, bind at 1, pymongo.find_all, bind at 1.
  pose proof (watchlist_rows_world
                (List.filter
                   (pymongo.matches [("user_id", VStr (bson.str (_id (ctx_user ctx))))])
                   (pymongo.collection "watchlistitem" w)) w) as H.
  destruct (mapM _ _ w) as [[e|rows] w1]; simpl in H; subst w1; reflexivity.
Qed.

(** What an accepted header says about the principal. *)
Lemma require_auth_accepted (authorization : option string) (w w' : world) (ctx : auth_ctx) :
  require_auth authorization w = (inr ctx, w') ->
  exists token v oid,
    authorization = Some ("Bearer " +:+ token)
    /\ find (pymongo.matches [("token", VStr token)]) (sessions w) = Some (ctx_session ctx)
    /\ lookup_field (ctx_session ctx) "user_id" = Some v
    /\ ObjectId_of v w = (inr oid, w')
    /\ find (pymongo.matches [("_id", VOid oid)]) (users w') = Some (ctx_user ctx).
Proof.
  destruct authorization as [a|]; [|discriminate].
  destruct (py.startswith a "Bearer ") eqn:Hp.
  - apply startswith_Bearer in Hp as [token ->]. rewrite require_auth_Bearer.
    destruct (find _ _) as [s|] eqn:Es; [|discriminate].
    destruct (lookup_field s "user_id") as [v|] eqn:Ev; [|discriminate].
    destruct (ObjectId_of v w) as [[e|oid] w1] eqn:Eo; [discriminate|].
    destruct (find _ (users w1)) as [u|] eqn:Eu; [|discriminate].
    intros [= <- <-]. exists token, v, oid. simpl. auto.
  - rewrite require_auth_no_prefix by exact Hp. discriminate.
Qed.

Lemma reads_keep_store (authorization : option string) (w : world) :
  db (snd (Depends me authorization w)) = db w
  /\ db (snd (Depends get_watchlist authorization w)) = db w.
Proof.
  pose proof (require_auth_db authorization w) as Hdb.
  unfold Depends, bind.
  destruct (require_auth authorization w) as [[e|ctx] w1]; simpl in Hdb; [auto|].
  split; [exact Hdb|]. rewrite get_watchlist_world. exact Hdb.
Qed.

End GuardMore.

(** X2. The guard only reads: whatever the header and whatever the
    outcome, [require_auth] leaves every collection as it was, and so do
    the two reading routes GET /me and GET /watchlist. *)
Theorem guard_and_reads_keep_store (authorization : option string) (w : world) :
  db (snd (require_auth authorization w)) = db w
  /\ db (snd (Depends me authorization w)) = db w
  /\ db (snd (Depends get_watchlist authorization w)) = db w.
Proof.
  split; [apply require_auth_db | apply reads_keep_store].
Qed.

(** X3. An accepted header is sound: it is "Bearer " followed by a token,
    the session returned is a stored session carrying that very token,
    the user returned is a stored user, and when the session names its
    owner by a string, that string spells the user's [_id]. *)
Theorem require_auth_sound (authorization : option string) (w w' : world) (ctx : auth_ctx) :
  require_auth authorization w = (inr ctx, w') ->
  exists token,
    authorization = Some ("Bearer " +:+ token)
    /\ ctx_session ctx ∈ sessions w
    /\ has_token token (ctx_session ctx)
    /\ ctx_user ctx ∈ users w
    /\ forall uid, lookup_field (ctx_session ctx) "user_id" = Some (VStr uid) ->
                   bson.of_str uid = Some (_id (ctx_user ctx)).
Proof.
  intros H. pose proof (require_auth_db authorization w) as Hdb. rewrite H in Hdb.
  simpl in Hdb.
  destruct (require_auth_accepted _ _ _ _ H) as (token & v & oid & -> & Hs & Hv & Ho & Hu).
  apply find_Some_elem in Hs as [Hs Ht]. apply matches_token in Ht.
  apply find_Some_elem in Hu as [Hu Hid]. apply matches_id in Hid.
  rewrite <- (same_store_users w' w Hdb) in Hu.
  exists token. repeat split; try assumption.
  intros uid Huid. rewrite Hv in Huid. injection Huid as ->.
  unfold ObjectId_of in Ho. destruct (bson.of_str uid) as [o|]; [|discriminate Ho].
  injection Ho as -> _. rewrite Hid. reflexivity.
Qed.

(** In the scenario: T2 resolves to Ada and her second session. *)
Lemma require_auth_sound_witness :
  exists token,
    Some "Bearer T2" = Some ("Bearer " +:+ token)
    /\ Scenario.session2 ∈ sessions Scenario.world2
    /\ has_token token Scenario.session2
    /\ Scenario.ada ∈ users Scenario.world2.
Proof.
  destruct (require_auth_sound (Some "Bearer T2") Scenario.world2 Scenario.world2
              (Ctx Scenario.ada Scenario.session2))
    as (token & Hh & Hs & Ht & Hu & _).
  - apply require_auth_resolves; vm_compute; reflexivity.
  - exists token. auto.
Defined.

(** X4. A token whose session names a user that is no longer stored is
    refused with 401 "User not found", and the store is untouched. *)
Theorem require_auth_user_not_found
        (w : world) (token uid : string) (s : document) (oid : ObjectId) :
  s ∈ sessions w ->
  has_token token s ->
  unique_tokens (sessions w) ->
  lookup_field s "user_id" = Some (VStr uid) ->
  bson.of_str uid = Some oid ->
  fresh_id oid (users w) ->
  require_auth (Some ("Bearer " +:+ token)) w = (inl (HTTPException 401 "User not found"), w).
Proof.
  intros Hs Ht Huniq Hv Ho Hf. rewrite require_auth_Bearer.
  rewrite (find_unique _ (sessions w) s Hs (proj2 (matches_token _ _) Ht)).
  - rewrite Hv. unfold ObjectId_of. rewrite Ho. unfold ret.
    rewrite (find_id_fresh _ _ Hf). reflexivity.
  - intros y Hy Hm. apply matches_token in Hm. eapply Huniq; eauto.
Qed.

Lemma sessions_broken :
  sessions Tour.world_broken
  = [Scenario.session1; Tour.dangling; Tour.ownerless; Tour.misowned].
Proof. vm_compute. reflexivity. Qed.

Lemma unique_tokens_broken : unique_tokens (sessions Tour.world_broken).
Proof.
  intros s1 s2 t H1 H2 T1 T2. rewrite sessions_broken in H1, H2.
  repeat (apply elem_of_cons in H1 as [->|H1]); [| | | |inversion H1];
    repeat (apply elem_of_cons in H2 as [->|H2]); try (inversion H2; fail);
    try reflexivity; vm_compute in T1, T2; congruence.
Qed.

Lemma require_auth_user_not_found_witness :
  require_auth (Some "Bearer D1") Tour.world_broken
  = (inl (HTTPException 401 "User not found"), Tour.world_broken).
Proof.
  apply (require_auth_user_not_found Tour.world_broken "D1" (Scenario.oid "0e1") Tour.dangling
           (mkObjectId (Scenario.oid "0e1") I)).
  - rewrite sessions_broken. right. left.
  - vm_compute. reflexivity.
  - apply unique_tokens_broken.
  - vm_compute. reflexivity.
  - vm_compute. reflexivity.
  - apply existsb_fresh. vm_compute. reflexivity.
Defined.

(** X5. A token whose session record is malformed ends in an exception
    that nothing catches, not in a 401: [KeyError] when the record has no
    [user_id], [InvalidId] when its [user_id] is a string that is not 24
    characters long.  The store is untouched. *)
Theorem require_auth_malformed_session (w : world) (token : string) (s : document) :
  s ∈ sessions w ->
  has_token token s ->
  unique_tokens (sessions w) ->
  (lookup_field s "user_id" = None ->
   require_auth (Some ("Bearer " +:+ token)) w = (inl (KeyError "user_id"), w))
  /\ (forall uid, lookup_field s "user_id" = Some (VStr uid) ->
                  String.length uid <> 24%nat ->
      require_auth (Some ("Bearer " +:+ token)) w = (inl InvalidId, w)).
Proof.
  intros Hs Ht Huniq.
  assert (Hfind : find (pymongo.matches [("token", VStr token)]) (sessions w) = Some s).
  { apply find_unique; [exact Hs | apply matches_token, Ht |].
    intros y Hy Hm. apply matches_token in Hm. eapply Huniq; eauto. }
  split.
  - intros Hv. rewrite require_auth_Bearer, Hfind, Hv. reflexivity.
  - intros uid Hv Hlen. rewrite require_auth_Bearer, Hfind, Hv. unfold ObjectId_of.
    destruct (bson.of_str uid) as [o|] eqn:E; [|reflexivity].
    apply of_str_length in E. contradiction.
Qed.

Lemma require_auth_malformed_session_witness :
  require_auth (Some "Bearer D2") Tour.world_broken = (inl (KeyError "user_id"), Tour.world_broken)
  /\ require_auth (Some "Bearer D3") Tour.world_broken = (inl InvalidId, Tour.world_broken).
Proof.
  assert (H2 : Tour.ownerless ∈ sessions Tour.world_broken)
    by (rewrite sessions_broken; right; right; left).
  assert (H3 : Tour.misowned ∈ sessions Tour.world_broken)
    by (rewrite sessions_broken; right; right; right; left).
  assert (T2 : has_token "D2" Tour.ownerless) by (vm_compute; reflexivity).
  assert (T3 : has_token "D3" Tour.misowned) by (vm_compute; reflexivity).
  split.
  - apply (proj1 (require_auth_malformed_session Tour.world_broken "D2" Tour.ownerless
                    H2 T2 unique_tokens_broken)).
    vm_compute. reflexivity.
  - apply (proj2 (require_auth_malformed_session Tour.world_broken "D3" Tour.misowned
                    H3 T3 unique_tokens_broken) "ada").
    + vm_compute. reflexivity.
    + simpl. lia.
Defined.

(** ** Invariants of the store *)

Section Invariants.

Lemma remove_first_sublist (p : document -> bool) (docs : list document) :
  pymongo.remove_first p docs `sublist_of` docs.
Proof.
  induction docs as [|d docs IH]; simpl; [constructor|].
  destruct (p d); [apply sublist_cons_r; left; reflexivity | constructor; exact IH].
Qed.

Lemma unique_ids_remove_first (p : document -> bool) (docs : list document) :
  unique_ids docs -> unique_ids (pymongo.remove_first p docs).
Proof.
  unfold unique_ids. intros H.
  eapply sublist_NoDup; [exact H|]. apply fmap_sublist, remove_first_sublist.
Qed.

Lemma unique_ids_snoc (docs : list document) (d : document) :
  unique_ids docs -> fresh_id (_id d) docs -> unique_ids (docs ++ [d]).
Proof.
  unfold unique_ids. intros Hn Hf. rewrite fmap_app. apply NoDup_app.
  split; [exact Hn|]. split; [|apply NoDup_singleton].
  intros o Ho Hd. apply list_elem_of_singleton in Hd. subst o.
  apply list_elem_of_fmap in Ho as (x & Hx & Hin). exact (Hf x Hin (eq_sym Hx)).
Qed.

Lemma unique_emails_snoc (docs : list document) (d : document) (e : string) :
  unique_emails docs ->
  (forall u, u ∈ docs -> ~ has_email e u) ->
  has_email e d ->
  unique_emails (docs ++ [d]).
Proof.
  intros Hu Hnew Hd u1 u2 e' H1 H2 E1 E2.
  apply elem_of_app in H1 as [H1|H1], H2 as [H2|H2];
    try apply list_elem_of_singleton in H1; try apply list_elem_of_singleton in H2;
    subst.
  - eapply Hu; eauto.
  - exfalso. unfold has_email in *. apply (Hnew u1 H1). congruence.
  - exfalso. unfold has_email in *. apply (Hnew u2 H2). congruence.
  - reflexivity.
Qed.

Lemma unique_tokens_snoc (docs : list document) (s : document) (t : string) :
  unique_tokens docs -> fresh_token t docs -> has_token t s -> unique_tokens (docs ++ [s]).
Proof.
  intros Hu Hnew Hs s1 s2 t' H1 H2 E1 E2.
  apply elem_of_app in H1 as [H1|H1], H2 as [H2|H2];
    try apply list_elem_of_singleton in H1; try apply list_elem_of_singleton in H2;
    subst.
  - eapply Hu; eauto.
  - exfalso. unfold has_token in *. apply (Hnew s1 H1). congruence.
  - exfalso. unfold has_token in *. apply (Hnew s2 H2). congruence.
  - reflexivity.
Qed.

Lemma named_snoc (docs : list document) (d : document) :
  named docs -> is_Some (lookup_field d "name") -> named (docs ++ [d]).
Proof.
  intros Hn Hd u [Hu|Hu]%elem_of_app; [exact (Hn u Hu)|].
  apply list_elem_of_singleton in Hu. subst u. exact Hd.
Qed.

Lemma signup_step (p : SignupRequest) (w : world) :
  store_step w (entropy w 0%nat) (db (snd (signup p w))).
Proof.
  rewrite signup_eq.
  destruct (find _ _) eqn:E; [simpl; apply step_none|]. rewrite find_email_None in E. cbv zeta.
  destruct (existsb _ (users w)) eqn:X0; [simpl; apply step_none|]. apply existsb_fresh in X0.
  destruct (existsb _ (sessions w)) eqn:X1.
  - simpl. eapply step_user; [exact X0 | exact E | apply user_doc_email | ].
    eexists. reflexivity.
  - apply existsb_fresh in X1. simpl.
    eapply step_user_session;
      [exact X0 | exact E | apply user_doc_email | | exact X1 | apply session_doc_token].
    eexists. reflexivity.
Qed.

Lemma login_step (p : LoginRequest) (w : world) :
  store_step w (entropy w 0%nat) (db (snd (login p w))).
Proof.
  rewrite login_eq.
  destruct (find _ _) as [user|]; [|simpl; apply step_none].
  destruct (negb _); [simpl; apply step_none|].
  destruct (existsb _ _) eqn:X; [simpl; apply step_none|]. apply existsb_fresh in X. cbv zeta.
  assert (Hs : store_step w (entropy w 0%nat)
                 (<["session" := sessions w ++
                      [Doc (oid_gen w 0%nat)
                           (session_doc (bson.str (_id user)) (entropy w 0%nat) (clock w 0%nat)
                                        (clock w 1%nat + py.timedelta_days 7))]]> (db w)))
    by (apply step_session; [exact X | apply session_doc_token]).
  destruct (lookup_field user "name"), (lookup_field user "email"); exact Hs.
Qed.

Lemma delete_step (item_id : string) (authorization : option string) (w : world) (t : string) :
  store_step w t (db (snd (Depends (delete_watchlist item_id) authorization w))).
Proof.
  unfold Depends, bind. pose proof (require_auth_db authorization w) as Hdb.
  destruct (require_auth authorization w) as [[e|ctx] w1]; simpl in Hdb.
  - simpl. rewrite Hdb. apply step_none.
  - rewrite delete_watchlist_eq.
    destruct (bson.of_str item_id); [|simpl; rewrite Hdb; apply step_none].
    cbv zeta. destruct (find _ _); [|simpl; rewrite Hdb; apply step_none].
    simpl. unfold watchlist, pymongo.collection. rewrite Hdb. apply step_unlist.
Qed.

Lemma app_step (req : request) (w : world) :
  store_step w (entropy w 0%nat) (db (snd (app req w))).
Proof.
  destruct req as [| p | p | authorization | authorization | item_id authorization]; simpl.
  - apply step_none.
  - apply signup_step.
  - apply login_step.
  - rewrite (proj1 (reads_keep_store authorization w)). apply step_none.
  - rewrite (proj2 (reads_keep_store authorization w)). apply step_none.
  - apply delete_step.
Qed.

End Invariants.

Section InvariantsKept.

Lemma collection_of_db (name : string) (w : world) (store : gmap string (list document)) :
  db w = store -> pymongo.collection name w = default [] (store !! name).
Proof. intros <-. reflexivity. Qed.

Lemma store_step_ok (w w2 : world) (t : string) (store : gmap string (list document)) :
  db w2 = store -> store_step w t store -> store_ok w -> store_ok w2.
Proof.
  intros Hdb Hstep (Hui & Hue & Hn & Hsi & Hwi). unfold store_ok, users, sessions, watchlist.
  rewrite !(collection_of_db _ w2 store Hdb).
  destruct Hstep as [ | u e Hf Hnew He Hname | u s e Hf Hnew He Hname Hfs Ht | s Hfs Ht | p ].
  - repeat split; assumption.
  - rewrite lookup_insert_eq, !lookup_insert_ne by discriminate. simpl.
    repeat split; try assumption.
    + apply unique_ids_snoc; assumption.
    + eapply unique_emails_snoc; eassumption.
    + apply named_snoc; assumption.
  - rewrite (lookup_insert_ne _ "session" "user") by discriminate.
    rewrite !lookup_insert_eq, !lookup_insert_ne by discriminate. simpl.
    repeat split; try assumption.
    + apply unique_ids_snoc; assumption.
    + eapply unique_emails_snoc; eassumption.
    + apply named_snoc; assumption.
    + apply unique_ids_snoc; assumption.
  - rewrite lookup_insert_eq, !lookup_insert_ne by discriminate. simpl.
    repeat split; try assumption. apply unique_ids_snoc; assumption.
  - rewrite lookup_insert_eq, !lookup_insert_ne by discriminate. simpl.
    repeat split; try assumption. apply unique_ids_remove_first. assumption.
Qed.

Lemma store_step_tokens (w w2 : world) (t : string) (store : gmap string (list document)) :
  db w2 = store -> store_step w t store ->
  fresh_token t (sessions w) -> unique_tokens (sessions w) -> unique_tokens (sessions w2).
Proof.
  intros Hdb Hstep Hfresh Hu. change (sessions w2) with (pymongo.collection "session" w2).
  rewrite (collection_of_db _ w2 store Hdb).
  destruct Hstep as [ | u e Hf Hnew He Hname | u s e Hf Hnew He Hname Hfs Ht | s Hfs Ht | p ].
  - exact Hu.
  - rewrite lookup_insert_ne by discriminate. exact Hu.
  - rewrite lookup_insert_eq. simpl. eapply unique_tokens_snoc; eassumption.
  - rewrite lookup_insert_eq. simpl. eapply unique_tokens_snoc; eassumption.
  - rewrite lookup_insert_ne by discriminate. exact Hu.
Qed.

Lemma store_ok_empty (w : world) : db w = ∅ -> store_ok w.
Proof.
  intros H. unfold store_ok, users, sessions, watchlist.
  rewrite !(collection_of_db _ w ∅ H), !lookup_empty. simpl.
  repeat split; try apply NoDup_nil_2.
  - intros u1 u2 e H1. inversion H1.
  - intros u Hu. inversion Hu.
Qed.

End InvariantsKept.

(** X6. The store invariants are kept by every embedded route, whatever
    its input and its outcome: after the call [_id] is still unique among
    users, sessions and watchlist items, emails are unique among users,
    and every user has a name.  The routes check what they need (the
    email in Signup, the [_id] in every insert); nothing is assumed of the
    generators. *)
Theorem routes_keep_store_ok (req : request) (w : world) :
  store_ok w -> store_ok (snd (app req w)).
Proof. apply (store_step_ok w _ (entropy w 0%nat) _ eq_refl), app_step. Qed.

Lemma routes_keep_store_ok_witness :
  store_ok Scenario.world0
  /\ store_ok (snd (app (POST_auth_signup Scenario.ada_signup) Scenario.world0)).
Proof.
  assert (H : store_ok Scenario.world0) by (apply store_ok_empty; reflexivity).
  split; [exact H|].
  exact (routes_keep_store_ok (POST_auth_signup Scenario.ada_signup) Scenario.world0 H).
Defined.

(** X7. Tokens stay unique: when the token source delivers a token that
    no stored session carries, the sessions are still told apart by their
    tokens after any embedded route. *)
Theorem routes_keep_tokens_unique (req : request) (w : world) :
  fresh_token (entropy w 0%nat) (sessions w) ->
  unique_tokens (sessions w) ->
  unique_tokens (sessions (snd (app req w))).
Proof. apply (store_step_tokens w _ (entropy w 0%nat) _ eq_refl), app_step. Qed.

Lemma routes_keep_tokens_unique_witness :
  unique_tokens (sessions (snd (app (POST_auth_login Scenario.ada_login) Scenario.world1))).
Proof.
  apply routes_keep_tokens_unique.
  - apply find_token_fresh. vm_compute. reflexivity.
  - rewrite sessions_world1. intros s1 s2 t H1 H2 _ _.
    apply list_elem_of_singleton in H1, H2. congruence.
Defined.

(** ** Signup, login and /me in sequence *)

Section Sequences.

Lemma login_after_signup (p : SignupRequest) (w : world) (password : string) :
  (forall u, u ∈ users w -> ~ has_email (signup_email p) u) ->
  fresh_id (oid_gen w 0%nat) (users w) ->
  fresh_id (oid_gen w 1%nat) (sessions w) ->
  let w' := snd (signup p w) in
  (password = signup_password p ->
   fresh_id (oid_gen w 2%nat) (sessions w') ->
   fst (login (mkLoginRequest (signup_email p) password) w')
   = inr (Dict [("token", Atom (VStr (entropy w 1%nat)));
                ("user", Dict [("id", Atom (VStr (bson.str (oid_gen w 0%nat))));
                               ("name", Atom (VStr (signup_name p)));
                               ("email", Atom (VStr (signup_email p)))])]))
  /\ (hash_password password <> hash_password (signup_password p) ->
      login (mkLoginRequest (signup_email p) password) w'
      = (inl (HTTPException 401 "Invalid credentials"), w')).
Proof.
  intros Hnew Hf0 Hf1 w'. subst w'. rewrite (signup_created p w Hnew Hf0 Hf1). cbn [snd].
  set (u := Doc (oid_gen w 0%nat) _).
  set (s := Doc (oid_gen w 1%nat) _).
  set (w' := advance 6 1 2 _ w).
  assert (Hu : users w' = users w ++ [u]) by apply users_after_signup.
  assert (Hfind : find (pymongo.matches [("email", VStr (signup_email p))]) (users w')
                  = Some u).
  { rewrite Hu. apply find_appended; [apply find_email_None, Hnew|].
    apply matches_email. apply user_doc_email. }
  split.
  - intros -> Hf2. apply existsb_fresh in Hf2.
    rewrite login_eq. cbn [login_email login_password]. rewrite Hfind.
    rewrite (bool_decide_eq_true_2 _ (proj2 (get_digest u _) (user_doc_digest _ _ _ _))).
    cbn [negb]. change (oid_gen w' 0%nat) with (oid_gen w 2%nat). rewrite Hf2.
    reflexivity.
  - intros Hne. apply login_rejected. intros (x & Hin & He & Hd).
    cbn [login_email login_password] in He, Hd. rewrite Hu in Hin.
    apply elem_of_app in Hin as [Hin|Hin]; [exact (Hnew x Hin He)|].
    apply list_elem_of_singleton in Hin. subst x.
    pose proof (user_doc_digest (oid_gen w 0%nat)
                  (mkUser (signup_name p) (signup_email p) (hash_password (signup_password p))
                          None "free" (Some (clock w 0%nat)) (Some (clock w 1%nat)))
                  (clock w 2%nat) (clock w 3%nat)) as Hd'.
    unfold has_digest in Hd, Hd'. fold u in Hd'. rewrite Hd in Hd'.
    injection Hd' as Hd'. exact (Hne Hd').
Qed.

End Sequences.

(** X8. Signup then Login: after a successful Signup, a Login with the
    same email and password succeeds and returns the same public view of
    the user (same id, name and email) with a new token, while a Login
    with that email and a password of another digest is refused with 401
    "Invalid credentials".  The identifier generated for the new session
    is assumed unused. *)
Theorem signup_then_login (p : SignupRequest) (w w' : world) (r : obj) :
  signup p w = (inr r, w') ->
  (fresh_id (oid_gen w 2%nat) (sessions w') ->
   exists token token' view,
     r = Dict [("token", Atom (VStr token)); ("user", view)]
     /\ fst (login (mkLoginRequest (signup_email p) (signup_password p)) w')
        = inr (Dict [("token", Atom (VStr token')); ("user", view)]))
  /\ (forall password,
        hash_password password <> hash_password (signup_password p) ->
        login (mkLoginRequest (signup_email p) password) w'
        = (inl (HTTPException 401 "Invalid credentials"), w')).
Proof.
  intros H. destruct (signup_succeeded _ _ _ _ H) as (Hnew & Hf0 & Hf1).
  pose proof (signup_response _ _ _ _ H) as ->.
  assert (Hw : w' = snd (signup p w)) by (rewrite H; reflexivity). subst w'.
  split.
  - intros Hf2. eexists _, _, _. split; [reflexivity|].
    apply (proj1 (login_after_signup p w (signup_password p) Hnew Hf0 Hf1)); auto.
  - intros password Hne.
    apply (proj2 (login_after_signup p w password Hnew Hf0 Hf1)), Hne.
Qed.

(** In the scenario: Ada logs in after her signup; "wrong" is refused. *)
Lemma signup_then_login_witness :
  (exists r, fst (login Scenario.ada_login Scenario.world1) = inr r)
  /\ login Scenario.ada_wrong Scenario.world1
     = (inl (HTTPException 401 "Invalid credentials"), Scenario.world1).
Proof.
  destruct (signup_then_login Scenario.ada_signup Scenario.world0 Scenario.world1 _
              (pair_eq _ _ signup_ada)) as [Hok Hbad].
  split.
  - destruct Hok as (token & token' & view & _ & Hr).
    + apply existsb_fresh. vm_compute. reflexivity.
    + eexists. exact Hr.
  - apply (Hbad "wrong"). vm_compute. discriminate.
Defined.

(** X9. Login then /me: the token returned by a successful Login, sent
    to GET /me, yields the same id, name and email that Login returned,
    plus the plan of the user who logged in ("free" when the record has
    none), and changes nothing.  That user is the stored user with the
    email and the password digest of the request, and the id returned is
    the user's [_id].  The token is assumed not to be stored already and
    [_id] to be unique among users. *)
Theorem login_then_me (p : LoginRequest) (w w' : world) (r : obj) :
  login p w = (inr r, w') ->
  fresh_token (entropy w 0%nat) (sessions w) ->
  unique_ids (users w) ->
  exists token id name email u,
    r = Dict [("token", Atom (VStr token));
              ("user", Dict [("id", id); ("name", name); ("email", email)])]
    /\ u ∈ users w
    /\ has_email (login_email p) u
    /\ has_digest (hash_password (login_password p)) u
    /\ id = Atom (VStr (bson.str (_id u)))
    /\ Depends me (Some ("Bearer " +:+ token)) w'
       = (inr (Dict [("id", id); ("name", name); ("email", email);
                     ("plan", Atom (get u "plan" (VStr "free")))]), w').
Proof.
  intros H Htok Hids.
  destruct (login_accepted _ _ _ _ H) as (u0 & name0 & Hfind & Hdig & _ & Hname & Hr & _).
  apply find_Some_elem in Hfind as [Hin0 He0]. apply matches_email in He0.
  destruct (login_issues_token p w w' r H Htok Hids)
    as (token & u & s & name & Hr2 & Hin & _ & _ & _ & _ & _ & _ & Hauth).
  assert (u = u0) as ->.
  { apply (unique_ids_eq (users w)); try assumption.
    apply ObjectId_eq. rewrite Hr in Hr2. unfold bson.str in Hr2. congruence. }
  exists token, (Atom (VStr (bson.str (_id u0)))), (Atom name0),
         (Atom (VStr (login_email p))), u0.
  split; [rewrite Hr in Hr2 |- *; congruence|]. split; [exact Hin0|].
  split; [exact He0|]. split; [exact Hdig|]. split; [reflexivity|].
  unfold Depends, bind. rewrite (Hauth w' eq_refl). unfold me, ret. cbn [ctx_user].
  unfold get at 1 2. rewrite Hname, He0. reflexivity.
Qed.

Lemma login_then_me_witness :
  exists token id name email u,
    fst (login Scenario.ada_login Scenario.world1)
    = inr (Dict [("token", Atom (VStr token));
                 ("user", Dict [("id", id); ("name", name); ("email", email)])])
    /\ has_email "ada@example.com" u
    /\ Depends me (Some ("Bearer " +:+ token)) Scenario.world2
       = (inr (Dict [("id", id); ("name", name); ("email", email);
                     ("plan", Atom (get u "plan" (VStr "free")))]), Scenario.world2).
Proof.
  destruct (login_then_me Scenario.ada_login Scenario.world1 Scenario.world2 _
              (pair_eq _ _ login_ada))
    as (token & id & name & email & u & Hr & _ & He & _ & _ & Hme).
  - apply find_token_fresh. vm_compute. reflexivity.
  - apply unique_ids_world1.
  - exists token, id, name, email, u.
    split; [rewrite login_ada, Hr; reflexivity|]. split; [exact He | exact Hme].
Defined.

(** X10. A user record without [name]: a Login with its credentials
    raises [KeyError], which nothing catches, and it does so after the
    new session has been written: the session stays in the store though
    the caller never receives its token. *)
Theorem login_nameless_user (p : LoginRequest) (w : world) (u : document) :
  u ∈ users w ->
  unique_emails (users w) ->
  has_email (login_email p) u ->
  has_digest (hash_password (login_password p)) u ->
  lookup_field u "name" = None ->
  fresh_id (oid_gen w 0%nat) (sessions w) ->
  fst (login p w) = inl (KeyError "name")
  /\ exists s, sessions (snd (login p w)) = sessions w ++ [s]
               /\ has_token (entropy w 0%nat) s
               /\ owned_by u s.
Proof.
  intros Hin Hu He Hd Hname Hf. rewrite login_eq.
  rewrite (find_unique _ (users w) u Hin (proj2 (matches_email _ _) He)).
  - rewrite (bool_decide_eq_true_2 _ (proj2 (get_digest _ _) Hd)). cbn [negb].
    rewrite (proj2 (existsb_fresh _ _) Hf), Hname. cbv zeta.
    replace (lookup_field u "email") with (Some (VStr (login_email p))) by (symmetry; exact He).
    cbn [fst snd]. split; [reflexivity|]. eexists. rewrite sessions_after_login.
    split; [reflexivity|]. split; [apply session_doc_token | apply session_doc_user_id].
  - intros y Hy Hm. apply matches_email in Hm. eapply Hu; eauto.
Qed.

Lemma users_nameless : users Tour.world_nameless = [Tour.nameless].
Proof. vm_compute. reflexivity. Qed.

Lemma login_nameless_user_witness :
  fst (login Scenario.ada_login Tour.world_nameless) = inl (KeyError "name")
  /\ exists s, sessions (snd (login Scenario.ada_login Tour.world_nameless))
               = sessions Tour.world_nameless ++ [s].
Proof.
  destruct (login_nameless_user Scenario.ada_login Tour.world_nameless Tour.nameless)
    as [Hr (s & Hs & _)].
  - rewrite users_nameless. left.
  - rewrite users_nameless. apply unique_emails_singleton.
  - vm_compute. reflexivity.
  - vm_compute. reflexivity.
  - vm_compute. reflexivity.
  - apply existsb_fresh. vm_compute. reflexivity.
  - split; [exact Hr | exists s; exact Hs].
Defined.

(** ** No route revokes a token *)

Section Survival.

Lemma extends_intro (c e o : nat) (store : gmap string (list document)) (w : world)
      (new_sessions new_users : list document) :
  default [] (store !! "session") = sessions w ++ new_sessions ->
  default [] (store !! "user") = users w ++ new_users ->
  extends w (advance c e o store w).
Proof. intros Hs Hu. exists c, e, o, store. eauto. Qed.

Lemma extends_same_store (c e o : nat) (w : world) : extends w (advance c e o (db w) w).
Proof. apply (extends_intro c e o (db w) w [] []); rewrite app_nil_r; reflexivity. Qed.

Lemma extends_refl (w : world) : extends w w.
Proof. rewrite <- (advance_zero w) at 2. apply extends_same_store. Qed.

Lemma require_auth_extends (token : string) (ctx : auth_ctx) (w w2 : world) :
  require_auth (Some ("Bearer " +:+ token)) w = (inr ctx, w) ->
  extends w w2 ->
  require_auth (Some ("Bearer " +:+ token)) w2 = (inr ctx, w2).
Proof.
  intros H (c & e & o & store & -> & [ns Hs] & [nu Hu]).
  rewrite require_auth_Bearer in H |- *.
  destruct (find _ (sessions w)) as [s|] eqn:Ef; [|discriminate].
  replace (sessions (advance c e o store w)) with (sessions w ++ ns)
    by (symmetry; exact Hs).
  rewrite (find_app_Some _ _ _ _ Ef).
  destruct (lookup_field s "user_id") as [v|]; [|discriminate].
  destruct (ObjectId_of v w) as [[ex|oid] w1] eqn:EO; [discriminate|].
  destruct (find _ (users w1)) as [u|] eqn:Eu; [|discriminate].
  injection H as <- ->.
  rewrite (ObjectId_of_stable _ _ _ c e o store EO).
  replace (users (advance c e o store w)) with (users w ++ nu) by (symmetry; exact Hu).
  rewrite (find_app_Some _ _ _ _ Eu). reflexivity.
Qed.

Lemma signup_extends (p : SignupRequest) (w : world) : extends w (snd (signup p w)).
Proof.
  rewrite signup_eq.
  destruct (find _ _); [apply extends_refl|]. cbv zeta.
  destruct (existsb _ (users w)); [apply extends_same_store|].
  destruct (existsb _ (sessions w)); cbn [snd].
  - eapply extends_intro.
    + rewrite lookup_insert_ne by discriminate. symmetry. apply app_nil_r.
    + rewrite lookup_insert_eq. reflexivity.
  - eapply extends_intro.
    + rewrite lookup_insert_eq. reflexivity.
    + rewrite lookup_insert_ne, lookup_insert_eq by discriminate. reflexivity.
Qed.

Lemma login_extends (p : LoginRequest) (w : world) : extends w (snd (login p w)).
Proof.
  destruct (login_world p w) as [-> | [-> | [s ->]]].
  - apply extends_refl.
  - apply extends_same_store.
  - eapply extends_intro.
    + rewrite lookup_insert_eq. reflexivity.
    + rewrite lookup_insert_ne by discriminate. symmetry. apply app_nil_r.
Qed.

Lemma guard_extends (authorization : option string) (w : world) :
  extends w (snd (require_auth authorization w)).
Proof.
  destruct (require_auth_world authorization w) as [-> | ->];
    [apply extends_refl | apply extends_same_store].
Qed.

Lemma delete_extends (item_id : string) (authorization : option string) (w : world) :
  extends w (snd (Depends (delete_watchlist item_id) authorization w)).
Proof.
  unfold Depends, bind. pose proof (require_auth_world authorization w) as Hw.
  destruct (require_auth authorization w) as [[e|ctx] w1]; cbn [snd] in Hw.
  - destruct Hw as [-> | ->]; [apply extends_refl | apply extends_same_store].
  - rewrite delete_watchlist_eq.
    destruct (bson.of_str item_id);
      [|destruct Hw as [-> | ->]; [apply extends_refl | apply extends_same_store]].
    cbv zeta.
    destruct (find _ _);
      [|destruct Hw as [-> | ->]; [apply extends_refl | apply extends_same_store]].
    cbn [snd]. destruct Hw as [-> | ->].
    + apply (extends_intro _ _ _ _ w [] []);
        rewrite lookup_insert_ne, app_nil_r by discriminate; reflexivity.
    + match goal with
      | |- extends w (advance 0 0 0 ?store _) =>
          change (extends w (advance 0 0 1 store w))
      end.
      apply (extends_intro _ _ _ _ w [] []);
        rewrite lookup_insert_ne, app_nil_r by discriminate; reflexivity.
Qed.

Lemma app_extends (req : request) (w : world) : extends w (snd (app req w)).
Proof.
  destruct req as [| p | p | authorization | authorization | item_id authorization];
    cbn [app].
  - apply extends_refl.
  - apply signup_extends.
  - apply login_extends.
  - pose proof (guard_extends authorization w) as H. unfold Depends, bind.
    destruct (require_auth authorization w) as [[e|ctx] w1]; exact H.
  - pose proof (guard_extends authorization w) as H. unfold Depends, bind.
    destruct (require_auth authorization w) as [[e|ctx] w1]; [exact H|].
    rewrite get_watchlist_world. exact H.
  - apply delete_extends.
Qed.

End Survival.

(** X11. No embedded route revokes a token: a header that the guard
    accepts before a call to any route (with any input, whatever the
    outcome, including another user's Signup or a deletion) is accepted
    after it, with the same user and the same session. *)
Theorem tokens_survive_routes (req : request) (w : world) (token : string) (ctx : auth_ctx) :
  require_auth (Some ("Bearer " +:+ token)) w = (inr ctx, w) ->
  require_auth (Some ("Bearer " +:+ token)) (snd (app req w)) = (inr ctx, snd (app req w)).
Proof. intros H. apply (require_auth_extends token ctx w _ H), app_extends. Qed.

(** In the scenario: Ada's token T1 is accepted after Bob's signup. *)
Lemma tokens_survive_routes_witness :
  require_auth (Some "Bearer T1")
               (snd (app (POST_auth_signup Tour.bob_signup) Scenario.world1))
  = (inr (Ctx Scenario.ada Scenario.session1),
     snd (app (POST_auth_signup Tour.bob_signup) Scenario.world1)).
Proof.
  apply tokens_survive_routes.
  apply require_auth_resolves; vm_compute; reflexivity.
Defined.

(** ** The watchlist *)

Section WatchlistMore.

Lemma matches_user_id (uid : string) (d : document) :
  pymongo.matches [("user_id", VStr uid)] d
  = bool_decide (lookup_field d "user_id" = Some (VStr uid)).
Proof.
  apply eq_true_iff_eq. rewrite matches_single by discriminate.
  rewrite bool_decide_eq_true. reflexivity.
Qed.

Lemma find_all_owned (u : document) (docs : list document) :
  List.filter (pymongo.matches [("user_id", VStr (bson.str (_id u)))]) docs
  = owned_items u docs.
Proof. unfold owned_items. apply filter_ext. intros d. apply matches_user_id. Qed.

Lemma owned_items_elem (u d : document) (docs : list document) :
  d ∈ owned_items u docs <-> d ∈ docs /\ owned_by u d.
Proof.
  unfold owned_items, owned_by. rewrite !list_elem_of_In, filter_In, bool_decide_eq_true.
  reflexivity.
Qed.

Lemma watchlist_rows_ok (items : list document) (w : world) :
  Forall (fun i => is_Some (lookup_field i "symbol")) items ->
  mapM (fun i =>
          symbol <- getitem i "symbol" ;;
          ret (Dict [("id", Atom (VStr (bson.str (_id i))));
                     ("symbol", Atom symbol);
                     ("note", Atom (get i "note" VNone))])) items w
  = (inr (watchlist_row <$> items), w).
Proof.
  match goal with |- context [mapM ?g _ _] => set (f := g) end.
  induction 1 as [|i items [sym Hi] _ IH]; [reflexivity|].
  assert (Hf : f i w = (inr (watchlist_row i), w)).
  { unfold f, bind, getitem, watchlist_row, get. rewrite Hi. reflexivity. }
  cbn [mapM]. unfold bind at 1. rewrite Hf. unfold bind at 1. rewrite IH. reflexivity.
Qed.

Lemma watchlist_rows_fail (items : list document) (w : world) (i : document) :
  i ∈ items -> lookup_field i "symbol" = None ->
  fst (mapM (fun i =>
               symbol <- getitem i "symbol" ;;
               ret (Dict [("id", Atom (VStr (bson.str (_id i))));
                          ("symbol", Atom symbol);
                          ("note", Atom (get i "note" VNone))])) items w)
  = inl (KeyError "symbol").
Proof.
  match goal with |- context [mapM ?g _ _] => set (f := g) end.
  intros Hin Hi. induction items as [|j items IH]; [inversion Hin|].
  cbn [mapM]. unfold bind at 1.
  destruct (f j w) as [[e|y] w1] eqn:Hj.
  - unfold f, bind, getitem in Hj.
    destruct (lookup_field j "symbol"); [discriminate Hj|]. injection Hj as <- _. reflexivity.
  - assert (w1 = w) as ->.
    { unfold f, bind, getitem in Hj.
      destruct (lookup_field j "symbol"); [|discriminate Hj]. injection Hj as _ <-.
      reflexivity. }
    apply elem_of_cons in Hin as [->|Hin].
    + unfold f, bind, getitem in Hj. rewrite Hi in Hj. discriminate Hj.
    + specialize (IH Hin). unfold bind at 1.
      destruct (mapM f items w) as [[e|ys] w2]; simpl in IH |- *;
        [exact IH | discriminate IH].
Qed.

Lemma get_watchlist_eq (ctx : auth_ctx) (w : world) :
  get_watchlist ctx w
  = match mapM (fun i =>
                  symbol <- getitem i "symbol" ;;
                  ret (Dict [("id", Atom (VStr (bson.str (_id i))));
                             ("symbol", Atom symbol);
                             ("note", Atom (get i "note" VNone))]))
               (owned_items (ctx_user ctx) (watchlist w)) w with
    | (inr rows, w') => (inr (List rows), w')
    | (inl e, w') => (inl e, w')
    end.
Proof.
  unfold get_watchlist, bind at 1, pymongo.find_all, bind at 1.
  fold (watchlist w). rewrite find_all_owned.
  destruct (mapM _ _ w) as [[e|rows] w1]; reflexivity.
Qed.

Lemma remove_first_snoc (p : document -> bool) (docs : list document) (d : document) :
  find p docs = None -> p d = true -> pymongo.remove_first p (docs ++ [d]) = docs.
Proof.
  intros Hn Hd. induction docs as [|x docs IH]; simpl in *; [rewrite Hd; reflexivity|].
  destruct (p x); [discriminate Hn|]. rewrite IH by exact Hn. reflexivity.
Qed.

End WatchlistMore.

(** X12. GET /watchlist is owner-scoped: the handler returns, in store
    order, one row [{id, symbol, note}] for each stored item whose
    [user_id] is the caller's id and for no other item (a missing note is
    [None]), and leaves the world as it was.  Each of the caller's items
    is assumed to have a [symbol]. *)
Theorem get_watchlist_lists_own_items (ctx : auth_ctx) (w : world) :
  Forall (fun i => is_Some (lookup_field i "symbol")) (owned_items (ctx_user ctx) (watchlist w)) ->
  get_watchlist ctx w
  = (inr (List (watchlist_row <$> owned_items (ctx_user ctx) (watchlist w))), w)
  /\ forall d, d ∈ owned_items (ctx_user ctx) (watchlist w)
               <-> d ∈ watchlist w /\ owned_by (ctx_user ctx) d.
Proof.
  intros H. split; [|intros d; apply owned_items_elem].
  rewrite get_watchlist_eq, (watchlist_rows_ok _ w H). reflexivity.
Qed.

Lemma watchlist_listed :
  watchlist Tour.world_listed = [Scenario.item_other; Scenario.item_ada].
Proof. vm_compute. reflexivity. Qed.

Lemma owned_listed :
  owned_items Scenario.ada (watchlist Tour.world_listed) = [Scenario.item_ada].
Proof. vm_compute. reflexivity. Qed.

(** In the scenario: Ada sees her AAPL item and not the other user's. *)
Lemma get_watchlist_lists_own_items_witness :
  owned_items Scenario.ada (watchlist Tour.world_listed) = [Scenario.item_ada]
  /\ get_watchlist Tour.ada_ctx Tour.world_listed
     = (inr (List (watchlist_row
                     <$> owned_items (ctx_user Tour.ada_ctx) (watchlist Tour.world_listed))),
        Tour.world_listed).
Proof.
  split; [exact owned_listed|].
  apply (get_watchlist_lists_own_items Tour.ada_ctx Tour.world_listed).
  change (ctx_user Tour.ada_ctx) with Scenario.ada. rewrite owned_listed.
  constructor; [|constructor]. vm_compute. eauto.
Defined.

(** X13. One of the caller's items without [symbol] makes GET /watchlist
    raise [KeyError], which nothing catches: no row is returned, not even
    for the well-formed items.  The world is left as it was. *)
Theorem get_watchlist_missing_symbol (ctx : auth_ctx) (w : world) (i : document) :
  i ∈ watchlist w ->
  owned_by (ctx_user ctx) i ->
  lookup_field i "symbol" = None ->
  get_watchlist ctx w = (inl (KeyError "symbol"), w).
Proof.
  intros Hin Ho Hi.
  rewrite <- (get_watchlist_world ctx w) at 2. apply pair_eq.
  rewrite get_watchlist_eq.
  pose proof (watchlist_rows_fail (owned_items (ctx_user ctx) (watchlist w)) w i
                (proj2 (owned_items_elem _ _ _) (conj Hin Ho)) Hi) as H.
  destruct (mapM _ _ w) as [[e|rows] w1]; simpl in H |- *;
    [injection H as ->; reflexivity | discriminate H].
Qed.

Lemma get_watchlist_missing_symbol_witness :
  get_watchlist Tour.ada_ctx Tour.world_bare = (inl (KeyError "symbol"), Tour.world_bare).
Proof.
  apply (get_watchlist_missing_symbol Tour.ada_ctx Tour.world_bare Tour.item_bare).
  - assert (E : watchlist Tour.world_bare = [Scenario.item_ada; Tour.item_bare])
      by (vm_compute; reflexivity).
    rewrite E. right. left.
  - vm_compute. reflexivity.
  - vm_compute. reflexivity.
Defined.

Section DeleteRoute.

Lemma find_middle (p : document -> bool) (before after : list document) (d : document) :
  (forall y, y ∈ before -> p y = false) -> p d = true ->
  find p (before ++ d :: after) = Some d
  /\ pymongo.remove_first p (before ++ d :: after) = before ++ after.
Proof.
  intros Hb Hd. induction before as [|x before IH]; simpl.
  - rewrite Hd. split; reflexivity.
  - rewrite (Hb x) by left. destruct IH as [IH1 IH2].
    + intros y Hy. apply Hb. right. exact Hy.
    + rewrite IH1, IH2. split; reflexivity.
Qed.

Lemma unique_ids_before (before after : list document) (d y : document) :
  unique_ids (before ++ d :: after) -> y ∈ before -> _id y <> _id d.
Proof.
  unfold unique_ids. rewrite fmap_app, fmap_cons. intros H Hy E.
  apply NoDup_app in H as (_ & H & _).
  apply (H (_id y)); [apply list_elem_of_fmap; eauto | rewrite E; left].
Qed.

End DeleteRoute.

(** X14. DELETE /watchlist/{item_id} with an accepted token and a
    well-formed id (24 hexadecimal digits, in either case): when the item
    with that [_id] carries the caller's [user_id], exactly that item is
    removed, the remaining items keep their order and no other collection
    changes; when the item belongs to someone else, or no item has that
    [_id], the route raises 404 "Item not found" and the world is
    unchanged.  [_id] is unique among the items. *)
Theorem delete_route_owner_scoped
        (item_id : string) (oid : ObjectId) (authorization : option string)
        (ctx : auth_ctx) (w : world) :
  require_auth authorization w = (inr ctx, w) ->
  bson.of_str item_id = Some oid ->
  unique_ids (watchlist w) ->
  (forall d before after,
      watchlist w = before ++ d :: after ->
      _id d = oid ->
      owned_by (ctx_user ctx) d ->
      let result := Depends (delete_watchlist item_id) authorization w in
      fst result = inr (Dict [("ok", Atom (VBool true))])
      /\ watchlist (snd result) = before ++ after
      /\ forall name, name <> "watchlistitem" ->
           pymongo.collection name (snd result) = pymongo.collection name w)
  /\ ((forall d, d ∈ watchlist w -> _id d = oid -> ~ owned_by (ctx_user ctx) d) ->
      Depends (delete_watchlist item_id) authorization w
      = (inl (HTTPException 404 "Item not found"), w)).
Proof.
  intros Hauth Hid Hids.
  assert (E : Depends (delete_watchlist item_id) authorization w = delete_watchlist item_id ctx w)
    by (unfold Depends, bind; rewrite Hauth; reflexivity).
  rewrite E. split.
  - intros d before after Hw Hd Ho result. subst result.
    rewrite delete_watchlist_eq, Hid. cbv zeta.
    rewrite Hw in Hids |- *.
    destruct (find_middle
                (pymongo.matches [("_id", VOid oid);
                                  ("user_id", VStr (bson.str (_id (ctx_user ctx))))])
                before after d) as [Hf Hr].
    + intros y Hy. apply not_true_is_false. rewrite matches_item. intros [Hy' _].
      apply (unique_ids_before _ _ _ _ Hids Hy). congruence.
    + apply matches_item. split; assumption.
    + rewrite Hf, Hr. cbn [fst snd]. split; [reflexivity|]. split.
      * unfold watchlist. apply collection_insert.
      * intros name Hname. rewrite collection_insert_ne by congruence. reflexivity.
  - intros Hnone.
    apply (proj1 (delete_watchlist_owner_scoped item_id oid ctx w Hid)).
    intros d Hin [Hd Ho]. exact (Hnone d Hin Hd Ho).
Qed.

Lemma require_auth_listed :
  require_auth (Some "Bearer T2") Tour.world_listed = (inr Tour.ada_ctx, Tour.world_listed).
Proof. apply require_auth_resolves; vm_compute; reflexivity. Qed.

(** In the scenario: Ada deletes her own item, and cannot delete the
    other user's. *)
Lemma delete_route_owner_scoped_witness :
  watchlist (snd (Depends (delete_watchlist (Scenario.oid "0a4")) (Some "Bearer T2")
                          Tour.world_listed))
  = [Scenario.item_other]
  /\ Depends (delete_watchlist (Scenario.oid "0b1")) (Some "Bearer T2") Tour.world_listed
     = (inl (HTTPException 404 "Item not found"), Tour.world_listed).
Proof.
  assert (Hids : unique_ids (watchlist Tour.world_listed)).
  { rewrite watchlist_listed. unfold unique_ids. simpl.
    apply NoDup_cons. split; [|apply NoDup_singleton].
    intros H. apply list_elem_of_singleton in H. discriminate H. }
  split.
  - apply (proj1 (delete_route_owner_scoped (Scenario.oid "0a4") Scenario.o4
                    (Some "Bearer T2") Tour.ada_ctx Tour.world_listed
                    require_auth_listed ltac:(vm_compute; reflexivity) Hids)
             Scenario.item_ada [Scenario.item_other] []).
    + exact watchlist_listed.
    + reflexivity.
    + vm_compute. reflexivity.
  - apply (proj2 (delete_route_owner_scoped (Scenario.oid "0b1")
                    (mkObjectId (Scenario.oid "0b1") I)
                    (Some "Bearer T2") Tour.ada_ctx Tour.world_listed
                    require_auth_listed ltac:(vm_compute; reflexivity) Hids)).
    intros d Hin Hd. rewrite watchlist_listed in Hin.
    apply elem_of_cons in Hin as [->|Hin].
    + vm_compute. discriminate.
    + apply list_elem_of_singleton in Hin. subst d. vm_compute in Hd. discriminate Hd.
Defined.

(** ** POST /watchlist *)

Section AddWatchlist.

Variable upper : string -> string.

Lemma add_watchlist_eq (item : WatchlistCreate) (ctx : auth_ctx) (w : world) :
  add_watchlist upper item ctx w =
  if existsb (fun x => bool_decide (_id x = oid_gen w 0%nat)) (watchlist w)
  then (inl DuplicateKeyError, advance 3 0 1 (db w) w)
  else (inr (Dict [("id", Atom (VStr (bson.str (oid_gen w 0%nat))));
                   ("symbol", Atom (VStr (upper (create_symbol item))));
                   ("note", Atom (opt_str (create_note item)))]),
        advance 3 0 1 (<["watchlistitem" := watchlist w ++ [stored_item upper item ctx w]]> (db w)) w).
Proof.
  unfold add_watchlist, bind.
  cbv [create_document datetime.now pymongo.insert_one bind new_ObjectId].
  cbn [db clock entropy oid_gen].
  rewrite collection_World. fold (watchlist w).
  destruct (existsb _ _); reflexivity.
Qed.

Lemma stored_owned (item : WatchlistCreate) (ctx : auth_ctx) (w : world) (u : document) :
  owned_by u (stored_item upper item ctx w) <-> _id u = _id (ctx_user ctx).
Proof.
  unfold owned_by, stored_item, lookup_field. cbn [fields _id].
  assert (E : timestamped
                (model_dump (mkWatchlistItem (bson.str (_id (ctx_user ctx)))
                                             (upper (create_symbol item)) (create_note item)
                                             (Some (clock w 0%nat))))
                (clock w 1%nat) (clock w 2%nat) !! "user_id"
              = Some (VStr (bson.str (_id (ctx_user ctx))))) by reflexivity.
  change (String.eqb "user_id" "_id") with false. cbv iota.
  rewrite E. split.
  - intros [= H]. symmetry. apply ObjectId_eq. exact H.
  - intros ->. reflexivity.
Qed.

Lemma stored_row (item : WatchlistCreate) (ctx : auth_ctx) (w : world) :
  watchlist_row (stored_item upper item ctx w)
  = Dict [("id", Atom (VStr (bson.str (oid_gen w 0%nat))));
          ("symbol", Atom (VStr (upper (create_symbol item))));
          ("note", Atom (opt_str (create_note item)))].
Proof. destruct item as [symbol [note|]]; reflexivity. Qed.

Lemma owned_items_snoc (u d : document) (docs : list document) :
  owned_by u d -> owned_items u (docs ++ [d]) = owned_items u docs ++ [d].
Proof.
  unfold owned_items, owned_by. intros H. rewrite List.filter_app. simpl.
  rewrite bool_decide_eq_true_2 by exact H. reflexivity.
Qed.

Lemma owned_items_snoc_other (u d : document) (docs : list document) :
  ~ owned_by u d -> owned_items u (docs ++ [d]) = owned_items u docs.
Proof.
  unfold owned_items, owned_by. intros H. rewrite List.filter_app. simpl.
  rewrite bool_decide_eq_false_2 by exact H. apply app_nil_r.
Qed.

Lemma add_watchlist_listed (item : WatchlistCreate) (ctx : auth_ctx) (w : world) :
  fresh_id (oid_gen w 0%nat) (watchlist w) ->
  exists w',
    add_watchlist upper item ctx w = (inr (watchlist_row (stored_item upper item ctx w)), w')
    /\ watchlist w' = watchlist w ++ [stored_item upper item ctx w]
    /\ forall name, name <> "watchlistitem" ->
         pymongo.collection name w' = pymongo.collection name w.
Proof.
  intros Hfresh. rewrite add_watchlist_eq, stored_row.
  rewrite (proj2 (existsb_fresh _ _) Hfresh).
  eexists. split; [reflexivity|]. split.
  - unfold watchlist at 1. apply collection_insert.
  - intros name Hname. rewrite collection_insert_ne by congruence. reflexivity.
Qed.

End AddWatchlist.

(** X15. POST /watchlist followed by GET /watchlist: when the driver's
    next identifier is not yet in the collection, the handler stores one
    new item and returns [{id, symbol, note}] with the symbol upper-cased
    and the note as given; the caller's next listing is the former
    listing followed by exactly that row, and the items that any other
    user owns are the same as before.  Nothing is checked against the
    items already stored, so a symbol added twice is listed twice.
    ([create_document] is modelled from the specification.) *)
Theorem add_watchlist_then_list
        (upper : string -> string) (item : WatchlistCreate) (ctx : auth_ctx) (w : world) :
  fresh_id (oid_gen w 0%nat) (watchlist w) ->
  Forall (fun i => is_Some (lookup_field i "symbol"))
         (owned_items (ctx_user ctx) (watchlist w)) ->
  exists row w',
    add_watchlist upper item ctx w = (inr row, w')
    /\ row = Dict [("id", Atom (VStr (bson.str (oid_gen w 0%nat))));
                   ("symbol", Atom (VStr (upper (create_symbol item))));
                   ("note", Atom (opt_str (create_note item)))]
    /\ get_watchlist ctx w'
       = (inr (List ((watchlist_row <$> owned_items (ctx_user ctx) (watchlist w)) ++ [row])),
          w')
    /\ forall other, _id other <> _id (ctx_user ctx) ->
         owned_items other (watchlist w') = owned_items other (watchlist w).
Proof.
  intros Hfresh Hsym.
  destruct (add_watchlist_listed upper item ctx w Hfresh) as (w' & Hadd & Hw & _).
  exists (watchlist_row (stored_item upper item ctx w)), w'.
  split; [exact Hadd|]. split; [apply stored_row|]. split.
  - rewrite get_watchlist_eq, Hw.
    rewrite owned_items_snoc by (apply (stored_owned upper item ctx w); reflexivity).
    rewrite watchlist_rows_ok.
    + rewrite fmap_app. reflexivity.
    + apply Forall_app. split; [exact Hsym|].
      constructor; [|constructor]. eexists. reflexivity.
  - intros other Hother. rewrite Hw. apply owned_items_snoc_other.
    intros H. apply Hother. apply (stored_owned upper item ctx w other). exact H.
Qed.

(** In the scenario: Ada adds "tsla" and then sees AAPL and TSLA. *)
Lemma add_watchlist_then_list_witness :
  exists row w',
    add_watchlist pystr.ascii_upper Tour.tsla Tour.ada_ctx Tour.world_listed = (inr row, w')
    /\ row = Dict [("id", Atom (VStr (Scenario.oid "0a1")));
                   ("symbol", Atom (VStr "TSLA"));
                   ("note", Atom (VStr "earnings"))]
    /\ get_watchlist Tour.ada_ctx w'
       = (inr (List ((watchlist_row
                        <$> owned_items (ctx_user Tour.ada_ctx) (watchlist Tour.world_listed))
                     ++ [row])), w')
    /\ forall other, _id other <> _id (ctx_user Tour.ada_ctx) ->
         owned_items other (watchlist w') = owned_items other (watchlist Tour.world_listed).
Proof.
  apply (add_watchlist_then_list pystr.ascii_upper Tour.tsla Tour.ada_ctx Tour.world_listed).
  - intros d Hd. rewrite watchlist_listed in Hd.
    apply elem_of_cons in Hd as [->|Hd]; [discriminate|].
    apply list_elem_of_singleton in Hd. subst d. discriminate.
  - change (ctx_user Tour.ada_ctx) with Scenario.ada. rewrite owned_listed.
    constructor; [|constructor]. vm_compute. eauto.
Defined.

(** X16. POST /watchlist followed by DELETE /watchlist/{id} with the
    returned id: when the driver's next identifier is not yet in the
    collection, the deletion succeeds with [{"ok": True}] and the
    watchlist and every other collection are as they were before the
    item was added.  ([create_document] is modelled from the
    specification.) *)
Theorem add_watchlist_then_delete
        (upper : string -> string) (item : WatchlistCreate) (ctx : auth_ctx) (w : world) :
  fresh_id (oid_gen w 0%nat) (watchlist w) ->
  exists new_id symbol note w' w'',
    add_watchlist upper item ctx w
    = (inr (Dict [("id", Atom (VStr new_id)); ("symbol", symbol); ("note", note)]), w')
    /\ delete_watchlist new_id ctx w' = (inr (Dict [("ok", Atom (VBool true))]), w'')
    /\ forall name, pymongo.collection name w'' = pymongo.collection name w.
Proof.
  intros Hfresh.
  destruct (add_watchlist_listed upper item ctx w Hfresh) as (w' & Hadd & Hw & Hothers).
  rewrite stored_row in Hadd.
  do 3 eexists. exists w'. eexists. split; [exact Hadd|].
  rewrite delete_watchlist_eq, of_str_str. cbv zeta. fold (watchlist w'). rewrite Hw.
  set (flt := pymongo.matches _).
  assert (Hnone : find flt (watchlist w) = None).
  { apply find_None_iff. intros x Hx. apply not_true_is_false. unfold flt.
    rewrite matches_item. intros [Hid _]. exact (Hfresh x Hx Hid). }
  assert (Hd : flt (stored_item upper item ctx w) = true).
  { unfold flt. apply matches_item. split; [reflexivity|].
    apply (stored_owned upper item ctx w). reflexivity. }
  rewrite (find_appended _ _ _ Hnone Hd).
  rewrite remove_first_snoc by assumption.
  split; [reflexivity|].
  intros name. destruct (decide (name = "watchlistitem")) as [->|Hname].
  - rewrite collection_insert. reflexivity.
  - rewrite collection_insert_ne by congruence. apply Hothers. exact Hname.
Qed.

(** In the scenario: Ada adds "tsla" and deletes it again. *)
Lemma add_watchlist_then_delete_witness :
  exists new_id symbol note w' w'',
    add_watchlist pystr.ascii_upper Tour.tsla Tour.ada_ctx Tour.world_listed
    = (inr (Dict [("id", Atom (VStr new_id)); ("symbol", symbol); ("note", note)]), w')
    /\ delete_watchlist new_id Tour.ada_ctx w' = (inr (Dict [("ok", Atom (VBool true))]), w'')
    /\ forall name, pymongo.collection name w'' = pymongo.collection name Tour.world_listed.
Proof.
  apply (add_watchlist_then_delete pystr.ascii_upper Tour.tsla Tour.ada_ctx Tour.world_listed).
  intros d Hd. rewrite watchlist_listed in Hd.
  apply elem_of_cons in Hd as [->|Hd]; [discriminate|].
  apply list_elem_of_singleton in Hd. subst d. discriminate.
Defined.

(** ** POST /chat *)

Section ChatRoute.

Variables upper lower : string -> string.

Lemma contains_mentions (word text : string) :
  pystr.contains word text = true <-> mentions word text.
Proof.
  unfold mentions. induction text as [|c text IH].
  - cbn [pystr.contains]. rewrite orb_false_r, prefix_append. split.
    + intros [rest H]. exists "", rest. exact H.
    + intros ([|c before] & after & H); [|discriminate H]. exists after. exact H.
  - cbn [pystr.contains]. rewrite orb_true_iff, prefix_append, IH. split.
    + intros [[rest H]|(before & after & H)].
      * exists "", rest. exact H.
      * exists (String c before), after. simpl. rewrite H. reflexivity.
    + intros ([|c' before] & after & H).
      * left. exists after. exact H.
      * right. simpl in H. injection H as _ H. exists before, after. exact H.
Qed.

Lemma chat_eq (payload : ChatPayload) (ctx : auth_ctx) (w : world) :
  chat upper lower payload ctx w =
  let user_id := bson.str (_id (ctx_user ctx)) in
  let text := lower (chat_message payload) in
  let reply :=
    match find (fun sym => pystr.contains sym text) ["aapl"; "tsla"; "msft"; "btc"; "eth"] with
    | Some sym =>
        "Quick take on " +:+ upper sym
        +:+ ": trend is up on daily, wait for pullback to 20EMA for better risk/reward."
    | None =>
        if existsb (fun sym => pystr.contains sym text) ["buy"; "sell"; "entry"; "exit"]
        then "General guidance only: manage risk, set stops, and size positions responsibly."
        else "I'm your trading copilot. Ask me about a symbol like AAPL or BTC."
    end in
  let asked := chat_doc (oid_gen w 0%nat) user_id "user" (chat_message payload)
                        (clock w 0%nat) (clock w 1%nat) (clock w 2%nat) in
  let answered := chat_doc (oid_gen w 1%nat) user_id "assistant" reply
                           (clock w 3%nat) (clock w 4%nat) (clock w 5%nat) in
  if existsb (fun x => bool_decide (_id x = oid_gen w 0%nat)) (chats w)
  then (inl DuplicateKeyError, advance 3 0 1 (db w) w)
  else
    let store := <["chatmessage" := chats w ++ [asked]]> (db w) in
    if existsb (fun x => bool_decide (_id x = oid_gen w 1%nat)) (chats w ++ [asked])
    then (inl DuplicateKeyError, advance 6 0 2 store w)
    else (inr (Dict [("reply", Atom (VStr reply))]),
          advance 6 0 2 (<["chatmessage" := (chats w ++ [asked]) ++ [answered]]> store) w).
Proof.
  unfold chat, bind.
  cbv [create_document datetime.now pymongo.insert_one bind new_ObjectId].
  cbn [db clock entropy oid_gen].
  rewrite collection_World.
  change (default [] (db w !! "chatmessage")) with (chats w).
  destruct (existsb _ (chats w)); [reflexivity|].
  cbv [pymongo.set_collection ret]. cbn [db clock entropy oid_gen].
  rewrite !collection_World, !lookup_insert_eq. cbn [default from_option].
  destruct (existsb _ _); reflexivity.
Qed.

Lemma chat_fresh (o0 o1 : ObjectId) (docs : list document) (d : document) :
  fresh_id o1 docs -> _id d <> o1 ->
  existsb (fun x => bool_decide (_id x = o1)) (docs ++ [d]) = false.
Proof.
  intros H Hd. apply existsb_fresh. intros x Hx.
  apply elem_of_app in Hx as [Hx|Hx]; [exact (H x Hx)|].
  apply list_elem_of_singleton in Hx. subst x. exact Hd.
Qed.

End ChatRoute.

Ltac decide_mentions text :=
  repeat match goal with
         | H : mentions _ text |- _ => apply contains_mentions in H
         | H : ~ mentions _ text |- _ =>
             rewrite <- contains_mentions in H; apply not_true_is_false in H
         end;
  repeat match goal with
         | H : pystr.contains _ text = _ |- _ => rewrite ?H; clear H
         end.

(** X17. POST /chat stores both sides of the exchange: when the driver's
    next two identifiers are distinct and not yet in the collection, the
    handler returns [{"reply": reply}] and appends exactly two chat
    messages, in this order: the caller's message as sent (not
    lower-cased) with role "user", then the reply with role "assistant",
    both under the caller's id.  No other collection changes.
    ([create_document] is modelled from the specification.) *)
Theorem chat_stores_exchange
        (upper lower : string -> string) (payload : ChatPayload) (ctx : auth_ctx) (w : world) :
  fresh_id (oid_gen w 0%nat) (chats w) ->
  fresh_id (oid_gen w 1%nat) (chats w) ->
  oid_gen w 0%nat <> oid_gen w 1%nat ->
  exists reply asked answered w',
    chat upper lower payload ctx w = (inr (Dict [("reply", Atom (VStr reply))]), w')
    /\ chats w' = chats w ++ [asked; answered]
    /\ owned_by (ctx_user ctx) asked
    /\ lookup_field asked "role" = Some (VStr "user")
    /\ lookup_field asked "content" = Some (VStr (chat_message payload))
    /\ owned_by (ctx_user ctx) answered
    /\ lookup_field answered "role" = Some (VStr "assistant")
    /\ lookup_field answered "content" = Some (VStr reply)
    /\ forall name, name <> "chatmessage" ->
         pymongo.collection name w' = pymongo.collection name w.
Proof.
  intros H0 H1 Hne. rewrite chat_eq. cbv zeta.
  rewrite (proj2 (existsb_fresh _ _) H0).
  rewrite (chat_fresh (oid_gen w 0%nat)) by assumption.
  do 4 eexists. split; [reflexivity|]. split.
  - unfold chats at 1. rewrite collection_insert, <- app_assoc. reflexivity.
  - repeat (split; [reflexivity|]).
    intros name Hname. rewrite collection_insert_ne by congruence.
    unfold pymongo.collection. cbn [db advance].
    rewrite lookup_insert_ne by congruence. reflexivity.
Qed.

(** In the scenario: Ada's first chat message. *)
Lemma chat_stores_exchange_witness :
  exists reply asked answered w',
    chat pystr.ascii_upper pystr.ascii_lower (mkChatPayload "Should I buy TSLA?")
         Tour.ada_ctx Tour.world_listed
    = (inr (Dict [("reply", Atom (VStr reply))]), w')
    /\ chats w' = chats Tour.world_listed ++ [asked; answered]
    /\ owned_by (ctx_user Tour.ada_ctx) asked
    /\ lookup_field asked "role" = Some (VStr "user")
    /\ lookup_field asked "content" = Some (VStr "Should I buy TSLA?")
    /\ owned_by (ctx_user Tour.ada_ctx) answered
    /\ lookup_field answered "role" = Some (VStr "assistant")
    /\ lookup_field answered "content" = Some (VStr reply)
    /\ forall name, name <> "chatmessage" ->
         pymongo.collection name w' = pymongo.collection name Tour.world_listed.
Proof.
  assert (E : chats Tour.world_listed = []) by (vm_compute; reflexivity).
  apply (chat_stores_exchange pystr.ascii_upper pystr.ascii_lower
           (mkChatPayload "Should I buy TSLA?") Tour.ada_ctx Tour.world_listed).
  - rewrite E. intros d Hd. inversion Hd.
  - rewrite E. intros d Hd. inversion Hd.
  - discriminate.
Defined.

(** X18. The reply of POST /chat, decided on the lower-cased message by
    substring search: the first of "aapl", "tsla", "msft", "btc", "eth"
    that occurs anywhere in it (also inside a longer word) selects the
    quick take on that symbol, upper-cased, whether or not a trading
    keyword occurs as well; with no symbol, one of "buy", "sell", "entry",
    "exit" selects the general guidance; otherwise the greeting is
    returned.  The driver's next two identifiers are assumed distinct and
    not yet in the collection.  ([create_document] is modelled from the
    specification.) *)
Theorem chat_reply_precedence
        (upper lower : string -> string) (payload : ChatPayload) (ctx : auth_ctx) (w : world) :
  fresh_id (oid_gen w 0%nat) (chats w) ->
  fresh_id (oid_gen w 1%nat) (chats w) ->
  oid_gen w 0%nat <> oid_gen w 1%nat ->
  let text := lower (chat_message payload) in
  let quick_take sym :=
    "Quick take on " +:+ upper sym
    +:+ ": trend is up on daily, wait for pullback to 20EMA for better risk/reward." in
  exists reply,
    fst (chat upper lower payload ctx w) = inr (Dict [("reply", Atom (VStr reply))])
    /\ (mentions "aapl" text -> reply = quick_take "aapl")
    /\ (~ mentions "aapl" text -> mentions "tsla" text -> reply = quick_take "tsla")
    /\ (~ mentions "aapl" text -> ~ mentions "tsla" text -> mentions "msft" text ->
        reply = quick_take "msft")
    /\ (~ mentions "aapl" text -> ~ mentions "tsla" text -> ~ mentions "msft" text ->
        mentions "btc" text -> reply = quick_take "btc")
    /\ (~ mentions "aapl" text -> ~ mentions "tsla" text -> ~ mentions "msft" text ->
        ~ mentions "btc" text -> mentions "eth" text -> reply = quick_take "eth")
    /\ (~ mentions "aapl" text -> ~ mentions "tsla" text -> ~ mentions "msft" text ->
        ~ mentions "btc" text -> ~ mentions "eth" text ->
        (mentions "buy" text \/ mentions "sell" text
         \/ mentions "entry" text \/ mentions "exit" text ->
         reply
         = "General guidance only: manage risk, set stops, and size positions responsibly.")
        /\ (~ mentions "buy" text -> ~ mentions "sell" text ->
            ~ mentions "entry" text -> ~ mentions "exit" text ->
            reply = "I'm your trading copilot. Ask me about a symbol like AAPL or BTC.")).
Proof.
  intros H0 H1 Hne text quick_take. rewrite chat_eq. cbv zeta.
  rewrite (proj2 (existsb_fresh _ _) H0).
  rewrite (chat_fresh (oid_gen w 0%nat)) by assumption.
  cbn [fst]. eexists. split; [reflexivity|].
  fold text. cbn [find existsb]. subst quick_take. cbv beta.
  repeat split; intros.
  - decide_mentions text. reflexivity.
  - decide_mentions text. reflexivity.
  - decide_mentions text. reflexivity.
  - decide_mentions text. reflexivity.
  - decide_mentions text. reflexivity.
  - match goal with H : _ \/ _ |- _ => destruct H as [H|[H|[H|H]]] end;
      decide_mentions text;
      repeat match goal with |- context [pystr.contains ?s text] =>
               destruct (pystr.contains s text) end;
      reflexivity.
  - decide_mentions text. reflexivity.
Qed.

(** In the scenario: "method" contains "eth", and the symbol wins over
    the keyword "sell". *)
Lemma chat_reply_precedence_witness :
  fst (chat pystr.ascii_upper pystr.ascii_lower (mkChatPayload "Which METHOD to sell?")
            Tour.ada_ctx Tour.world_listed)
  = inr (Dict [("reply",
                Atom (VStr "Quick take on ETH: trend is up on daily, wait for pullback to 20EMA for better risk/reward."))]).
Proof.
  assert (E : chats Tour.world_listed = []) by (vm_compute; reflexivity).
  destruct (chat_reply_precedence pystr.ascii_upper pystr.ascii_lower
              (mkChatPayload "Which METHOD to sell?") Tour.ada_ctx Tour.world_listed)
    as (reply & Hr & _ & _ & _ & _ & Heth & _).
  - rewrite E. intros d Hd. inversion Hd.
  - rewrite E. intros d Hd. inversion Hd.
  - discriminate.
  - rewrite Hr, Heth.
    + reflexivity.
    + intros H. apply contains_mentions in H. discriminate H.
    + intros H. apply contains_mentions in H. discriminate H.
    + intros H. apply contains_mentions in H. discriminate H.
    + intros H. apply contains_mentions in H. discriminate H.
    + apply contains_mentions. reflexivity.
Defined.

(** ** GET /test *)

Section Diagnostics.

Lemma take_chars_prefix (n : nat) (s : string) :
  exists rest,
    s = pystr.take_chars n s +:+ rest
    /\ (char_count (pystr.take_chars n s) <= n)%nat
    /\ (rest = "" \/ char_count (pystr.take_chars n s) = n).
Proof.
  revert n. induction s as [|c s IH]; intros n.
  - exists "". simpl. split; [reflexivity|]. split; [lia|]. left. reflexivity.
  - cbn [pystr.take_chars]. destruct (pystr.is_continuation c) eqn:Hc.
    + destruct (IH n) as (rest & Hs & Hle & Hrest). exists rest.
      cbn [char_count]. rewrite Hc. split; [|split; assumption].
      change (String c s = String c (pystr.take_chars n s +:+ rest)).
      f_equal. exact Hs.
    + destruct n as [|n].
      * exists (String c s). split; [reflexivity|]. split; [simpl; lia|]. right. reflexivity.
      * destruct (IH n) as (rest & Hs & Hle & Hrest). exists rest.
        cbn [char_count]. rewrite Hc. split; [|split].
        -- change (String c s = String c (pystr.take_chars n s +:+ rest)).
           f_equal. exact Hs.
        -- lia.
        -- destruct Hrest as [Hrest|Hrest]; [left; exact Hrest|right].
           rewrite Hrest. reflexivity.
Qed.

Example test_database_connected :
  test_database (Some Tour.handle_ok) {[ "DATABASE_URL" := "mongodb://db"; "DATABASE_NAME" := "" ]}
  = Dict [("backend", Atom (VStr "✅ Running"));
          ("database", Atom (VStr "✅ Connected & Working"));
          ("database_url", Atom (VStr "✅ Set"));
          ("database_name", Atom (VStr "❌ Not Set"));
          ("connection_status", Atom (VStr "Connected"));
          ("collections",
           List ((fun c => Atom (VStr c)) <$> ["a"; "b"; "c"; "d"; "e"; "f"; "g"; "h"; "i"; "j"]))].
Proof. vm_compute. reflexivity. Qed.

Example test_database_down :
  test_database (Some Tour.handle_down) ∅
  = Dict [("backend", Atom (VStr "✅ Running"));
          ("database", Atom (VStr "⚠️  Connected but Error: connection refused"));
          ("database_url", Atom (VStr "❌ Not Set"));
          ("database_name", Atom (VStr "❌ Not Set"));
          ("connection_status", Atom (VStr "Connected"));
          ("collections", List [])].
Proof. vm_compute. reflexivity. Qed.

End Diagnostics.

(** X19. GET /test always answers with the same six keys in the same
    order.  [database_url] and [database_name] report only whether the
    environment variables DATABASE_URL and DATABASE_NAME are set and not
    empty: the values first written from the database handle
    ("✅ Configured", the name of the database) never reach the response,
    and neither does the initial "❌ Not Available".  At most ten
    collection names are listed, and [connection_status] is "Connected"
    exactly when a database handle exists. *)
Theorem test_database_shape (db : option db_handle) (environ : gmap string string) :
  exists database status names,
    test_database db environ
    = Dict [("backend", Atom (VStr "✅ Running"));
            ("database", Atom (VStr database));
            ("database_url",
             Atom (VStr (if getenv_truthy environ "DATABASE_URL" then "✅ Set" else "❌ Not Set")));
            ("database_name",
             Atom (VStr (if getenv_truthy environ "DATABASE_NAME" then "✅ Set" else "❌ Not Set")));
            ("connection_status", Atom (VStr status));
            ("collections", List ((fun c => Atom (VStr c)) <$> names))]
    /\ (length names <= 10)%nat
    /\ database <> "❌ Not Available"
    /\ database <> "✅ Available"
    /\ (status = "Connected" <-> is_Some db)
    /\ (status = "Not Connected" <-> db = None).
Proof.
  destruct db as [[name [e|all]]|].
  - exists ("⚠️  Connected but Error: " +:+ pystr.take_chars 50 e), "Connected", [].
    split; [reflexivity|]. split; [simpl; lia|].
    split; [discriminate|]. split; [discriminate|].
    split; split; eauto; discriminate.
  - exists "✅ Connected & Working", "Connected", (take 10 all).
    split; [reflexivity|]. split; [rewrite length_take; lia|].
    split; [discriminate|]. split; [discriminate|].
    split; split; eauto; discriminate.
  - exists "⚠️  Available but not initialized", "Not Connected", [].
    split; [reflexivity|]. split; [simpl; lia|].
    split; [discriminate|]. split; [discriminate|].
    split; split; try reflexivity; try discriminate.
    intros [x Hx]. discriminate Hx.
Qed.

(** X20. What GET /test shows of the database.  Without a handle:
    "⚠️  Available but not initialized" and no collections.  With a handle
    whose listing succeeds: "✅ Connected & Working" and the first ten
    names of the listing, in order.  With a handle whose listing raises:
    "⚠️  Connected but Error: " followed by the first 50 characters of the
    exception's message (a prefix of it, all of it when it is shorter),
    and no collections; the exception does not escape. *)
Theorem test_database_listing (db : option db_handle) (environ : gmap string string) :
  let shows database names :=
    test_database db environ
    = Dict [("backend", Atom (VStr "✅ Running"));
            ("database", Atom (VStr database));
            ("database_url",
             Atom (VStr (if getenv_truthy environ "DATABASE_URL" then "✅ Set" else "❌ Not Set")));
            ("database_name",
             Atom (VStr (if getenv_truthy environ "DATABASE_NAME" then "✅ Set" else "❌ Not Set")));
            ("connection_status",
             Atom (VStr (match db with Some _ => "Connected" | None => "Not Connected" end)));
            ("collections", List ((fun c => Atom (VStr c)) <$> names))] in
  match db with
  | None => shows "⚠️  Available but not initialized" []
  | Some handle =>
      match handle_list_collection_names handle with
      | inr all =>
          exists rest, all = take 10 all ++ rest
                       /\ (rest = [] \/ length (take 10 all) = 10%nat)
                       /\ shows "✅ Connected & Working" (take 10 all)
      | inl message =>
          exists shown rest,
            message = shown +:+ rest
            /\ (char_count shown <= 50)%nat
            /\ (rest = "" \/ char_count shown = 50%nat)
            /\ shows ("⚠️  Connected but Error: " +:+ shown) []
      end
  end.
Proof.
  intros shows. destruct db as [[name [message|all]]|]; cbn [handle_list_collection_names].
  - destruct (take_chars_prefix 50 message) as (rest & Hm & Hle & Hrest).
    exists (pystr.take_chars 50 message), rest.
    split; [exact Hm|]. split; [exact Hle|]. split; [exact Hrest|]. reflexivity.
  - exists (drop 10 all). split; [symmetry; apply take_drop|]. split; [|reflexivity].
    destruct (decide (length all <= 10)%nat) as [Hl|Hl].
    + left. apply drop_ge. exact Hl.
    + right. rewrite length_take. lia.
  - reflexivity.
Qed.

(** ** What the two writing routes leave alone *)

Section WritesFrame.

Variables upper lower : string -> string.

Lemma add_watchlist_frame (item : WatchlistCreate) (ctx : auth_ctx) (w : world) :
  exists c e o store,
    snd (add_watchlist upper item ctx w) = advance c e o store w
    /\ (forall name, name <> "watchlistitem" -> default [] (store !! name) = pymongo.collection name w)
    /\ (unique_ids (watchlist w) -> unique_ids (default [] (store !! "watchlistitem"))).
Proof.
  rewrite add_watchlist_eq.
  destruct (existsb _ _) eqn:E; cbn [snd]; do 3 eexists.
  - exists (db w). split; [reflexivity|]. split; [reflexivity|]. intros H. exact H.
  - eexists. split; [reflexivity|]. split.
    + intros name Hname. rewrite lookup_insert_ne by congruence. reflexivity.
    + intros H. rewrite lookup_insert_eq. cbn [default from_option].
      apply unique_ids_snoc; [exact H|]. apply existsb_fresh. exact E.
Qed.

Lemma chat_frame (payload : ChatPayload) (ctx : auth_ctx) (w : world) :
  exists c e o store,
    snd (chat upper lower payload ctx w) = advance c e o store w
    /\ (forall name, name <> "chatmessage" -> default [] (store !! name) = pymongo.collection name w)
    /\ (unique_ids (chats w) -> unique_ids (default [] (store !! "chatmessage"))).
Proof.
  rewrite chat_eq. cbv zeta.
  destruct (existsb _ (chats w)) eqn:E0; cbn [snd].
  - do 3 eexists. exists (db w). split; [reflexivity|]. split; [reflexivity|]. intros H. exact H.
  - destruct (existsb _ (chats w ++ _)) eqn:E1; cbn [snd]; do 4 eexists.
    + split; [reflexivity|]. split.
      * intros name Hname. rewrite lookup_insert_ne by congruence. reflexivity.
      * intros H. rewrite lookup_insert_eq. cbn [default from_option].
        apply unique_ids_snoc; [exact H|]. apply existsb_fresh. exact E0.
    + split; [reflexivity|]. split.
      * intros name Hname. rewrite !lookup_insert_ne by congruence. reflexivity.
      * intros H. rewrite lookup_insert_eq. cbn [default from_option].
        apply unique_ids_snoc.
        -- apply unique_ids_snoc; [exact H|]. apply existsb_fresh. exact E0.
        -- apply existsb_fresh. exact E1.
Qed.

Lemma frame_extends (w : world) (c e o : nat) (store : gmap string (list document))
      (touched : string) :
  touched <> "user" -> touched <> "session" ->
  (forall name, name <> touched -> default [] (store !! name) = pymongo.collection name w) ->
  extends w (advance c e o store w).
Proof.
  intros Hu Hs H. apply (extends_intro c e o store w [] []); rewrite app_nil_r.
  - apply H. congruence.
  - apply H. congruence.
Qed.

End WritesFrame.

(** X21. POST /watchlist and POST /chat, whatever their input and
    whatever their outcome, never touch the users or the sessions, so a
    token that the guard accepts before the call is accepted after it
    with the same user and session; each writes to its own collection
    only, and [_id] stays unique there.  ([create_document] is modelled
    from the specification.) *)
Theorem writes_keep_accounts
        (upper lower : string -> string) (item : WatchlistCreate) (payload : ChatPayload)
        (caller : auth_ctx) (w : world) (token : string) (ctx : auth_ctx) :
  require_auth (Some ("Bearer " +:+ token)) w = (inr ctx, w) ->
  unique_ids (watchlist w) ->
  unique_ids (chats w) ->
  let w1 := snd (add_watchlist upper item caller w) in
  let w2 := snd (chat upper lower payload caller w) in
  (require_auth (Some ("Bearer " +:+ token)) w1 = (inr ctx, w1)
   /\ unique_ids (watchlist w1)
   /\ forall name, name <> "watchlistitem" ->
        pymongo.collection name w1 = pymongo.collection name w)
  /\ (require_auth (Some ("Bearer " +:+ token)) w2 = (inr ctx, w2)
      /\ unique_ids (chats w2)
      /\ forall name, name <> "chatmessage" ->
           pymongo.collection name w2 = pymongo.collection name w).
Proof.
  intros Hauth Hw Hc w1 w2. split.
  - destruct (add_watchlist_frame upper item caller w) as (c & e & o & store & E & Hframe & Hids).
    subst w1. rewrite E. split; [|split].
    + apply (require_auth_extends token ctx w _ Hauth).
      apply (frame_extends w c e o store "watchlistitem"); [discriminate..|exact Hframe].
    + apply Hids. exact Hw.
    + exact Hframe.
  - destruct (chat_frame upper lower payload caller w) as (c & e & o & store & E & Hframe & Hids).
    subst w2. rewrite E. split; [|split].
    + apply (require_auth_extends token ctx w _ Hauth).
      apply (frame_extends w c e o store "chatmessage"); [discriminate..|exact Hframe].
    + apply Hids. exact Hc.
    + exact Hframe.
Qed.

(** In the scenario: Ada's token T2 is accepted after she adds an item
    and after she chats. *)
Lemma writes_keep_accounts_witness :
  let w1 := snd (add_watchlist pystr.ascii_upper Tour.tsla Tour.ada_ctx Tour.world_listed) in
  let w2 := snd (chat pystr.ascii_upper pystr.ascii_lower (mkChatPayload "exit?")
                      Tour.ada_ctx Tour.world_listed) in
  (require_auth (Some ("Bearer " +:+ "T2")) w1 = (inr Tour.ada_ctx, w1)
   /\ unique_ids (watchlist w1)
   /\ forall name, name <> "watchlistitem" ->
        pymongo.collection name w1 = pymongo.collection name Tour.world_listed)
  /\ (require_auth (Some ("Bearer " +:+ "T2")) w2 = (inr Tour.ada_ctx, w2)
      /\ unique_ids (chats w2)
      /\ forall name, name <> "chatmessage" ->
           pymongo.collection name w2 = pymongo.collection name Tour.world_listed).
Proof.
  apply (writes_keep_accounts pystr.ascii_upper pystr.ascii_lower Tour.tsla
           (mkChatPayload "exit?") Tour.ada_ctx Tour.world_listed "T2" Tour.ada_ctx).
  - exact require_auth_listed.
  - rewrite watchlist_listed. unfold unique_ids. simpl.
    apply NoDup_cons. split; [|apply NoDup_singleton].
    intros H. apply list_elem_of_singleton in H. discriminate H.
  - assert (E : chats Tour.world_listed = []) by (vm_compute; reflexivity).
    rewrite E. apply NoDup_nil_2.
Defined.
